(** * StockScreen: the metrics derivation and screening-scoring pipeline

    A shallow embedding of the numerical core of the screener
    ([src/calculations] and [src/screening]) and the properties its
    specification states about it.

    Conventions of the embedding.
    - A Python [float] is an exact rational ([Q]); rounding is not modelled.
      Equalities between computed numbers are therefore stated with [==]
      where the two sides are built by different expressions.
    - [None] is [option]'s [None].  Inside a pandas frame a missing cell is
      [NaN], which is a float and is truthy; it is modelled where the code
      reads frame cells with [Series.get] (module [Metrics]) and where a
      value read there travels on: the ROIC of a company, the values of
      the filter results and the score.
    - A statement dict [{date: {field: value}}] is the list of its inner
      dicts in the column order of the parsed frame (the [sort_index] call
      is taken as done); [_df_to_dict] of the fetcher stores only non-NaN
      cells, so an inner dict is a finite map from field names to numbers.
    - Methods that mutate [self] take the object and return the new one. *)

From Stdlib Require Import QArith Qminmax Qabs Lqa.
From Stdlib Require Import Sorting.Sorted Permutation.
From stdpp Require Import gmap strings list fin_maps pretty.

Open Scope string_scope.
Open Scope list_scope.
Open Scope Q_scope.

(** ** Python values *)

Module Py.

(** Truthiness of an [Optional[float]]: [None] and [0.0] are falsy. *)
Definition truthy (x : option Q) : bool :=
  match x with
  | None => false
  | Some q => negb (Qeq_bool q 0)
  end.

(** [x or y] *)
Definition or (x y : option Q) : option Q :=
  if truthy x then x else y.

(** [a < b] on floats *)
Definition ltb (a b : Q) : bool := negb (Qle_bool b a).

(** The builtin [min(a, b)]: [b] replaces [a] only when [b < a]. *)
Definition min (a b : Q) : Q := if ltb b a then b else a.

(** The builtin [max(a, b)]: [b] replaces [a] only when [b > a]. *)
Definition max (a b : Q) : Q := if ltb a b then b else a.

(** [sum(values)], accumulating from [0] left to right. *)
Definition sum (values : list Q) : Q := fold_left Qplus values 0.

(** A truthy string: not [None] and not empty. *)
Definition truthy_str (s : option string) : option string :=
  match s with
  | Some EmptyString => None
  | other => other
  end.

End Py.

(** ** Decimal renderings

    The f-strings of [filters.py] go through Python's number formatting.
    The filters below take the renderings as parameters; these ones, on
    exact rationals, serve to run the examples. *)

Module Render.

(** The integer nearest to [q], ties to the even one. *)
Definition round_half_even (q : Q) : Z :=
  let n := Qnum q in
  let d := Z.pos (Qden q) in
  let low := (n / d)%Z in
  let twice_rest := (2 * (n mod d))%Z in
  if (twice_rest <? d)%Z then low
  else if (d <? twice_rest)%Z then (low + 1)%Z
  else if Z.even low then low else (low + 1)%Z.

Fixpoint zeros (n : nat) : string :=
  match n with
  | O => EmptyString
  | S n' => "0" +:+ zeros n'
  end.

(** [format(q, '.<digits>f')] *)
Definition format_fixed (digits : nat) (q : Q) : string :=
  let scale := (10 ^ Z.of_nat digits)%Z in
  let n := round_half_even (q * inject_Z scale) in
  let sign := if (n <? 0)%Z then "-" else EmptyString in
  let whole := pretty (Z.abs n / scale)%Z in
  let rest := pretty (Z.abs n mod scale)%Z in
  match digits with
  | O => sign +:+ whole
  | _ => sign +:+ whole +:+ "." +:+ zeros (digits - String.length rest) +:+ rest
  end.

(** [str(z)] on an int. *)
Definition str_int (z : Z) : string := pretty z.

(** [str(q)] on a float with at most one decimal, such as the thresholds
    of [config.py]. *)
Definition str_float (q : Q) : string := format_fixed 1 q.

End Render.

(** ** pandas frames *)

(** A frame built by [pd.DataFrame(data)] from a dict of dicts: the row
    labels are the union of the inner dicts' keys, and a cell is NaN where
    the inner dict of its column has no such key.  Column slicing
    ([iloc[:, :n]]) keeps the row labels. *)
Record DataFrame := mkDataFrame {
  df_index : gset string;
  df_columns : list (gmap string Q)
}.

Definition pd_DataFrame (data : list (gmap string Q)) : DataFrame :=
  {| df_index := ⋃ (dom <$> data); df_columns := data |}.

(** [df.empty]: no column or no row. *)
Definition df_empty (df : DataFrame) : bool :=
  match df_columns df with
  | [] => true
  | _ => bool_decide (df_index df = ∅)
  end.

(** [df.shape[1]] *)
Definition df_ncols (df : DataFrame) : nat := length (df_columns df).

(** [df.iloc[:, :n]] *)
Definition iloc_first (n : nat) (df : DataFrame) : DataFrame :=
  {| df_index := df_index df; df_columns := take n (df_columns df) |}.

(** [df.loc[field].dropna()] for a [field] of the index: the cells of the
    row that are not NaN, in column order. *)
Definition loc_dropna (df : DataFrame) (field : string) : list Q :=
  omap (λ col : gmap string Q, col !! field) (df_columns df).

(** [_parse_quarterly] / [_parse_annual]: [None] for a missing or empty
    dict, else the frame. *)
Definition parse_frame (data : option (list (gmap string Q))) : option DataFrame :=
  match data with
  | None | Some [] => None
  | Some cols => Some (pd_DataFrame cols)
  end.

(** ** ttm_calculator.py *)

Module TTM.

Record TTMCalculator := mkTTM {
  _quarterly_financials : option DataFrame;
  _quarterly_cashflow : option DataFrame;
  _quarterly_balance : option DataFrame
}.

Definition _get_last_n_quarters (df : option DataFrame) (n : nat) : option DataFrame :=
  match df with
  | None => None
  | Some d =>
      if df_empty d then None
      else if (df_ncols d <? n)%nat then None
      else Some (iloc_first n d)
  end.

Definition _sum_quarters (df : option DataFrame) (field : string) (n : nat) : option Q :=
  match _get_last_n_quarters df n with
  | None => None
  | Some quarters =>
      if negb (bool_decide (field ∈ df_index quarters)) then None
      else
        let values := loc_dropna quarters field in
        if (length values <? n)%nat then None
        else Some (Py.sum values)
  end.


Definition get_ttm_net_income (self : TTMCalculator) : option Q :=
  _sum_quarters (_quarterly_financials self) "Net Income" 4.

Definition get_ttm_operating_income (self : TTMCalculator) : option Q :=
  Py.or (_sum_quarters (_quarterly_financials self) "Operating Income" 4)
        (_sum_quarters (_quarterly_financials self) "EBIT" 4).

Definition get_ttm_operating_cashflow (self : TTMCalculator) : option Q :=
  Py.or (_sum_quarters (_quarterly_cashflow self) "Operating Cash Flow" 4)
        (_sum_quarters (_quarterly_cashflow self)
           "Cash Flow From Continuing Operating Activities" 4).

Definition get_ttm_capex (self : TTMCalculator) : option Q :=
  _sum_quarters (_quarterly_cashflow self) "Capital Expenditure" 4.

Definition get_ttm_fcf (self : TTMCalculator) : option Q :=
  match _sum_quarters (_quarterly_cashflow self) "Free Cash Flow" 4 with
  | Some direct_fcf => Some direct_fcf
  | None =>
      match get_ttm_operating_cashflow self, get_ttm_capex self with
      | None, _ => None
      | Some ocf, None => Some ocf
      | Some ocf, Some capex =>
          if Py.ltb capex 0 then Some (ocf + capex) else Some (ocf - capex)
      end
  end.

(** [get_latest_balance_sheet_item]: the first cell of the row that is not
    NaN, columns most recent first. *)
Definition get_latest_balance_sheet_item (self : TTMCalculator) (field : string)
  : option Q :=
  match _quarterly_balance self with
  | None => None
  | Some df =>
      if df_empty df then None
      else if negb (bool_decide (field ∈ df_index df)) then None
      else
        match loc_dropna df field with
        | [] => None
        | latest :: _ => Some latest
        end
  end.

End TTM.

(** ** growth_analyzer.py *)

Module Growth.

(** The annual income frame, columns oldest first. *)
Record GrowthAnalyzer := mkGrowth {
  _annual_financials : option DataFrame
}.

Definition _get_metric_series (self : GrowthAnalyzer) (field : string) : option (list Q) :=
  match _annual_financials self with
  | None => None
  | Some df =>
      if negb (bool_decide (field ∈ df_index df)) then None
      else
        match loc_dropna df field with
        | [] => None
        | series => Some series
        end
  end.

(** One comparison of the loop body: [previous > 0 and current > previous]. *)
Definition grew (current previous : Q) : bool :=
  Py.ltb 0 previous && Py.ltb previous current.

(** The [for i in range(len(values) - 1)] loop over [values[i]] and
    [values[i + 1]], with its [break]. *)
Fixpoint growth_loop (values : list Q) (consecutive : nat) : nat :=
  match values with
  | current :: (previous :: _) as rest =>
      if grew current previous then growth_loop rest (S consecutive)
      else consecutive
  | _ => consecutive
  end.

Definition count_consecutive_growth_years (self : GrowthAnalyzer) (field : string) : nat :=
  match _get_metric_series self field with
  | None => 0%nat
  | Some series =>
      if (length series <? 2)%nat then 0%nat
      else growth_loop (rev series) 0
  end.

Definition get_revenue_growth_years (self : GrowthAnalyzer) : nat :=
  count_consecutive_growth_years self "Total Revenue".

Definition get_earnings_growth_years (self : GrowthAnalyzer) : nat :=
  count_consecutive_growth_years self "Net Income".

(** What a call can do here besides returning: the division [1 / years]
    of [calculate_cagr] raises for [years = 0]. *)
Inductive raising (A : Type) :=
| Returned (a : A)
| ZeroDivisionError.
Arguments Returned {A} a.
Arguments ZeroDivisionError {A}.

Section CAGR.

(** [x ** y] on floats. *)
Variable power : Q -> Q -> Q.

(** [calculate_cagr].  [series.iloc[-1]] is the last observed value and
    [series.iloc[-(years + 1)]] the one [years] places before it; the
    length test keeps both subscripts in range. *)
Definition calculate_cagr (self : GrowthAnalyzer) (field : string) (years : nat)
  : raising (option Q) :=
  match _get_metric_series self field with
  | None => Returned None
  | Some series =>
      if (length series <? years + 1)%nat then Returned None
      else
        match last series, series !! (length series - (years + 1))%nat with
        | Some end_value, Some start_value =>
            if Qle_bool start_value 0 || Qle_bool end_value 0 then Returned None
            else
              match years with
              | O => ZeroDivisionError
              | S _ =>
                  Returned
                    (Some (power (end_value / start_value)
                                 (1 / inject_Z (Z.of_nat years)) - 1))
              end
        | _, _ => Returned None
        end
  end.

Definition get_revenue_cagr (self : GrowthAnalyzer) (years : nat) : raising (option Q) :=
  calculate_cagr self "Total Revenue" years.

Definition get_earnings_cagr (self : GrowthAnalyzer) (years : nat) : raising (option Q) :=
  calculate_cagr self "Net Income" years.

(** The dict that [has_consistent_growth] returns. *)
Record GrowthReport := mkReport {
  revenue_growth_years : nat;
  earnings_growth_years : nat;
  revenue_consistent : bool;
  earnings_consistent : bool;
  both_consistent : bool;
  revenue_cagr : option Q;
  earnings_cagr : option Q
}.

Definition has_consistent_growth (self : GrowthAnalyzer) (min_years : nat)
  : raising GrowthReport :=
  let revenue_years := get_revenue_growth_years self in
  let earnings_years := get_earnings_growth_years self in
  match get_revenue_cagr self min_years with
  | ZeroDivisionError => ZeroDivisionError
  | Returned revenue_cagr =>
      match get_earnings_cagr self min_years with
      | ZeroDivisionError => ZeroDivisionError
      | Returned earnings_cagr =>
          Returned
            (mkReport revenue_years earnings_years
               (min_years <=? revenue_years)%nat
               (min_years <=? earnings_years)%nat
               ((min_years <=? revenue_years)%nat && (min_years <=? earnings_years)%nat)
               revenue_cagr earnings_cagr)
      end
  end.

End CAGR.

End Growth.

(** ** metrics.py: the annual ratios *)

Module Metrics.

(** A numpy float read from a frame cell. *)
Inductive float := NaN | Fin (q : Q).

(** What [Series.get] returns: [None] for a label that is not in the
    index, else the cell. *)
Abbreviation value := (option float).

Definition ftruthy (x : float) : bool :=
  match x with
  | NaN => true
  | Fin q => negb (Qeq_bool q 0)
  end.

Definition truthy (v : value) : bool :=
  match v with
  | None => false
  | Some x => ftruthy x
  end.

(** [a or b] *)
Definition or_ (a b : value) : value := if truthy a then a else b.

(** [a or 0] *)
Definition or0 (a : value) : float :=
  match or_ a (Some (Fin 0)) with
  | Some x => x
  | None => Fin 0
  end.

(** [pd.isna] *)
Definition isna (v : value) : bool :=
  match v with
  | None | Some NaN => true
  | Some (Fin _) => false
  end.

Definition lift2 (op : Q -> Q -> Q) (a b : float) : float :=
  match a, b with
  | Fin x, Fin y => Fin (op x y)
  | _, _ => NaN
  end.

Definition fadd := lift2 Qplus.
Definition fsub := lift2 Qminus.
Definition fmul := lift2 Qmult.
Definition fdiv := lift2 Qdiv.

Definition fabs (a : float) : float :=
  match a with
  | NaN => NaN
  | Fin x => Fin (Qabs x)
  end.

(** Comparisons are false as soon as one side is NaN. *)
Definition fltb (a b : float) : bool :=
  match a, b with
  | Fin x, Fin y => Py.ltb x y
  | _, _ => false
  end.

Definition fleb (a b : float) : bool :=
  match a, b with
  | Fin x, Fin y => Qle_bool x y
  | _, _ => false
  end.

(** The builtins [min(a, b)] and [max(a, b)] on floats. *)
Definition fmin (a b : float) : float := if fltb b a then b else a.
Definition fmax (a b : float) : float := if fltb a b then b else a.

(** One column of a frame ([df.iloc[:, i]]). *)
Record Series := mkSeries {
  s_index : gset string;
  s_cells : gmap string Q
}.

(** [df.iloc[:, i]]; [None] stands for the IndexError of a column that
    does not exist. *)
Definition iloc_col (df : DataFrame) (i : nat) : option Series :=
  mkSeries (df_index df) <$> (df_columns df !! i).

(** [series.get(key)] *)
Definition get (s : Series) (key : string) : value :=
  if bool_decide (key ∈ s_index s) then
    match s_cells s !! key with
    | Some q => Some (Fin q)
    | None => Some NaN
    end
  else None.

(** The annual frames, columns most recent first. *)
Record MetricsCalculator := mkCalc {
  ttm : TTM.TTMCalculator;
  _annual_financials : option DataFrame;
  _annual_balance : option DataFrame;
  _annual_cashflow : option DataFrame
}.

(** Lines 118-120 of [calculate_roic]. *)
Definition ebit_of (fin : Series) : value :=
  or_ (get fin "EBIT") (get fin "Operating Income").

(** Lines 122-130 of [calculate_roic]: the estimated tax rate. *)
Definition tax_rate_of (fin : Series) : float :=
  let pretax := get fin "Pretax Income" in
  let tax := or_ (get fin "Tax Provision") (get fin "Income Tax Expense") in
  match pretax, tax with
  | Some p, Some t =>
      if ftruthy p && ftruthy t && fltb (Fin 0) p then
        let tax_rate := fdiv (fabs t) p in
        fmin (fmax tax_rate (Fin 0)) (Fin 0.5)
      else Fin 0.25
  | _, _ => Fin 0.25
  end.

(** Lines 135-140 of [calculate_roic].  The conditional expression of
    lines 135-138 groups as [(a + b) if isna(td) else td]. *)
Definition roic_total_debt (bal : Series) : float :=
  let td := get bal "Total Debt" in
  let total_debt :=
    match td with
    | Some (Fin d) => Fin d
    | _ => fadd (or0 td) (or0 (get bal "Long Term Debt"))
    end in
  if isna (Some total_debt)
  then fadd (or0 (get bal "Long Term Debt")) (or0 (get bal "Current Debt"))
  else total_debt.

(** Lines 142-144. *)
Definition total_equity_of (bal : Series) : value :=
  or_ (get bal "Total Equity") (get bal "Stockholders Equity").

(** Lines 146-148. *)
Definition cash_of (bal : Series) : float :=
  let cash :=
    or0 (or_ (get bal "Cash And Cash Equivalents")
             (get bal "Cash Cash Equivalents And Short Term Investments")) in
  if isna (Some cash) then Fin 0 else cash.

(** Line 150. *)
Definition invested_capital_of (bal : Series) (total_equity : float) : float :=
  fsub (fadd (or0 (Some (roic_total_debt bal))) total_equity) (cash_of bal).

(** [calculate_roic].  Every exit of the [try] block that is not a
    number is [None]: the explicit [return None]s and the exception
    handler alike. *)
Definition calculate_roic (self : MetricsCalculator) (year_offset : nat) : value :=
  match _annual_financials self, _annual_balance self with
  | Some fin_df, Some bal_df =>
      if (df_ncols fin_df <=? year_offset)%nat then None
      else
        match iloc_col fin_df year_offset, iloc_col bal_df year_offset with
        | Some fin, Some bal =>
            match ebit_of fin with
            | Some (Fin ebit) =>
                let nopat := fmul (Fin ebit) (fsub (Fin 1) (tax_rate_of fin)) in
                match total_equity_of bal with
                | Some (Fin total_equity) =>
                    let invested_capital := invested_capital_of bal (Fin total_equity) in
                    if fleb invested_capital (Fin 0) then None
                    else Some (fdiv nopat invested_capital)
                | _ => None
                end
            | _ => None
            end
        | _, _ => None
        end
  | _, _ => None
  end.

(** [calculate_roic_history]: the loop over [range(years)], starting at
    offset [i], with its [break] at the first [None]. *)
Fixpoint roic_history_from (self : MetricsCalculator) (i years : nat) : list float :=
  match years with
  | O => []
  | S years' =>
      match calculate_roic self i with
      | Some roic => roic :: roic_history_from self (S i) years'
      | None => []
      end
  end.

Definition calculate_roic_history (self : MetricsCalculator) (years : nat) : list float :=
  roic_history_from self 0 years.

(** [calculate_debt_to_equity] *)
Definition calculate_debt_to_equity (self : MetricsCalculator) : value :=
  match _annual_balance self with
  | None => None
  | Some bal_df =>
      if df_empty bal_df then None
      else
        match iloc_col bal_df 0 with
        | None => None
        | Some bal =>
            let td := get bal "Total Debt" in
            let total_debt : float :=
              match td with
              | Some (Fin d) => Fin d
              | _ => fadd (or0 (get bal "Long Term Debt")) (or0 (get bal "Current Debt"))
              end in
            match or_ (get bal "Total Equity") (get bal "Stockholders Equity") with
            | Some (Fin total_equity) =>
                if Qle_bool total_equity 0 then None
                else
                  let total_debt := if isna (Some total_debt) then Fin 0 else total_debt in
                  Some (fdiv total_debt (Fin total_equity))
            | _ => None
            end
        end
  end.

(** Line 230 of [calculate_all]: the [has_positive_earnings] flag. *)
Definition positive_earnings_flag (ttm_earnings : option Q) : bool :=
  match ttm_earnings with
  | Some e => Py.ltb 0 e
  | None => false
  end.

(** The entries of [data["info"]] that the calculator reads. *)
Record Info := mkInfo {
  trailingPE : option Q;
  marketCap : option Q
}.

(** [calculate_pe_ratio] *)
Definition calculate_pe_ratio (self : MetricsCalculator) (info : Info) : option Q :=
  let pe := trailingPE info in
  if Py.truthy pe && from_option (Py.ltb 0) false pe then pe
  else
    let market_cap := marketCap info in
    let ttm_earnings := TTM.get_ttm_net_income (ttm self) in
    match market_cap, ttm_earnings with
    | Some cap, Some earnings =>
        if Py.truthy market_cap && Py.truthy ttm_earnings && Py.ltb 0 earnings
        then Some (cap / earnings)
        else None
    | _, _ => None
    end.


End Metrics.

(** ** metrics.py: the per-company snapshot *)

(** [FinancialMetrics].  [roic] and the entries of [roic_history] are
    what [calculate_roic] returns, which can be NaN; the other numeric
    fields hold numbers. *)
Record FinancialMetrics := mkMetrics {
  ticker : string;
  name : string;
  exchange : string;
  sector : option string;
  industry : option string;
  pe_ratio : option Q;
  market_cap : option Q;
  roic : option Metrics.float;
  roic_history : option (list Metrics.float);
  revenue_growth_years : option Z;
  earnings_growth_years : option Z;
  debt_to_equity : option Q;
  free_cash_flow : option Q;
  cf_yield : option Q;
  ttm_revenue : option Q;
  ttm_earnings : option Q;
  has_positive_earnings : bool;
  data_complete : bool
}.

(** ** industry_averages.py *)

Module Industry.

(** The object's five attributes, and the ['industry:averages'] entry of
    the process-wide disk cache that [_calculate_averages] overwrites. *)
Record IndustryAverages := mkIA {
  _pe_by_industry : gmap string (list Q);
  _pe_by_sector : gmap string (list Q);
  _averages_calculated : bool;
  _industry_avg : gmap string Q;
  _sector_avg : gmap string Q;
  cache_industry_averages : option (gmap string Q * gmap string Q)
}.

(** [IndustryAverages()] *)
Definition __init__ (cache : option (gmap string Q * gmap string Q)) : IndustryAverages :=
  mkIA ∅ ∅ false ∅ ∅ cache.

(** [pools[label].append(pe)] on a [defaultdict(list)] *)
Definition append_to (pools : gmap string (list Q)) (label : string) (pe : Q)
  : gmap string (list Q) :=
  <[label := default [] (pools !! label) ++ [pe]]> pools.

Definition add_company (self : IndustryAverages)
    (industry sector : option string) (pe : option Q) : IndustryAverages :=
  match pe with
  | None => self
  | Some pe =>
      if Qle_bool pe 0 || Py.ltb 200 pe then self
      else
        let by_industry :=
          match Py.truthy_str industry with
          | Some i => append_to (_pe_by_industry self) i pe
          | None => _pe_by_industry self
          end in
        let by_sector :=
          match Py.truthy_str sector with
          | Some s => append_to (_pe_by_sector self) s pe
          | None => _pe_by_sector self
          end in
        mkIA by_industry by_sector false
             (_industry_avg self) (_sector_avg self) (cache_industry_averages self)
  end.

(** [sorted(pes)]: a stable sort into ascending order. *)
Fixpoint insert_sorted (x : Q) (l : list Q) : list Q :=
  match l with
  | [] => [x]
  | y :: l' => if Qle_bool x y then x :: l else y :: insert_sorted x l'
  end.

Definition sorted (pes : list Q) : list Q := foldr insert_sorted [] pes.

(** The median of one pool, as both loops of [_calculate_averages]
    compute it; [None] stands for the IndexError of a subscript out of
    range. *)
Definition median (pes : list Q) : option Q :=
  let sorted_pes := sorted pes in
  let mid := (length sorted_pes / 2)%nat in
  if (length sorted_pes mod 2 =? 0)%nat then
    a ← sorted_pes !! (mid - 1)%nat; b ← sorted_pes !! mid; Some ((a + b) / 2)
  else sorted_pes !! mid.

(** One iteration of [for label, pes in pools.items()]. *)
Definition update_avg (label : string) (pes : list Q) (avg : gmap string Q)
  : gmap string Q :=
  match pes with
  | [] => avg
  | _ => match median pes with
         | Some m => <[label := m]> avg
         | None => avg
         end
  end.

Definition _calculate_averages (self : IndustryAverages) : IndustryAverages :=
  let industry_avg := map_fold update_avg (_industry_avg self) (_pe_by_industry self) in
  let sector_avg := map_fold update_avg (_sector_avg self) (_pe_by_sector self) in
  mkIA (_pe_by_industry self) (_pe_by_sector self) true
       industry_avg sector_avg (Some (industry_avg, sector_avg)).

(** [if not self._averages_calculated: self._calculate_averages()] *)
Definition ensure_calculated (self : IndustryAverages) : IndustryAverages :=
  if _averages_calculated self then self else _calculate_averages self.

Definition get_industry_average (self : IndustryAverages) (industry : option string)
  : option Q * IndustryAverages :=
  let self := ensure_calculated self in
  match Py.truthy_str industry with
  | None => (None, self)
  | Some i => (_industry_avg self !! i, self)
  end.

Definition get_sector_average (self : IndustryAverages) (sector : option string)
  : option Q * IndustryAverages :=
  let self := ensure_calculated self in
  match Py.truthy_str sector with
  | None => (None, self)
  | Some s => (_sector_avg self !! s, self)
  end.

Definition get_peer_average (self : IndustryAverages) (industry sector : option string)
  : option Q * IndustryAverages :=
  let '(industry_avg, self) := get_industry_average self industry in
  match industry_avg with
  | Some avg => (Some avg, self)
  | None => get_sector_average self sector
  end.

Definition is_below_average (self : IndustryAverages) (pe : option Q)
    (industry sector : option string) : option bool * IndustryAverages :=
  match pe with
  | None => (None, self)
  | Some pe =>
      if Qle_bool pe 0 then (None, self)
      else
        let '(peer_avg, self) := get_peer_average self industry sector in
        match peer_avg with
        | None => (None, self)
        | Some avg => (Some (Py.ltb pe avg), self)
        end
  end.

(** [get_all_averages]: copies of both maps. *)
Definition get_all_averages (self : IndustryAverages)
  : (gmap string Q * gmap string Q) * IndustryAverages :=
  let self := ensure_calculated self in
  ((_industry_avg self, _sector_avg self), self).

(** [load_from_cache]: the cached dict, when there is one, replaces both
    maps and marks them as calculated. *)
Definition load_from_cache (self : IndustryAverages) : bool * IndustryAverages :=
  match cache_industry_averages self with
  | Some (industry_avg, sector_avg) =>
      (true,
       mkIA (_pe_by_industry self) (_pe_by_sector self) true
            industry_avg sector_avg (cache_industry_averages self))
  | None => (false, self)
  end.

End Industry.

(** ** config.py *)

Module Config.

Record ScreeningThresholds := mkThresholds {
  max_pe : Q;
  min_roic : Q;
  roic_years : Z;
  growth_years : Z;
  max_debt_to_equity : Q;
  min_cf_yield : Q
}.

(** The [Field(default=...)] values. *)
Definition default_thresholds : ScreeningThresholds :=
  mkThresholds 15.0 0.10 3 3 1.0 0.05.

End Config.

(** ** filters.py *)

(** [FilterResult].  [value] is a field of the metrics, the ROIC among
    them, and can be NaN; [threshold] is a setting or a peer average. *)
Record FilterResult := mkResult {
  passed : bool;
  reason : string;
  value : option Metrics.float;
  threshold : option Q
}.

Module Filters.

Import Industry.

Section StockFilters.

(** [settings.thresholds] *)
Variable thresholds : Config.ScreeningThresholds.

(** The string conversions of the f-strings: [fmt d x] is
    [format(x, '.<d>f')], [str_float] and [str_int] are [str] on a
    float and on an int. *)
Variable fmt : nat -> Q -> string.
Variable str_float : Q -> string.
Variable str_int : Z -> string.

Definition filter_pe_below_industry (industry_avg : IndustryAverages)
    (metrics : FinancialMetrics) : FilterResult * IndustryAverages :=
  match pe_ratio metrics with
  | None => (mkResult false "PE ratio not available" None None, industry_avg)
  | Some pe =>
      let '(peer_avg, industry_avg) :=
        get_peer_average industry_avg (industry metrics) (sector metrics) in
      let peer_avg := default 20.0 peer_avg in
      let passed := Py.ltb pe peer_avg in
      (mkResult passed
         ("PE " +:+ fmt 1 pe +:+ " " +:+ (if passed then "<" else ">=")
            +:+ " industry avg " +:+ fmt 1 peer_avg)
         (Some (Metrics.Fin pe)) (Some peer_avg),
       industry_avg)
  end.

Definition filter_roic_consistent (metrics : FinancialMetrics) : FilterResult :=
  let min_roic := Config.min_roic thresholds in
  let required_years := Config.roic_years thresholds in
  match roic_history metrics with
  | None | Some [] => mkResult false "ROIC history not available" None None
  | Some history =>
      let years_above :=
        Z.of_nat (length (filter (λ r, Metrics.fleb (Metrics.Fin min_roic) r = true)
                            history)) in
      let passed := (required_years <=? years_above)%Z in
      mkResult passed
        ("ROIC>" +:+ fmt 0 (min_roic * 100) +:+ "% for " +:+ str_int years_above
           +:+ "/" +:+ str_int required_years +:+ " years")
        (roic metrics) (Some min_roic)
  end.

Definition filter_revenue_growth (metrics : FinancialMetrics) (growth_years : option Z)
  : FilterResult :=
  let required_years := Config.growth_years thresholds in
  match growth_years with
  | None => mkResult false "Revenue growth data not available" None None
  | Some years =>
      let passed := (required_years <=? years)%Z in
      mkResult passed
        ("Revenue growth: " +:+ str_int years +:+ "/" +:+ str_int required_years
           +:+ " consecutive years")
        (Some (Metrics.Fin (inject_Z years))) (Some (inject_Z required_years))
  end.

Definition filter_earnings_growth (metrics : FinancialMetrics) (growth_years : option Z)
  : FilterResult :=
  let required_years := Config.growth_years thresholds in
  match growth_years with
  | None => mkResult false "Earnings growth data not available" None None
  | Some years =>
      let passed := (required_years <=? years)%Z in
      mkResult passed
        ("Earnings growth: " +:+ str_int years +:+ "/" +:+ str_int required_years
           +:+ " consecutive years")
        (Some (Metrics.Fin (inject_Z years))) (Some (inject_Z required_years))
  end.

Definition filter_debt_to_equity (metrics : FinancialMetrics) : FilterResult :=
  let max_de := Config.max_debt_to_equity thresholds in
  match debt_to_equity metrics with
  | None => mkResult false "D/E ratio not available" None None
  | Some de =>
      let passed := Py.ltb de max_de in
      mkResult passed
        ("D/E " +:+ fmt 2 de +:+ " " +:+ (if passed then "<" else ">=")
           +:+ " " +:+ str_float max_de)
        (Some (Metrics.Fin de)) (Some max_de)
  end.

Definition filter_positive_fcf (metrics : FinancialMetrics) : FilterResult :=
  match free_cash_flow metrics with
  | None => mkResult false "FCF not available" None None
  | Some fcf =>
      let passed := Py.ltb 0 fcf in
      let fcf_m := fcf / 1000000 in
      mkResult passed
        ("FCF: " +:+ fmt 1 fcf_m +:+ "M "
           +:+ (if passed then "(positive)" else "(negative)"))
        (Some (Metrics.Fin fcf)) (Some 0)
  end.

Definition filter_cf_yield (metrics : FinancialMetrics) : FilterResult :=
  let min_yield := Config.min_cf_yield thresholds in
  match cf_yield metrics with
  | None => mkResult false "CF yield not available" None None
  | Some cf =>
      let passed := Qle_bool min_yield cf in
      mkResult passed
        ("CF yield " +:+ fmt 1 (cf * 100) +:+ "% " +:+ (if passed then ">=" else "<")
           +:+ " " +:+ fmt 0 (min_yield * 100) +:+ "%")
        (Some (Metrics.Fin cf)) (Some min_yield)
  end.

Definition filter_positive_earnings (metrics : FinancialMetrics) : FilterResult :=
  let passed := has_positive_earnings metrics in
  let earnings_m := default 0 (Py.or (ttm_earnings metrics) (Some 0)) / 1000000 in
  mkResult passed
    ("TTM Earnings: " +:+ fmt 1 earnings_m +:+ "M "
       +:+ (if passed then "(profitable)" else "(loss-maker)"))
    (Metrics.Fin <$> ttm_earnings metrics) (Some 0).

End StockFilters.

End Filters.

(** ** screener.py *)

Record ScreeningResult := mkScreening {
  metrics : FinancialMetrics;
  passed_all : bool;
  filter_results : gmap string FilterResult;
  score : Metrics.float
}.

(** [ScreeningResult.passed_count] and [ScreeningResult.total_filters] *)
Definition passed_count (r : ScreeningResult) : nat :=
  size (filter (fun kv : string * FilterResult => passed kv.2 = true) (filter_results r)).

Definition total_filters (r : ScreeningResult) : nat := size (filter_results r).

Module Screener.

Import Industry Filters.

(** What a Python call can raise here. *)
Inductive exn :=
| AttributeError (type_name attribute : string)
| TypeError (what : string).

Inductive result (A : Type) :=
| Ok (a : A)
| Raise (e : exn).
Arguments Ok {A} a.
Arguments Raise {A} e.

#[global] Instance result_bind : MBind result :=
  fun A B k r =>
    match r with
    | Ok a => k a
    | Raise e => Raise e
    end.

(** [growth_data]: the integer entries of the dict that
    [has_consistent_growth] returns. *)
Abbreviation growth_dict := (gmap string Z).

Section Scoring.

Definition _calculate_score (metrics : FinancialMetrics) (growth_data : growth_dict)
    (filter_results : gmap string FilterResult) : Metrics.float :=
  let score := Metrics.Fin 0.0 in
  let score :=
    match roic metrics with
    | Some roic =>
        Metrics.fadd score
          (Metrics.fmin (Metrics.fmul roic (Metrics.Fin 100)) (Metrics.Fin 30))
    | None => score
    end in
  let score :=
    match filter_results !! "pe_below_max" with
    | Some pe_result =>
        if Metrics.truthy (value pe_result) && Py.truthy (threshold pe_result) then
          match value pe_result, threshold pe_result with
          | Some v, Some t =>
              let discount :=
                Metrics.fdiv (Metrics.fsub (Metrics.Fin t) v) (Metrics.Fin t) in
              Metrics.fadd score
                (Metrics.fmax (Metrics.Fin 0)
                   (Metrics.fmin (Metrics.fmul discount (Metrics.Fin 40))
                      (Metrics.Fin 20)))
          | _, _ => score
          end
        else score
    | None => score
    end in
  let score :=
    match cf_yield metrics with
    | Some cf => Metrics.fadd score (Metrics.Fin (Py.min (cf * 100) 20))
    | None => score
    end in
  let score :=
    match debt_to_equity metrics with
    | Some de => Metrics.fadd score (Metrics.Fin (Py.max 0 (15 - de * 30)))
    | None => score
    end in
  let rev_years := default 0%Z (growth_data !! "revenue_growth_years") in
  let earn_years := default 0%Z (growth_data !! "earnings_growth_years") in
  let growth_score := Py.min (inject_Z (rev_years + earn_years) * 1.5) 15 in
  Metrics.fadd score (Metrics.Fin growth_score).

End Scoring.

Section Screening.

Variable thresholds : Config.ScreeningThresholds.
Variable fmt : nat -> Q -> string.
Variable str_float : Q -> string.
Variable str_int : Z -> string.

(** The two shapes of a [StockFilters] method, after [self]. *)
Inductive method :=
| OnMetrics (f : IndustryAverages -> FinancialMetrics -> FilterResult * IndustryAverages)
| OnMetricsAndYears (f : FinancialMetrics -> option Z -> FilterResult).

(** A method that leaves the pool alone. *)
Definition pure_method (f : FinancialMetrics -> FilterResult) : method :=
  OnMetrics (fun industry_avg metrics => (f metrics, industry_avg)).

(** The methods that [class StockFilters] defines, by name. *)
Definition StockFilters_methods : list (string * method) :=
  [ ("filter_pe_below_industry",
       OnMetrics (filter_pe_below_industry fmt));
    ("filter_roic_consistent",
       pure_method (filter_roic_consistent thresholds fmt str_int));
    ("filter_revenue_growth",
       OnMetricsAndYears (filter_revenue_growth thresholds str_int));
    ("filter_earnings_growth",
       OnMetricsAndYears (filter_earnings_growth thresholds str_int));
    ("filter_debt_to_equity",
       pure_method (filter_debt_to_equity thresholds fmt str_float));
    ("filter_positive_fcf",
       pure_method (filter_positive_fcf fmt));
    ("filter_cf_yield",
       pure_method (filter_cf_yield thresholds fmt));
    ("filter_positive_earnings",
       pure_method (filter_positive_earnings fmt)) ].

Fixpoint lookup_method (attribute : string) (table : list (string * method))
  : option method :=
  match table with
  | [] => None
  | (name, m) :: table' =>
      if String.eqb attribute name then Some m else lookup_method attribute table'
  end.

(** [self.filters.<attribute>]: the object's only other attributes,
    [industry_avg] and [thresholds], are data. *)
Definition getattr_filters (attribute : string) : result method :=
  match lookup_method attribute StockFilters_methods with
  | Some m => Ok m
  | None => Raise (AttributeError "StockFilters" attribute)
  end.

(** [self.filters.<attribute>(metrics)] *)
Definition call_filter (attribute : string) (industry_avg : IndustryAverages)
    (metrics : FinancialMetrics) : result (FilterResult * IndustryAverages) :=
  m ← getattr_filters attribute;
  match m with
  | OnMetrics f => Ok (f industry_avg metrics)
  | OnMetricsAndYears _ => Raise (TypeError "missing 1 required positional argument")
  end.

(** [self.filters.<attribute>(metrics, growth_years)] *)
Definition call_growth_filter (attribute : string) (metrics : FinancialMetrics)
    (growth_years : option Z) : result FilterResult :=
  m ← getattr_filters attribute;
  match m with
  | OnMetricsAndYears f => Ok (f metrics growth_years)
  | OnMetrics _ => Raise (TypeError "takes 2 positional arguments but 3 were given")
  end.

(** [_apply_filters].  [self.filters] is the [StockFilters] that [run]
    builds on [self.industry_averages] before screening, so the pool
    is the screener's own. *)
Definition _apply_filters (industry_averages : IndustryAverages)
    (metrics : FinancialMetrics) (growth_data : growth_dict)
  : result (ScreeningResult * IndustryAverages) :=
  let filter_results : gmap string FilterResult := ∅ in
  '(r, industry_averages) ← call_filter "filter_pe_below_max" industry_averages metrics;
  let filter_results := <["pe_below_max" := r]> filter_results in
  '(r, industry_averages) ← call_filter "filter_roic_consistent" industry_averages metrics;
  let filter_results := <["roic_consistent" := r]> filter_results in
  r ← call_growth_filter "filter_revenue_growth" metrics
            (growth_data !! "revenue_growth_years");
  let filter_results := <["revenue_growth" := r]> filter_results in
  r ← call_growth_filter "filter_earnings_growth" metrics
            (growth_data !! "earnings_growth_years");
  let filter_results := <["earnings_growth" := r]> filter_results in
  '(r, industry_averages) ← call_filter "filter_debt_to_equity" industry_averages metrics;
  let filter_results := <["debt_to_equity" := r]> filter_results in
  '(r, industry_averages) ← call_filter "filter_positive_fcf" industry_averages metrics;
  let filter_results := <["positive_fcf" := r]> filter_results in
  '(r, industry_averages) ← call_filter "filter_cf_yield" industry_averages metrics;
  let filter_results := <["cf_yield" := r]> filter_results in
  '(r, industry_averages) ← call_filter "filter_positive_earnings" industry_averages metrics;
  let filter_results := <["positive_earnings" := r]> filter_results in
  let passed_all :=
    bool_decide (map_Forall (fun _ r => passed r = true) filter_results) in
  let score := _calculate_score metrics growth_data filter_results in
  let metrics :=
    mkMetrics (ticker metrics) (name metrics) (exchange metrics)
      (sector metrics) (industry metrics) (pe_ratio metrics) (market_cap metrics)
      (roic metrics) (roic_history metrics)
      (growth_data !! "revenue_growth_years")
      (growth_data !! "earnings_growth_years")
      (debt_to_equity metrics) (free_cash_flow metrics) (cf_yield metrics)
      (ttm_revenue metrics) (ttm_earnings metrics)
      (has_positive_earnings metrics) (data_complete metrics) in
  Ok (mkScreening metrics passed_all filter_results score, industry_averages).

(** [_build_industry_averages] over the metrics of the batch. *)
Definition _build_industry_averages (industry_averages : IndustryAverages)
    (data : list (FinancialMetrics * growth_dict)) : IndustryAverages :=
  fold_left
    (fun self '(metrics, _) =>
       add_company self (industry metrics) (sector metrics) (pe_ratio metrics))
    data industry_averages.

(** [_screen_companies]: the loop has no handler, so the first
    exception leaves it. *)
Fixpoint _screen_companies (industry_averages : IndustryAverages)
    (data : list (FinancialMetrics * growth_dict))
  : result (list ScreeningResult * IndustryAverages) :=
  match data with
  | [] => Ok ([], industry_averages)
  | (metrics, growth_data) :: data' =>
      '(r, industry_averages) ← _apply_filters industry_averages metrics growth_data;
      '(results, industry_averages) ← _screen_companies industry_averages data';
      Ok (r :: results, industry_averages)
  end.

End Screening.

Section Ranking.

(** What [list.sort] leaves of a list in which some key is NaN.  Every
    comparison with NaN is false, so the keys are not ordered then and the
    outcome depends on the runs that the sort finds in the list. *)
Variable sort_unordered : list ScreeningResult -> list ScreeningResult.

Definition is_number (x : Metrics.float) : bool :=
  match x with
  | Metrics.Fin _ => true
  | Metrics.NaN => false
  end.

(** On keys that are numbers, [list.sort(key=lambda r: r.score,
    reverse=True)] is the stable sort into descending order of score. *)
Fixpoint insert_by_score (r : ScreeningResult) (l : list ScreeningResult)
  : list ScreeningResult :=
  match l with
  | [] => [r]
  | r' :: l' =>
      if Metrics.fltb (score r) (score r') then r' :: insert_by_score r l' else r :: l
  end.

Definition sorted_by_score (results : list ScreeningResult) : list ScreeningResult :=
  if forallb (fun r => is_number (score r)) results
  then foldr insert_by_score [] results
  else sort_unordered results.

(** Lines 65-66 of [run]: the results with enough passed filters, sorted
    by score. *)
Definition rank_passed (results : list ScreeningResult) (min_filters : Z)
  : list ScreeningResult :=
  sorted_by_score
    (filter (fun r => (min_filters <= Z.of_nat (passed_count r))%Z) results).

(** [l[:n]]: a negative [n] counts from the end. *)
Definition slice_to {A} (l : list A) (n : Z) : list A :=
  if (n <? 0)%Z then take (Z.to_nat (Z.of_nat (length l) + n)) l
  else take (Z.to_nat n) l.

Definition get_top_n (results : list ScreeningResult) (n : Z) : list ScreeningResult :=
  slice_to (sorted_by_score results) n.

End Ranking.

End Screener.

(** ** cache_manager.py *)

Module Cache.

Definition _make_key (prefix identifier : string) : string :=
  prefix +:+ ":" +:+ identifier.

(** The keys behind the three pairs of accessors. *)
Definition company_list_key (exchange : string) : string := _make_key "companies" exchange.
Definition financials_key (ticker : string) : string := _make_key "financials" ticker.
Definition industry_averages_key : string := _make_key "industry" "averages".

End Cache.

(** * Specification-side definitions *)

(** The sum of a list of numbers: nothing for the empty list, else the
    first number plus the sum of the others. *)
Fixpoint total (values : list Q) : Q :=
  match values with
  | [] => 0
  | x :: others => x + total others
  end.

(** [field] is reported by each of the [n] most recent periods. *)
Definition present_in_all (data : list (gmap string Q)) (field : string) (n : nat) : Prop :=
  Forall (fun col : gmap string Q => is_Some (col !! field)) (take n data).

(** A period that reports a single field. *)
Definition quarter (field : string) (x : Q) : gmap string Q := {[ field := x ]}.

(** The values of [field] that an annual dict reports, in column order. *)
Definition observed (data : option (list (gmap string Q))) (field : string) : list Q :=
  match data with
  | None => []
  | Some cols => omap (fun col : gmap string Q => col !! field) cols
  end.

(** The steps of a walk over [values]: each value paired with its
    successor in the list, [(current, previous)] for a list that runs from
    the most recent year back. *)
Definition steps (values : list Q) : list (Q * Q) := zip values (tail values).

(** A step continues a growth streak. *)
Definition growing (step : Q * Q) : Prop :=
  let '(current, previous) := step in 0 < previous /\ previous < current.

(** A PE that [add_company] must not pool: unknown, [<= 0] or [> 200]. *)
Definition rejected (pe : option Q) : Prop :=
  match pe with
  | None => True
  | Some p => p <= 0 \/ 200 < p
  end.

#[global] Instance rejected_dec (pe : option Q) : Decision (rejected pe).
Proof.
  destruct pe as [p|]; [|left; exact I]. simpl.
  destruct (Qlt_le_dec 0 p) as [Hpos|Hneg]; [|left; by left].
  destruct (Qlt_le_dec 200 p) as [Hbig|Hsmall]; [left; by right|].
  right. intros [H|H]; [by apply Qle_not_lt in H | by apply Qlt_not_le in H].
Defined.

(** The PEs that a sequence of [(label, pe)] entries pools under [label],
    in call order. *)
Definition pooled (label : string) (entries : list (option string * option Q)) : list Q :=
  omap (fun '(l, pe) =>
          match pe with
          | Some p =>
              if bool_decide (l = Some label /\ ~ rejected (Some p)) then Some p else None
          | None => None
          end) entries.

(** [m] is the median of [pool]: the central value of its ascending
    arrangement for an odd size, the average of the two central values
    for an even one. *)
Definition is_median (pool : list Q) (m : Q) : Prop :=
  exists ascending : list Q,
    Permutation ascending pool /\ Sorted Qle ascending /\
    let mid := (length pool / 2)%nat in
    ((length pool mod 2 = 0)%nat ->
       exists a b, ascending !! (mid - 1)%nat = Some a /\ ascending !! mid = Some b
                   /\ m == (a + b) / 2)
    /\ ((length pool mod 2 <> 0)%nat -> ascending !! mid = Some m).

(** A call of [add_company]. *)
Record call := mkCall {
  call_industry : option string;
  call_sector : option string;
  call_pe : option Q
}.

(** What a run does to the pool: it adds a company or it reads a peer
    average. *)
Inductive operation :=
| AddCompany (c : call)
| ReadPeer (industry sector : option string).

Definition perform (self : Industry.IndustryAverages) (o : operation)
  : Industry.IndustryAverages :=
  match o with
  | AddCompany c =>
      Industry.add_company self (call_industry c) (call_sector c) (call_pe c)
  | ReadPeer industry sector => snd (Industry.get_peer_average self industry sector)
  end.

(** The object after a sequence of operations. *)
Definition after (self : Industry.IndustryAverages) (ops : list operation)
  : Industry.IndustryAverages :=
  fold_left perform ops self.

(** The [add_company] calls of a sequence of operations. *)
Definition calls_of (ops : list operation) : list call :=
  omap (fun o => match o with AddCompany c => Some c | ReadPeer _ _ => None end) ops.

(** The [(industry, pe)] and [(sector, pe)] entries of a call sequence. *)
Definition industry_entries (calls : list call) : list (option string * option Q) :=
  (fun c => (call_industry c, call_pe c)) <$> calls.

Definition sector_entries (calls : list call) : list (option string * option Q) :=
  (fun c => (call_sector c, call_pe c)) <$> calls.

(** The list that a [defaultdict(list)] holds under [label]. *)
Definition bucket (pools : gmap string (list Q)) (label : string) : list Q :=
  default [] (pools !! label).

(** [clamp(x, lo, hi)] *)
Definition clamp (x lo hi : Q) : Q := Qmax lo (Qmin x hi).

(** The most recent annual column of a one-period dict, as
    [calculate_roic] reads it. *)
Definition only_period (cells : gmap string Q) : Metrics.Series :=
  Metrics.mkSeries (df_index (pd_DataFrame [cells])) cells.

(** A calculator over one annual period. *)
Definition one_year (fin bal : gmap string Q) : Metrics.MetricsCalculator :=
  Metrics.mkCalc (TTM.mkTTM None None None)
    (parse_frame (Some [fin])) (parse_frame (Some [bal])) None.

(** A balance sheet that reports its debt in two parts only. *)
Definition split_debt_balance : gmap string Q :=
  {[ "Long Term Debt" := 100; "Current Debt" := 50; "Total Equity" := 100 ]}.

(** An income statement with a known tax provision of zero. *)
Definition untaxed_income : gmap string Q :=
  {[ "EBIT" := 40; "Pretax Income" := 100; "Tax Provision" := 0 ]}.

(** An income statement taxed at a fifth of pretax income. *)
Definition taxed_income : gmap string Q :=
  {[ "EBIT" := 40; "Pretax Income" := 100; "Tax Provision" := -20 ]}.

(** The five terms of the composite score, in the words of the
    specification. *)
Definition roic_term (m : FinancialMetrics) : Q :=
  match roic m with
  | Some (Metrics.Fin r) => Qmin (r * 100) 30
  | _ => 0
  end.

Definition cf_term (m : FinancialMetrics) : Q :=
  match cf_yield m with
  | Some cf => Qmin (cf * 100) 20
  | None => 0
  end.

Definition debt_term (m : FinancialMetrics) : Q :=
  match debt_to_equity m with
  | Some de => Qmax 0 (15 - de * 30)
  | None => 0
  end.

Definition growth_term (growth_data : gmap string Z) : Q :=
  let revenue_years := default 0%Z (growth_data !! "revenue_growth_years") in
  let earnings_years := default 0%Z (growth_data !! "earnings_growth_years") in
  Qmin (inject_Z (revenue_years + earnings_years) * 1.5) 15.

(** The PE-discount term: it applies when the filter result has a value
    and a threshold that are numbers other than zero. *)
Definition pe_term (filter_results : gmap string FilterResult) : Q :=
  match filter_results !! "pe_below_max" with
  | Some r =>
      match value r, threshold r with
      | Some (Metrics.Fin v), Some t =>
          if Qeq_bool v 0 || Qeq_bool t 0 then 0 else clamp ((t - v) / t * 40) 0 20
      | _, _ => 0
      end
  | None => 0
  end.

(** A snapshot with only the numbers that the score and the filters read. *)
Definition snapshot (pe roic de fcf cf earnings : option Q) (positive : bool)
  : FinancialMetrics :=
  mkMetrics "TEST.OL" "Test" "oslo" None None pe None (Metrics.Fin <$> roic)
    ((fun r => [Metrics.Fin r]) <$> roic)
    None None de fcf cf None earnings positive false.

Definition growth_of (revenue_years earnings_years : Z) : gmap string Z :=
  {[ "revenue_growth_years" := revenue_years; "earnings_growth_years" := earnings_years ]}.

(** A company whose debt is recorded as negative. *)
Definition net_cash_company : FinancialMetrics :=
  snapshot (Some 10) (Some 0.3) (Some (-2)) (Some 1) (Some 0.2) (Some 1) true.

(** A PE result whose value is zero. *)
Definition zero_pe_result : gmap string FilterResult :=
  {[ "pe_below_max" :=
       mkResult true "PE 0.0 < industry avg 20.0" (Some (Metrics.Fin 0)) (Some 20) ]}.

(** The worked company of the specification. *)
Definition worked_company : FinancialMetrics :=
  snapshot (Some 10) (Some 0.12) (Some 0.5) (Some 1000000) (Some 0.06) (Some 1000000) true.

Definition worked_pe_result : gmap string FilterResult :=
  {[ "pe_below_max" :=
       mkResult true "PE 10.0 < industry avg 20.0" (Some (Metrics.Fin 10)) (Some 20) ]}.

(** Snapshots whose TTM earnings are unknown: as [calculate_all] builds
    them (flag off), and with the flag set all the same. *)
Definition unknown_earnings : FinancialMetrics :=
  snapshot (Some 10) (Some 0.12) (Some 0.5) (Some 1) (Some 0.06) None false.

Definition unknown_earnings_flagged : FinancialMetrics :=
  snapshot (Some 10) (Some 0.12) (Some 0.5) (Some 1) (Some 0.06) None true.

Definition zero_earnings : FinancialMetrics :=
  snapshot (Some 10) (Some 0.12) (Some 0.5) (Some 1) (Some 0.06) (Some 0) false.

(** The failure that a filter reports for an unknown input. *)
Definition not_available (what : string) : FilterResult :=
  mkResult false (what +:+ " not available") None None.

(** Four quarters whose operating income cancels out, with EBIT reported. *)
Definition cancelling_quarters : list (gmap string Q) :=
  [ {[ "Operating Income" := 5; "EBIT" := 1 ]};
    {[ "Operating Income" := -5; "EBIT" := 2 ]};
    {[ "Operating Income" := 7; "EBIT" := 3 ]};
    {[ "Operating Income" := -7; "EBIT" := 4 ]} ].

(** Four quarters that report zero under both names. *)
Definition zero_quarters : list (gmap string Q) :=
  replicate 4 {[ "Operating Income" := 0; "EBIT" := 0 ]}.

(** What a read serves once the averages are up to date. *)
Definition served (avg : gmap string Q) (label : option string) : option Q :=
  match Py.truthy_str label with
  | None => None
  | Some l => avg !! l
  end.

(** The averages on record belong to pools that are not empty, and they
    are the medians of the pools as soon as the object says so. *)
Definition up_to_date (flag : bool) (avg : gmap string Q)
    (pools : gmap string (list Q)) : Prop :=
  forall label,
    (is_Some (avg !! label) -> bucket pools label <> [])
    /\ (flag = true -> avg !! label = Industry.median (bucket pools label)).

Definition consistent (self : Industry.IndustryAverages) : Prop :=
  up_to_date (Industry._averages_calculated self) (Industry._industry_avg self)
    (Industry._pe_by_industry self)
  /\ up_to_date (Industry._averages_calculated self) (Industry._sector_avg self)
       (Industry._pe_by_sector self).

(** Three banks, the second one added after a first read. *)
Definition bank_run : list operation :=
  [ AddCompany (mkCall (Some "Banks") (Some "Financial Services") (Some 8));
    AddCompany (mkCall (Some "Banks") None (Some 15));
    ReadPeer (Some "Banks") None;
    AddCompany (mkCall (Some "Banks") (Some "Financial Services") (Some 250));
    AddCompany (mkCall (Some "Banks") (Some "Financial Services") (Some 12)) ].

(** Five annual net incomes, oldest first. *)
Definition five_years : list (gmap string Q) :=
  [ quarter "Net Income" 80; quarter "Net Income" 100; quarter "Net Income" 90;
    quarter "Net Income" 120; quarter "Net Income" 130 ].

(** Four quarters of cash flow with capital expenditure reported as an
    outflow. *)
Definition outflow_quarters : list (gmap string Q) :=
  replicate 4 {[ "Operating Cash Flow" := 100; "Capital Expenditure" := -30 ]}.

(** A rational stand-in for the float power [x ** y], its tangent at
    [x = 1], to run the examples; the properties of [calculate_cagr] hold
    for every [power]. *)
Definition tangent_power (x y : Q) : Q := 1 + (x - 1) * y.

(** A cell that is a number or is not there at all, with [0] for the
    latter. *)
Definition number_or_zero (v : option Metrics.float) : option Q :=
  match v with
  | None => Some 0
  | Some (Metrics.Fin q) => Some q
  | Some Metrics.NaN => None
  end.

(** A balance sheet whose frame knows long-term debt, but not for the most
    recent of its two years. *)
Definition patchy_balance : list (gmap string Q) :=
  [ {[ "Total Equity" := 100 ]};
    {[ "Total Equity" := 90; "Long Term Debt" := 40 ]} ].

Definition two_years_income : list (gmap string Q) :=
  [ {[ "EBIT" := 40 ]}; {[ "EBIT" := 30 ]} ].

Definition patchy_calc : Metrics.MetricsCalculator :=
  Metrics.mkCalc (TTM.mkTTM None None None)
    (parse_frame (Some two_years_income)) (parse_frame (Some patchy_balance)) None.

(** A calculator over quarterly statements only. *)
Definition quarterly_calc (income cashflow : list (gmap string Q))
  : Metrics.MetricsCalculator :=
  Metrics.mkCalc
    (TTM.mkTTM (parse_frame (Some income)) (parse_frame (Some cashflow)) None)
    None None None.

(** Four profitable quarters. *)
Definition profitable_quarters : list (gmap string Q) :=
  replicate 4 {[ "Total Revenue" := 500; "Net Income" := 25 ]}.


(** A company with a PE in an industry. *)
Definition listed (industry : string) (pe : Q) : FinancialMetrics * gmap string Z :=
  (mkMetrics "TEST.OL" "Test" "oslo" None (Some industry) (Some pe) None None None
     None None None None None None None false false, ∅).

(** Cached averages of an earlier run. *)
Definition earlier_averages : gmap string Q * gmap string Q :=
  ({[ "Banks" := 9; "Shipping" := 7 ]}, {[ "Financial Services" := 11 ]}).

#[global] Instance Qle_decision (x y : Q) : Decision (x <= y).
Proof.
  destruct (Qlt_le_dec y x) as [Hlt|Hle]; [right; by apply Qlt_not_le|by left].
Defined.

#[global] Instance Qeq_decision (x y : Q) : Decision (x == y) := Qeq_dec x y.

(** Two floats are the same: both NaN, or equal numbers. *)
Definition same_float (a b : Metrics.float) : Prop :=
  match a, b with
  | Metrics.Fin x, Metrics.Fin y => x == y
  | Metrics.NaN, Metrics.NaN => True
  | _, _ => False
  end.

#[global] Instance same_float_decision (a b : Metrics.float) : Decision (same_float a b).
Proof. destruct a as [|x], b as [|y]; cbn; apply _. Defined.

(** A float is a number that is at least [bound]. *)
Definition reaches (bound : Q) (x : Metrics.float) : Prop :=
  match x with
  | Metrics.Fin q => bound <= q
  | Metrics.NaN => False
  end.

#[global] Instance reaches_decision (bound : Q) (x : Metrics.float) :
  Decision (reaches bound x).
Proof. destruct x as [|q]; cbn; apply _. Defined.

(** A float that is a number, if it is one. *)
Definition known (v : option Metrics.float) : option Q :=
  match v with
  | Some (Metrics.Fin q) => Some q
  | _ => None
  end.

(** The snapshot that [calculate_all] builds for a calculator without
    quarterly statements and without the [info] entries. *)
Definition annual_snapshot (calc : Metrics.MetricsCalculator) : FinancialMetrics :=
  let history := Metrics.calculate_roic_history calc 6 in
  mkMetrics "TEST.OL" "Test" "oslo" None None None None (head history) (Some history)
    None None (known (Metrics.calculate_debt_to_equity calc)) None None None None
    false false.

(** Descending order of score: both scores are numbers and the first is
    not the lower one. *)
Definition not_better (a b : ScreeningResult) : Prop :=
  match score a, score b with
  | Metrics.Fin x, Metrics.Fin y => y <= x
  | _, _ => False
  end.

(** The results of a list that have the score [q]. *)
Definition scoring (q : Q) (results : list ScreeningResult) : list ScreeningResult :=
  filter (fun r => same_float (score r) (Metrics.Fin q)) results.

(** A result with a ticker, a score and the verdicts of two filters. *)
Definition scored (ticker : string) (score : Q) (first second : bool) : ScreeningResult :=
  mkScreening
    (mkMetrics ticker ticker "oslo" None None None None None None None None None None
       None None None false false)
    (first && second)
    {[ "roic_consistent" := mkResult first "first" None None;
       "debt_to_equity" := mkResult second "second" None None ]}
    (Metrics.Fin score).

Definition three_results : list ScreeningResult :=
  [ scored "A.OL" 40 true true; scored "B.OL" 55 true false; scored "C.OL" 40 true true ].

(** A string holds a colon. *)
Fixpoint has_colon (s : string) : bool :=
  match s with
  | EmptyString => false
  | String c s' => String.eqb (String c EmptyString) ":" || has_colon s'
  end.

(** The filter results of the bank with the higher PE of two. *)
Definition highest_pe_results : gmap string FilterResult :=
  {[ "pe_below_max" :=
       fst (Filters.filter_pe_below_industry Render.format_fixed
              (Screener._build_industry_averages (Industry.__init__ None)
                 [listed "Banks" 8; listed "Banks" 15])
              (listed "Banks" 15).1) ]}.

(** After [load_from_cache] and further [add_company] calls the maps are
    the cached ones until a PE is let in. *)
Definition loaded (cached : gmap string Q * gmap string Q) (self : Industry.IndustryAverages)
  : Prop :=
  (Industry._averages_calculated self = true ->
     Industry._industry_avg self = cached.1 /\ Industry._sector_avg self = cached.2
     /\ Industry._pe_by_industry self = ∅ /\ Industry._pe_by_sector self = ∅)
  /\ (Industry._averages_calculated self = false ->
     Industry._industry_avg self = cached.1 /\ Industry._sector_avg self = cached.2).

(** * Properties *)

(** ** Frames *)

Section FrameFacts.

Implicit Types (data : list (gmap string Q)) (field : string).

Lemma elem_of_pd_index data field :
  field ∈ df_index (pd_DataFrame data) <->
  Exists (fun col : gmap string Q => is_Some (col !! field)) data.
Proof.
  unfold pd_DataFrame; simpl. rewrite elem_of_union_list, Exists_exists. split.
  - intros (X & HX & Hin). apply list_elem_of_fmap in HX as (col & -> & Hcol).
    exists col. split; [exact Hcol|]. apply elem_of_dom. exact Hin.
  - intros (col & Hcol & Hsome). exists (dom col). split.
    + apply list_elem_of_fmap. exists col. split; [done|]. exact Hcol.
    + apply elem_of_dom; exact Hsome.
Qed.

Lemma omap_length_le {A B} (f : A -> option B) (l : list A) :
  (length (omap f l) <= length l)%nat.
Proof. induction l as [|x l IH]; cbn; [lia|]. destruct (f x); cbn; lia. Qed.

Lemma omap_length_lt {A B} (f : A -> option B) (l : list A) :
  Exists (fun x => f x = None) l -> (length (omap f l) < length l)%nat.
Proof.
  induction 1 as [x l Hx|x l _ IH]; cbn.
  - rewrite Hx. pose proof (omap_length_le f l). lia.
  - destruct (f x); cbn; lia.
Qed.

Lemma omap_all_some {A B} (f : A -> option B) (l : list A) (k : list B) :
  mapM f l = Some k -> omap f l = k.
Proof.
  rewrite mapM_Some. induction 1 as [|x y l k Hxy _ IH]; cbn; [done|].
  by rewrite Hxy, IH.
Qed.

Lemma mapM_present data field :
  Forall (fun col : gmap string Q => is_Some (col !! field)) data <->
  is_Some (mapM (fun col : gmap string Q => col !! field) data).
Proof. by rewrite mapM_is_Some. Qed.

End FrameFacts.

(** ** The TTM aggregator *)

Section TTMFacts.

Import TTM.

Implicit Types (data : list (gmap string Q)) (field : string) (n : nat).

Lemma sum_quarters_frame data field n :
  (0 < n <= length data)%nat ->
  _sum_quarters (parse_frame (Some data)) field n =
    if bool_decide (field ∈ df_index (pd_DataFrame data)) then
      let values := omap (fun col : gmap string Q => col !! field) (take n data) in
      if (length values <? n)%nat then None else Some (Py.sum values)
    else None.
Proof.
  intros [Hn Hlen]. destruct data as [|col data]; [simpl in Hlen; lia|].
  unfold _sum_quarters, _get_last_n_quarters, parse_frame, df_empty, df_ncols.
  cbn [df_columns pd_DataFrame].
  destruct (bool_decide (field ∈ df_index (pd_DataFrame (col :: data)))) eqn:Hidx.
  - apply bool_decide_eq_true in Hidx.
    rewrite bool_decide_eq_false_2 by (intros Hemp; rewrite Hemp in Hidx; set_solver).
    replace (length (col :: data) <? n)%nat with false
      by (symmetry; apply Nat.ltb_ge; exact Hlen).
    cbn [iloc_first df_index]. rewrite bool_decide_eq_true_2 by exact Hidx.
    reflexivity.
  - destruct (bool_decide (df_index (pd_DataFrame (col :: data)) = ∅)); [done|].
    destruct (length (col :: data) <? n)%nat; [done|].
    cbn [iloc_first df_index]. by rewrite Hidx.
Qed.

(** [sum(values)] is the sum of the values. *)
Lemma py_sum_from (values : list Q) (start : Q) :
  fold_left Qplus values start == start + total values.
Proof.
  revert start. induction values as [|x values IH]; intros start; cbn [fold_left total].
  - lra.
  - rewrite IH. lra.
Qed.

Lemma py_sum_total (values : list Q) : Py.sum values == total values.
Proof. unfold Py.sum. rewrite py_sum_from. lra. Qed.

Lemma sum_quarters_no_window data field :
  _sum_quarters (parse_frame (Some data)) field 0 =
    if bool_decide (field ∈ df_index (pd_DataFrame data)) then Some 0 else None.
Proof.
  destruct data as [|col data].
  - cbn. rewrite bool_decide_eq_false_2; [done|]. cbn. set_solver.
  - unfold _sum_quarters, _get_last_n_quarters, parse_frame, df_empty, df_ncols.
    cbn [df_columns pd_DataFrame].
    destruct (bool_decide (field ∈ df_index (pd_DataFrame (col :: data)))) eqn:Hidx.
    + apply bool_decide_eq_true in Hidx.
      rewrite bool_decide_eq_false_2 by (intros Hemp; rewrite Hemp in Hidx; set_solver).
      cbn [Nat.ltb Nat.leb iloc_first df_index]. rewrite bool_decide_eq_true_2 by exact Hidx.
      reflexivity.
    + destruct (bool_decide (df_index (pd_DataFrame (col :: data)) = ∅)); [done|].
      cbn [Nat.ltb Nat.leb iloc_first df_index]. by rewrite Hidx.
Qed.

(** C3 (as amended).  With a window of [n >= 1] periods, [_sum_quarters]
    returns the sum of [field] over the [n] most recent periods exactly
    when the series has at least [n] periods and all [n] of them report
    [field]; with fewer periods, or [field] missing in any of the [n], it
    returns [None] and never the sum of the periods that do report it.
    With a window of no periods it returns [0.0] when some period of the
    series reports [field], and [None] when none does. *)
Theorem sum_quarters_all_or_nothing data field n :
  ((1 <= n)%nat ->
     (forall values,
         (n <= length data)%nat ->
         mapM (fun col : gmap string Q => col !! field) (take n data) = Some values ->
         exists sum,
           _sum_quarters (parse_frame (Some data)) field n = Some sum
           /\ sum == total values)
     /\ (~ ((n <= length data)%nat /\ present_in_all data field n) ->
         _sum_quarters (parse_frame (Some data)) field n = None)
     /\ _sum_quarters (parse_frame None) field n = None)
  /\ (Exists (fun col : gmap string Q => is_Some (col !! field)) data ->
      _sum_quarters (parse_frame (Some data)) field 0 = Some 0)
  /\ (Forall (fun col : gmap string Q => col !! field = None) data ->
      _sum_quarters (parse_frame (Some data)) field 0 = None).
Proof.
  split; [intros Hn; split; [|split]|split].
  - intros values Hlen Hall. exists (Py.sum values). split; [|apply py_sum_total].
    rewrite sum_quarters_frame by lia.
    assert (Hlenv : length values = n).
    { apply length_mapM in Hall. rewrite length_take in Hall. lia. }
    rewrite (omap_all_some _ _ _ Hall).
    rewrite bool_decide_eq_true_2.
    + cbv zeta. rewrite Hlenv, Nat.ltb_irrefl. reflexivity.
    + apply elem_of_pd_index.
      destruct data as [|col data]; [simpl in Hlen; lia|].
      destruct n as [|n]; [lia|].
      assert (Hsome : is_Some (mapM (fun c : gmap string Q => c !! field)
                                    (take (S n) (col :: data)))) by (rewrite Hall; eauto).
      apply mapM_is_Some_1 in Hsome. cbn in Hsome.
      apply Forall_cons in Hsome as [Hcol _]. by apply Exists_cons_hd.
  - intros Hnot.
    destruct (decide (n <= length data)%nat) as [Hlen|Hlen].
    + rewrite sum_quarters_frame by lia.
      destruct (bool_decide _); [|done]. cbv zeta.
      assert (Hmiss : Exists (fun col : gmap string Q => col !! field = None) (take n data)).
      { assert (Hnall : ~ present_in_all data field n) by tauto.
        apply not_Forall_Exists in Hnall; [|intros col; apply _].
        eapply Exists_impl; [exact Hnall|].
        intros col Hcol. simpl in Hcol. by apply eq_None_not_Some. }
      apply omap_length_lt in Hmiss. rewrite length_take in Hmiss.
      replace (_ <? n)%nat with true; [done|].
      symmetry. apply Nat.ltb_lt.
      eapply Nat.lt_le_trans; [exact Hmiss|lia].
    + unfold _sum_quarters, _get_last_n_quarters, parse_frame.
      destruct data as [|col data]; [done|].
      destruct (df_empty _); [done|].
      unfold df_ncols. cbn [df_columns pd_DataFrame].
      replace (_ <? n)%nat with true; [done|].
      symmetry. apply Nat.ltb_lt. lia.
  - reflexivity.
  - intros Hsome. rewrite sum_quarters_no_window.
    rewrite bool_decide_eq_true_2; [done|]. by apply elem_of_pd_index.
  - intros Hnone. rewrite sum_quarters_no_window.
    rewrite bool_decide_eq_false_2; [done|]. rewrite elem_of_pd_index.
    rewrite Exists_exists. intros (col & Hin & Hcol).
    rewrite Forall_forall in Hnone. specialize (Hnone col Hin).
    rewrite Hnone in Hcol. by destruct Hcol.
Qed.

Lemma sum_quarters_all_or_nothing_witness :
  exists sum,
    TTM._sum_quarters
      (parse_frame (Some [quarter "Net Income" 10; quarter "Net Income" 20;
                          quarter "Net Income" 30; quarter "Net Income" 40]))
      "Net Income" 4 = Some sum
    /\ sum == 100.
Proof.
  destruct (proj1 (proj1 (sum_quarters_all_or_nothing
                            [quarter "Net Income" 10; quarter "Net Income" 20;
                             quarter "Net Income" 30; quarter "Net Income" 40]
                            "Net Income" 4)
                     ltac:(lia))
              [10; 20; 30; 40])
    as (sum & Hsum & Htotal).
  - simpl. lia.
  - vm_compute. reflexivity.
  - exists sum. split; [exact Hsum|]. rewrite Htotal. vm_compute. reflexivity.
Defined.

(** C3 as stated fails for a window of no periods: a series has at least
    zero periods and the field is reported by all zero of them, but the
    result is [None], not the empty sum, when no period of the series
    reports the field; so it is when there is no series at all. *)
Lemma empty_window_is_unknown :
  let data := [quarter "Net Income" 10] in
  (0 <= length data)%nat
  /\ present_in_all data "Total Revenue" 0
  /\ _sum_quarters (parse_frame (Some data)) "Total Revenue" 0 = None
  /\ present_in_all [] "Net Income" 0
  /\ _sum_quarters (parse_frame (Some [])) "Net Income" 0 = None.
Proof.
  cbv zeta. split; [cbn; lia|]. split; [apply Forall_nil_2|].
  split; [vm_compute; reflexivity|]. split; [apply Forall_nil_2|reflexivity].
Qed.

(** The literal values of the specification: four known quarters sum to
    100, and a missing quarter gives [None], whichever it is. *)
Example ttm_four_quarters :
  _sum_quarters
    (parse_frame (Some [quarter "Net Income" 10; quarter "Net Income" 20;
                        quarter "Net Income" 30; quarter "Net Income" 40]))
    "Net Income" 4 = Some 100.
Proof. vm_compute. reflexivity. Qed.

Example ttm_missing_quarter :
  forall i, (i < 4)%nat ->
  _sum_quarters
    (parse_frame (Some (<[i := quarter "Total Revenue" 1]>
                          [quarter "Net Income" 10; quarter "Net Income" 20;
                           quarter "Net Income" 30; quarter "Net Income" 40])))
    "Net Income" 4 = None.
Proof.
  intros i Hi. do 4 (destruct i as [|i]; [vm_compute; reflexivity|]). lia.
Qed.

End TTMFacts.

(** ** The growth analyzer *)

Section GrowthFacts.

Import Growth.

Lemma ltb_lt (a b : Q) : Py.ltb a b = true <-> a < b.
Proof.
  unfold Py.ltb. rewrite negb_true_iff, <- not_true_iff_false, Qle_bool_iff.
  split; [apply Qnot_le_lt | apply Qlt_not_le].
Qed.

Lemma grew_growing (current previous : Q) :
  grew current previous = true <-> growing (current, previous).
Proof. unfold grew, growing. by rewrite andb_true_iff, !ltb_lt. Qed.

Lemma steps_cons (current previous : Q) (rest : list Q) :
  steps (current :: previous :: rest) = (current, previous) :: steps (previous :: rest).
Proof. reflexivity. Qed.

Lemma growth_loop_cons (current previous : Q) (rest : list Q) (consecutive : nat) :
  growth_loop (current :: previous :: rest) consecutive =
    if grew current previous then growth_loop (previous :: rest) (S consecutive)
    else consecutive.
Proof. reflexivity. Qed.

(** The loop counts up from [consecutive] by exactly the steps that grow
    before the first one that does not. *)
Lemma growth_loop_spec (values : list Q) (consecutive : nat) :
  exists k : nat,
    growth_loop values consecutive = (consecutive + k)%nat
    /\ (k <= length (steps values))%nat
    /\ (forall i step, (i < k)%nat -> steps values !! i = Some step -> growing step)
    /\ (forall step, steps values !! k = Some step -> ~ growing step).
Proof.
  revert consecutive.
  induction values as [|current [|previous rest] IH]; intros consecutive.
  - exists 0%nat. repeat split; [simpl; lia | simpl; lia | intros; lia | done].
  - exists 0%nat. repeat split; [simpl; lia | simpl; lia | intros; lia | done].
  - rewrite growth_loop_cons. destruct (grew current previous) eqn:Hg.
    + destruct (IH (S consecutive)) as (k & Hk & Hle & Hall & Hstop).
      exists (S k). rewrite steps_cons. repeat split.
      * rewrite Hk. lia.
      * simpl in *. lia.
      * intros [|i] step Hi Hstep; simpl in Hstep.
        -- injection Hstep as <-. by apply grew_growing.
        -- apply (Hall i); [lia | done].
      * intros step Hstep. simpl in Hstep. by apply Hstop.
    + exists 0%nat. rewrite steps_cons. repeat split.
      * lia.
      * simpl; lia.
      * intros; lia.
      * intros step Hstep. simpl in Hstep. injection Hstep as <-.
        rewrite <- grew_growing. congruence.
Qed.

Lemma observed_off_index (cols : list (gmap string Q)) (field : string) :
  field ∉ df_index (pd_DataFrame cols) ->
  omap (fun col : gmap string Q => col !! field) cols = [].
Proof.
  rewrite elem_of_pd_index. induction cols as [|col cols IH]; intros Hno; [done|].
  cbn. destruct (col !! field) eqn:Hcol.
  - exfalso. apply Hno. apply Exists_cons_hd. eauto.
  - apply IH. intros Hex. apply Hno. by apply Exists_cons_tl.
Qed.

Lemma count_is_growth_loop (data : option (list (gmap string Q))) (field : string) :
  count_consecutive_growth_years (mkGrowth (parse_frame data)) field
  = growth_loop (rev (observed data field)) 0.
Proof.
  unfold count_consecutive_growth_years, _get_metric_series, observed.
  destruct data as [[|col cols]|]; [done| |done].
  cbn [parse_frame _annual_financials].
  destruct (bool_decide (field ∈ df_index (pd_DataFrame (col :: cols)))) eqn:Hidx; cbn [negb].
  - unfold loc_dropna. cbn [df_columns pd_DataFrame].
    destruct (omap _ (col :: cols)) as [|x [|y series]] eqn:Hs; [done|done|].
    reflexivity.
  - apply bool_decide_eq_false in Hidx. by rewrite observed_off_index.
Qed.

(** C4.  Over the observed values of [field] taken from the most recent
    year back, [count_consecutive_growth_years] returns the number [k] of
    initial steps with [previous > 0] and [current > previous]: the first
    [k] steps all satisfy it, and the next step, if there is one, does
    not (be it because [previous <= 0] or because the value did not
    grow).  With fewer than two observed values the count is [0]. *)
Theorem count_consecutive_growth_years_spec
    (data : option (list (gmap string Q))) (field : string) :
  let values := rev (observed data field) in
  let k := count_consecutive_growth_years (mkGrowth (parse_frame data)) field in
  (k <= length (steps values))%nat
  /\ (forall i step, (i < k)%nat -> steps values !! i = Some step -> growing step)
  /\ (forall step, steps values !! k = Some step -> ~ growing step)
  /\ ((length values < 2)%nat -> k = 0%nat).
Proof.
  intros values k. subst k. rewrite count_is_growth_loop. fold values.
  destruct (growth_loop_spec values 0) as (k & -> & Hle & Hall & Hstop).
  repeat split; [exact Hle | exact Hall | exact Hstop |].
  intros Hshort. destruct values as [|x [|y rest]]; simpl in *; lia.
Qed.

Lemma count_consecutive_growth_years_spec_witness :
  growing (130, 120)
  /\ ~ growing (90, 100).
Proof.
  destruct (count_consecutive_growth_years_spec (Some five_years) "Net Income")
    as (_ & Hall & Hstop & _).
  split.
  - apply (Hall 0%nat); [vm_compute; lia | vm_compute; reflexivity].
  - apply Hstop. vm_compute. reflexivity.
Defined.

Example growth_years_example :
  count_consecutive_growth_years (mkGrowth (parse_frame (Some five_years))) "Net Income"
  = 2%nat.
Proof. vm_compute. reflexivity. Qed.

(** A loss in the earlier year ends the streak although the value grew. *)
Example growth_years_after_loss :
  count_consecutive_growth_years
    (mkGrowth (parse_frame (Some [quarter "Net Income" (-5); quarter "Net Income" 10;
                                  quarter "Net Income" 20])))
    "Net Income" = 1%nat.
Proof. vm_compute. reflexivity. Qed.

End GrowthFacts.

Section TTMFallback.

Import TTM.

Lemma py_or_zero (zero : Q) (other : option Q) :
  zero == 0 -> Py.or (Some zero) other = other.
Proof.
  intros Hz. unfold Py.or, Py.truthy.
  by rewrite (proj2 (Qeq_bool_iff zero 0) Hz).
Qed.

(** C10 (as amended).  When the four most recent quarters all report
    ['Operating Income'] and their sum is [0], [get_ttm_operating_income]
    returns whatever the TTM sum of ['EBIT'] returns, a number or [None];
    [get_ttm_operating_cashflow] does the same between its two fields. *)
Theorem ttm_zero_sum_takes_fallback (self : TTMCalculator) :
  (forall zero,
      _sum_quarters (_quarterly_financials self) "Operating Income" 4 = Some zero ->
      zero == 0 ->
      get_ttm_operating_income self
      = _sum_quarters (_quarterly_financials self) "EBIT" 4)
  /\ (forall zero,
      _sum_quarters (_quarterly_cashflow self) "Operating Cash Flow" 4 = Some zero ->
      zero == 0 ->
      get_ttm_operating_cashflow self
      = _sum_quarters (_quarterly_cashflow self)
          "Cash Flow From Continuing Operating Activities" 4).
Proof.
  split; intros zero Hsum Hzero.
  - unfold get_ttm_operating_income. rewrite Hsum. by apply py_or_zero.
  - unfold get_ttm_operating_cashflow. rewrite Hsum. by apply py_or_zero.
Qed.

Lemma ttm_zero_sum_takes_fallback_witness :
  get_ttm_operating_income (mkTTM (parse_frame (Some cancelling_quarters)) None None)
  = _sum_quarters (parse_frame (Some cancelling_quarters)) "EBIT" 4.
Proof.
  apply (proj1 (ttm_zero_sum_takes_fallback
                  (mkTTM (parse_frame (Some cancelling_quarters)) None None)) 0).
  - vm_compute. reflexivity.
  - reflexivity.
Defined.

(** C10 as stated fails: all four quarters report ['Operating Income'],
    the values sum to [0], and [get_ttm_operating_income] returns [0]. *)
Lemma ttm_operating_income_returns_zero :
  present_in_all zero_quarters "Operating Income" 4
  /\ _sum_quarters (parse_frame (Some zero_quarters)) "Operating Income" 4 = Some 0
  /\ get_ttm_operating_income (mkTTM (parse_frame (Some zero_quarters)) None None) = Some 0.
Proof.
  split; [|split]; [|vm_compute; reflexivity..].
  unfold present_in_all, zero_quarters. simpl.
  repeat constructor; by eexists.
Qed.

End TTMFallback.

(** ** The peer averages *)

Section IndustryFacts.

Import Industry.

Lemma ensure_calculated_done (self : IndustryAverages) :
  _averages_calculated (ensure_calculated self) = true.
Proof. unfold ensure_calculated. by destruct (_averages_calculated self) eqn:H. Qed.

Lemma ensure_calculated_again (self : IndustryAverages) :
  ensure_calculated (ensure_calculated self) = ensure_calculated self.
Proof.
  unfold ensure_calculated at 1. by rewrite ensure_calculated_done.
Qed.

Lemma get_industry_average_eq (self : IndustryAverages) (industry : option string) :
  get_industry_average self industry
  = (served (_industry_avg (ensure_calculated self)) industry, ensure_calculated self).
Proof. unfold get_industry_average, served. by destruct (Py.truthy_str industry). Qed.

Lemma get_sector_average_eq (self : IndustryAverages) (sector : option string) :
  get_sector_average self sector
  = (served (_sector_avg (ensure_calculated self)) sector, ensure_calculated self).
Proof. unfold get_sector_average, served. by destruct (Py.truthy_str sector). Qed.

Lemma get_peer_average_eq (self : IndustryAverages) (industry sector : option string) :
  get_peer_average self industry sector
  = (match served (_industry_avg (ensure_calculated self)) industry with
     | Some avg => Some avg
     | None => served (_sector_avg (ensure_calculated self)) sector
     end,
     ensure_calculated self).
Proof.
  unfold get_peer_average. rewrite get_industry_average_eq.
  destruct (served _ industry); [done|].
  by rewrite get_sector_average_eq, ensure_calculated_again.
Qed.

(** C9.  Two consecutive calls of [get_peer_average] return the same
    value, and the second one leaves the object as the first one left
    it. *)
Theorem get_peer_average_idempotent
    (self : IndustryAverages) (industry sector : option string) :
  let '(first, self1) := get_peer_average self industry sector in
  let '(second, self2) := get_peer_average self1 industry sector in
  first = second /\ self2 = self1.
Proof.
  rewrite !get_peer_average_eq, ensure_calculated_again. done.
Qed.

End IndustryFacts.

Section MedianFacts.

Import Industry.

(** *** [sorted] *)

Lemma insert_sorted_perm (x : Q) (l : list Q) : Permutation (insert_sorted x l) (x :: l).
Proof.
  induction l as [|y l IH]; simpl; [done|].
  destruct (Qle_bool x y); [done|].
  rewrite IH. apply perm_swap.
Qed.

Lemma sorted_perm (pes : list Q) : Permutation (sorted pes) pes.
Proof.
  induction pes as [|x pes IH]; simpl; [done|].
  rewrite insert_sorted_perm. by constructor.
Qed.

Lemma insert_sorted_hd (x y : Q) (l : list Q) :
  y <= x -> HdRel Qle y l -> HdRel Qle y (insert_sorted x l).
Proof.
  intros Hyx Hl. destruct l as [|z l]; simpl; [by constructor|].
  destruct (Qle_bool x z); constructor; [done|]. by inversion Hl.
Qed.

Lemma insert_sorted_sorted (x : Q) (l : list Q) :
  Sorted Qle l -> Sorted Qle (insert_sorted x l).
Proof.
  induction 1 as [|y l Hl IH Hhd]; simpl; [by repeat constructor|].
  destruct (Qle_bool x y) eqn:Hxy.
  - apply Qle_bool_iff in Hxy. by repeat constructor.
  - constructor; [exact IH|]. apply insert_sorted_hd; [|exact Hhd].
    apply Qlt_le_weak, Qnot_le_lt. rewrite <- Qle_bool_iff. congruence.
Qed.

Lemma sorted_sorted (pes : list Q) : Sorted Qle (sorted pes).
Proof.
  induction pes as [|x pes IH]; simpl; [constructor|].
  by apply insert_sorted_sorted.
Qed.

Lemma sorted_length (pes : list Q) : length (sorted pes) = length pes.
Proof. apply Permutation_length, sorted_perm. Qed.

(** *** [median] *)

Lemma median_total (pes : list Q) : pes <> [] -> is_Some (median pes).
Proof.
  intros Hne. unfold median. cbv zeta. rewrite sorted_length.
  assert (Hlen : (0 < length pes)%nat) by (destruct pes; [done|simpl; lia]).
  assert (Hmid : (length pes / 2 < length pes)%nat) by (apply Nat.div_lt; lia).
  destruct (lookup_lt_is_Some_2 (sorted pes) (length pes / 2)) as [b Hb];
    [rewrite sorted_length; lia|].
  destruct (lookup_lt_is_Some_2 (sorted pes) (length pes / 2 - 1)) as [a Ha];
    [rewrite sorted_length; lia|].
  destruct (length pes mod 2 =? 0)%nat; [|by rewrite Hb].
  rewrite Ha. cbn [mbind option_bind]. rewrite Hb. cbn [mbind option_bind]. eauto.
Qed.

Lemma median_is_median (pes : list Q) (m : Q) : median pes = Some m -> is_median pes m.
Proof.
  unfold median. cbv zeta. rewrite sorted_length. intros Hm.
  exists (sorted pes). split; [apply sorted_perm|]. split; [apply sorted_sorted|].
  cbv zeta. destruct (length pes mod 2 =? 0)%nat eqn:Hpar.
  - apply Nat.eqb_eq in Hpar. split; [intros _|congruence].
    destruct (sorted pes !! (length pes / 2 - 1)%nat) as [a|]; [|done].
    destruct (sorted pes !! (length pes / 2)%nat) as [b|]; [|done].
    cbn [mbind option_bind] in Hm. injection Hm as <-. exists a, b. by repeat split.
  - apply Nat.eqb_neq in Hpar. split; [congruence|]. by intros _.
Qed.

End MedianFacts.

Section PoolFacts.

Import Industry.

Lemma guard_rejects (p : Q) :
  Qle_bool p 0 || Py.ltb 200 p = true <-> rejected (Some p).
Proof.
  simpl. rewrite orb_true_iff, Qle_bool_iff, ltb_lt. tauto.
Qed.

Lemma add_company_rejected (self : IndustryAverages) (industry sector : option string)
    (pe : option Q) :
  rejected pe -> add_company self industry sector pe = self.
Proof.
  destruct pe as [p|]; [|done]. intros Hrej. unfold add_company.
  by rewrite (proj2 (guard_rejects p) Hrej).
Qed.

Lemma bucket_append_to (pools : gmap string (list Q)) (l label : string) (pe : Q) :
  bucket (append_to pools l pe) label
  = if decide (l = label) then bucket pools label ++ [pe] else bucket pools label.
Proof.
  unfold bucket, append_to. destruct (decide (l = label)) as [->|Hne].
  - by rewrite lookup_insert_eq.
  - by rewrite lookup_insert_ne.
Qed.

Lemma truthy_str_label (l : option string) (label : string) :
  label <> EmptyString -> (Py.truthy_str l = Some label <-> l = Some label).
Proof.
  intros Hne. destruct l as [[|a s]|]; simpl; [|done..].
  split; [done|]. intros [= <-]. done.
Qed.

(** One call adds to the bucket of [label] exactly what [pooled] lists. *)
Lemma bucket_after_call (pools : gmap string (list Q)) (l : option string)
    (p : Q) (label : string) :
  label <> EmptyString -> ~ rejected (Some p) ->
  bucket (match Py.truthy_str l with
          | Some i => append_to pools i p
          | None => pools
          end) label
  = bucket pools label ++ pooled label [(l, Some p)].
Proof.
  intros Hne Hacc. unfold pooled. cbn [omap list_omap].
  destruct (Py.truthy_str l) as [i|] eqn:Hl.
  - rewrite bucket_append_to. destruct (decide (i = label)) as [->|Hil].
    + apply (proj1 (truthy_str_label l label Hne)) in Hl. subst l.
      by rewrite bool_decide_eq_true_2.
    + rewrite bool_decide_eq_false_2; [by rewrite app_nil_r|].
      intros [-> _]. apply Hil. destruct label; [done|]. simpl in Hl. congruence.
  - rewrite bool_decide_eq_false_2; [by rewrite app_nil_r|].
    intros [-> _]. destruct label; [done|]. simpl in Hl. congruence.
Qed.

Lemma pooled_cons (label : string) (e : option string * option Q)
    (entries : list (option string * option Q)) :
  pooled label (e :: entries) = pooled label [e] ++ pooled label entries.
Proof.
  unfold pooled. cbn. destruct e as [l [p|]]; [|done].
  by destruct (bool_decide _).
Qed.

Lemma bucket_grows (pools : gmap string (list Q)) (l : option string) (p : Q)
    (label : string) :
  bucket pools label <> [] ->
  bucket (match Py.truthy_str l with
          | Some i => append_to pools i p
          | None => pools
          end) label <> [].
Proof.
  intros Hne. destruct (Py.truthy_str l) as [i|]; [|done].
  rewrite bucket_append_to. destruct (decide (i = label)); [|done].
  by destruct (bucket pools label).
Qed.

Lemma add_company_consistent (self : IndustryAverages) (industry sector : option string)
    (pe : option Q) :
  consistent self -> consistent (add_company self industry sector pe).
Proof.
  intros [Hind Hsec]. unfold add_company. destruct pe as [p|]; [|done].
  destruct (Qle_bool p 0 || Py.ltb 200 p); [done|].
  split; intros label; cbn;
    (split; [intros Hsome; apply bucket_grows|done]).
  - by apply (Hind label).
  - by apply (Hsec label).
Qed.

(** The averages that the loop of [_calculate_averages] leaves. *)
Lemma calculated_lookup (avg : gmap string Q) (pools : gmap string (list Q))
    (label : string) :
  map_fold update_avg avg pools !! label
  = match median (bucket pools label) with
    | Some m => Some m
    | None => avg !! label
    end.
Proof.
  unfold bucket.
  apply (map_fold_weak_ind
           (fun (acc : gmap string Q) (pools : gmap string (list Q)) =>
              acc !! label = match median (default [] (pools !! label)) with
                             | Some m => Some m
                             | None => avg !! label
                             end)).
  - by rewrite lookup_empty.
  - intros l pes pools' acc Hfresh IH.
    destruct (decide (l = label)) as [->|Hl].
    + rewrite lookup_insert_eq. cbn [default from_option id].
      rewrite Hfresh in IH. cbn [default from_option id] in IH.
      unfold update_avg. destruct pes as [|x pes]; [exact IH|].
      destruct (median (x :: pes)) as [m|]; [by rewrite lookup_insert_eq|exact IH].
    + rewrite lookup_insert_ne by done.
      unfold update_avg. destruct pes as [|x pes]; [exact IH|].
      destruct (median (x :: pes)) as [m|]; [by rewrite lookup_insert_ne|exact IH].
Qed.

Lemma median_nil_inv (pes : list Q) : median pes = None -> pes = [].
Proof.
  intros Hm. destruct pes as [|x pes]; [done|].
  destruct (median_total (x :: pes)) as [m Hs]; [done|]. congruence.
Qed.

Lemma calculated_up_to_date (flag : bool) (avg : gmap string Q)
    (pools : gmap string (list Q)) :
  up_to_date flag avg pools -> up_to_date true (map_fold update_avg avg pools) pools.
Proof.
  intros Hinv label. rewrite calculated_lookup. destruct (Hinv label) as [Hpool _].
  destruct (median (bucket pools label)) as [m|] eqn:Hm.
  - split; [|done]. intros _ Hnil. by rewrite Hnil in Hm.
  - apply median_nil_inv in Hm. split; [exact Hpool|]. intros _.
    destruct (avg !! label) eqn:Havg; [|done]. exfalso. apply Hpool; [eauto|done].
Qed.

Lemma ensure_calculated_consistent (self : IndustryAverages) :
  consistent self ->
  consistent (ensure_calculated self)
  /\ _pe_by_industry (ensure_calculated self) = _pe_by_industry self
  /\ _pe_by_sector (ensure_calculated self) = _pe_by_sector self.
Proof.
  intros [Hind Hsec]. unfold ensure_calculated.
  destruct (_averages_calculated self) eqn:Hflag.
  - split; [|done]. unfold consistent. rewrite Hflag. by split.
  - split; [|done]. split; cbn; eapply calculated_up_to_date; eassumption.
Qed.

Lemma perform_consistent (self : IndustryAverages) (o : operation) :
  consistent self -> consistent (perform self o).
Proof.
  intros Hinv. destruct o as [c|industry sector]; cbn [perform].
  - by apply add_company_consistent.
  - rewrite get_peer_average_eq. cbn [snd]. by apply ensure_calculated_consistent.
Qed.

Lemma after_consistent (self : IndustryAverages) (ops : list operation) :
  consistent self -> consistent (after self ops).
Proof.
  revert self. induction ops as [|o ops IH]; intros self Hinv; [done|].
  apply IH. by apply perform_consistent.
Qed.

(** The buckets hold what the [add_company] calls of the run pooled, in
    call order. *)
Lemma buckets_after (self : IndustryAverages) (ops : list operation) (label : string) :
  consistent self -> label <> EmptyString ->
  bucket (_pe_by_industry (after self ops)) label
    = bucket (_pe_by_industry self) label
      ++ pooled label (industry_entries (calls_of ops))
  /\ bucket (_pe_by_sector (after self ops)) label
    = bucket (_pe_by_sector self) label
      ++ pooled label (sector_entries (calls_of ops)).
Proof.
  intros Hinv Hne. revert self Hinv.
  induction ops as [|[[industry sector pe]|industry sector] ops IH]; intros self Hinv.
  - simpl. by rewrite !app_nil_r.
  - cbn [after fold_left perform call_industry call_sector call_pe].
    fold (after (add_company self industry sector pe) ops).
    destruct (IH (add_company self industry sector pe)) as [-> ->];
      [by apply add_company_consistent|].
    unfold industry_entries, sector_entries. cbn [calls_of omap list_omap].
    fold (calls_of ops). rewrite !fmap_cons.
    cbn [call_industry call_sector call_pe].
    rewrite (pooled_cons label (industry, pe)), (pooled_cons label (sector, pe)), !app_assoc.
    destruct (decide (rejected pe)) as [Hrej|Hacc].
    + rewrite add_company_rejected by done.
      assert (Hnil : forall l, pooled label [(l, pe)] = []).
      { intros l. unfold pooled. cbn. destruct pe as [p|]; [|done].
        rewrite bool_decide_eq_false_2; [done|tauto]. }
      by rewrite !Hnil, !app_nil_r.
    + destruct pe as [p|]; [|by destruct Hacc].
      unfold add_company.
      destruct (Qle_bool p 0 || Py.ltb 200 p) eqn:Hguard;
        [by apply guard_rejects in Hguard|].
      cbn [_pe_by_industry _pe_by_sector].
      by rewrite !bucket_after_call.
  - cbn [after fold_left perform]. rewrite get_peer_average_eq. cbn [snd].
    fold (after (ensure_calculated self) ops).
    destruct (ensure_calculated_consistent self Hinv) as (Hinv' & Hi & Hs).
    destruct (IH (ensure_calculated self) Hinv') as [-> ->].
    cbn [calls_of omap list_omap]. fold (calls_of ops). by rewrite Hi, Hs.
Qed.

Lemma new_object_consistent (cache : option (gmap string Q * gmap string Q)) :
  consistent (__init__ cache).
Proof.
  split; intros label; cbn; rewrite lookup_empty; (split; [by intros [? ?]|done]).
Qed.

(** A read serves the medians of the pools as they are. *)
Lemma read_serves_median (self : IndustryAverages) (label : string) :
  consistent self -> label <> EmptyString ->
  fst (get_industry_average self (Some label))
    = median (bucket (_pe_by_industry self) label)
  /\ fst (get_sector_average self (Some label))
    = median (bucket (_pe_by_sector self) label).
Proof.
  intros Hinv Hne.
  destruct (ensure_calculated_consistent self Hinv) as ([Hind Hsec] & Hi & Hs).
  rewrite get_industry_average_eq, get_sector_average_eq. cbn [fst]. unfold served.
  rewrite (proj2 (truthy_str_label (Some label) label Hne) eq_refl).
  rewrite <- Hi, <- Hs. split.
  - apply (Hind label), ensure_calculated_done.
  - apply (Hsec label), ensure_calculated_done.
Qed.

(** C7.  [add_company] leaves the object as it is for a PE that is
    unknown, [<= 0] or [> 200]; after any sequence of calls on a new
    object, with earlier reads in between or without, the average read
    for an industry (or a sector) is the median of the PEs pooled under
    that label, [None] for an empty pool; the median averages the two
    central values of an even-sized pool, so that of [8, 12, 15, 20] is
    13.5 and that of [8, 12, 15] is 12. *)
Theorem add_company_pools_medians :
  (forall self industry sector pe,
      rejected pe -> add_company self industry sector pe = self)
  /\ (forall cache ops label,
      label <> EmptyString ->
      let self := after (__init__ cache) ops in
      fst (get_industry_average self (Some label))
        = median (pooled label (industry_entries (calls_of ops)))
      /\ fst (get_sector_average self (Some label))
        = median (pooled label (sector_entries (calls_of ops))))
  /\ (forall pool, pool <> [] -> exists m, median pool = Some m /\ is_median pool m)
  /\ (exists m, median [8; 12; 15; 20] = Some m /\ m == 13.5)
  /\ median [8; 12; 15] = Some 12.
Proof.
  split; [exact add_company_rejected|]. split; [|split; [|split]].
  - intros cache ops label Hne self. subst self.
    pose proof (new_object_consistent cache) as Hnew.
    destruct (read_serves_median (after (__init__ cache) ops) label) as [-> ->];
      [by apply after_consistent|done|].
    by destruct (buckets_after (__init__ cache) ops label Hnew Hne) as [-> ->].
  - intros pool Hne. destruct (median_total pool Hne) as [m Hm].
    exists m. split; [exact Hm|]. by apply median_is_median.
  - exists (27 # 2). split; [vm_compute; reflexivity|reflexivity].
  - vm_compute. reflexivity.
Qed.

Lemma add_company_pools_medians_witness :
  fst (get_industry_average (after (__init__ None) bank_run) (Some "Banks"))
  = median (pooled "Banks" (industry_entries (calls_of bank_run))).
Proof.
  apply (proj1 (proj2 add_company_pools_medians) None bank_run "Banks").
  discriminate.
Defined.

(** The run pools 8, 15 and 12 under the industry and serves 12; the
    first read, of 8 and 15, served 11.5. *)
Example bank_run_median :
  fst (get_industry_average (after (__init__ None) bank_run) (Some "Banks")) = Some 12
  /\ pooled "Banks" (industry_entries (calls_of bank_run)) = [8; 15; 12]
  /\ fst (get_peer_average (after (__init__ None) (take 2 bank_run)) (Some "Banks") None)
     = Some ((8 + 15) / 2).
Proof. repeat split; vm_compute; reflexivity. Qed.

End PoolFacts.

(** ** The annual ratios *)

Section MetricsFacts.

Import Metrics.

Lemma ltb_ge (a b : Q) : Py.ltb a b = false <-> b <= a.
Proof.
  unfold Py.ltb. rewrite negb_false_iff. apply Qle_bool_iff.
Qed.

Lemma py_min_Qmin (a b : Q) : Py.min a b == Qmin a b.
Proof.
  unfold Py.min. destruct (Py.ltb b a) eqn:Hlt.
  - apply ltb_lt in Hlt. symmetry. apply Q.min_r. lra.
  - apply ltb_ge in Hlt. symmetry. by apply Q.min_l.
Qed.

Lemma py_max_Qmax (a b : Q) : Py.max a b == Qmax a b.
Proof.
  unfold Py.max. destruct (Py.ltb a b) eqn:Hlt.
  - apply ltb_lt in Hlt. symmetry. apply Q.max_r. lra.
  - apply ltb_ge in Hlt. symmetry. by apply Q.max_l.
Qed.

Lemma ftruthy_Fin (q : Q) : ftruthy (Fin q) = true <-> ~ q == 0.
Proof.
  simpl. rewrite negb_true_iff, <- not_true_iff_false. by rewrite Qeq_bool_iff.
Qed.

Lemma ftruthy_zero (q : Q) : q == 0 -> ftruthy (Fin q) = false.
Proof.
  intros Hz. apply not_true_iff_false. rewrite ftruthy_Fin. tauto.
Qed.

Lemma fmin_Fin (a b : Q) : fmin (Fin a) (Fin b) = Fin (Py.min a b).
Proof. unfold fmin, Py.min. simpl. by destruct (Py.ltb b a). Qed.

Lemma fmax_Fin (a b : Q) : fmax (Fin a) (Fin b) = Fin (Py.max a b).
Proof. unfold fmax, Py.max. simpl. by destruct (Py.ltb a b). Qed.

(** The return value of [calculate_roic] is NOPAT over invested capital,
    with NOPAT the EBIT of the period less tax at [tax_rate_of]. *)
Lemma calculate_roic_formula (self : MetricsCalculator) (year_offset : nat) (roic : float) :
  calculate_roic self year_offset = Some roic ->
  exists fin_df bal_df fin bal ebit total_equity,
    _annual_financials self = Some fin_df /\ _annual_balance self = Some bal_df
    /\ iloc_col fin_df year_offset = Some fin /\ iloc_col bal_df year_offset = Some bal
    /\ ebit_of fin = Some (Fin ebit)
    /\ total_equity_of bal = Some (Fin total_equity)
    /\ fleb (invested_capital_of bal (Fin total_equity)) (Fin 0) = false
    /\ roic = fdiv (fmul (Fin ebit) (fsub (Fin 1) (tax_rate_of fin)))
                   (invested_capital_of bal (Fin total_equity)).
Proof.
  unfold calculate_roic. intros H.
  destruct (_annual_financials self) as [fin_df|]; [|done].
  destruct (_annual_balance self) as [bal_df|]; [|done].
  destruct (df_ncols fin_df <=? year_offset)%nat; [done|].
  destruct (iloc_col fin_df year_offset) as [fin|] eqn:Hfin; [|done].
  destruct (iloc_col bal_df year_offset) as [bal|] eqn:Hbal; [|done].
  destruct (ebit_of fin) as [[|ebit]|] eqn:Hebit; [done| |done].
  destruct (total_equity_of bal) as [[|total_equity]|] eqn:Hequity; [done| |done].
  destruct (fleb _ _) eqn:Hic; [done|].
  injection H as <-. exists fin_df, bal_df, fin, bal, ebit, total_equity.
  by repeat split.
Qed.

(** C6 (as amended).  The rate in NOPAT is [|tax| / pretax] clamped to
    [[0, 0.5]] when pretax income is a positive number and the tax figure
    (['Tax Provision'], or ['Income Tax Expense'] when that one is absent
    or zero) is a number other than zero; it is the default [0.25] when
    pretax income is absent, missing or not positive, and when the tax
    figure is absent or zero. *)
Theorem tax_rate_clamped_or_default (fin : Series) :
  let pretax := get fin "Pretax Income" in
  let tax := or_ (get fin "Tax Provision") (get fin "Income Tax Expense") in
  (forall p t,
      pretax = Some (Fin p) -> tax = Some (Fin t) -> 0 < p -> ~ t == 0 ->
      exists rate, tax_rate_of fin = Fin rate /\ rate == clamp (Qabs t / p) 0 0.5)
  /\ (pretax = None \/ pretax = Some NaN \/ (exists p, pretax = Some (Fin p) /\ p <= 0)
      \/ tax = None \/ (exists t, tax = Some (Fin t) /\ t == 0) ->
      tax_rate_of fin = Fin 0.25)
  /\ (forall self year_offset roic,
      calculate_roic self year_offset = Some roic ->
      exists fin_df fin ebit invested_capital,
        _annual_financials self = Some fin_df
        /\ iloc_col fin_df year_offset = Some fin
        /\ ebit_of fin = Some (Fin ebit)
        /\ roic = fdiv (fmul (Fin ebit) (fsub (Fin 1) (tax_rate_of fin))) invested_capital).
Proof.
  intros pretax tax. unfold tax_rate_of. fold pretax tax. split; [|split].
  - intros p t -> -> Hp Ht.
    rewrite (proj2 (ftruthy_Fin p)) by lra.
    rewrite (proj2 (ftruthy_Fin t)) by exact Ht.
    cbn [andb fltb]. rewrite (proj2 (ltb_lt 0 p)) by exact Hp.
    cbn [fabs fdiv lift2]. rewrite fmax_Fin, fmin_Fin.
    eexists. split; [reflexivity|].
    unfold clamp. rewrite py_min_Qmin, py_max_Qmax.
    generalize (Qabs t / p). intros x.
    destruct (Q.max_spec x 0) as [[? ->]|[? ->]];
      destruct (Q.min_spec x 0.5) as [[? H1]|[? H1]]; rewrite ?H1;
      repeat match goal with
             | |- context [Qmax ?a ?b] =>
                 destruct (Q.max_spec a b) as [[? ->]|[? ->]]
             | |- context [Qmin ?a ?b] =>
                 destruct (Q.min_spec a b) as [[? ->]|[? ->]]
             end; lra.
  - intros [->|[->|[(p & -> & Hp)|[->|(t & -> & Ht)]]]].
    + reflexivity.
    + destruct tax as [t|]; [|done]. cbn [ftruthy fltb andb].
      by destruct (ftruthy t).
    + destruct tax as [t|]; [|done].
      destruct (ftruthy (Fin p)); [|done]. destruct (ftruthy t); [|done].
      cbn [andb fltb]. by rewrite (proj2 (ltb_ge 0 p)).
    + by destruct pretax.
    + destruct pretax as [p|]; [|done].
      rewrite (ftruthy_zero t Ht). by rewrite andb_false_r.
  - intros self year_offset roic Hroic.
    apply calculate_roic_formula in Hroic
      as (fin_df & bal_df & fin' & bal & ebit & eq & Hf & _ & Hfin & _ & Hebit & _ & _ & ->).
    by exists fin_df, fin', ebit, (invested_capital_of bal (Fin eq)).
Qed.

Lemma tax_rate_clamped_or_default_witness :
  exists rate,
    tax_rate_of (only_period taxed_income) = Fin rate
    /\ rate == clamp (Qabs (-20) / 100) 0 0.5.
Proof.
  apply (proj1 (tax_rate_clamped_or_default (only_period taxed_income)) 100 (-20)).
  - vm_compute. reflexivity.
  - vm_compute. reflexivity.
  - reflexivity.
  - discriminate.
Defined.

(** C6 as stated fails: pretax income is known and positive, the tax
    provision is known (it is zero), and the rate is the default and not
    [|0| / 100 = 0]. *)
Lemma zero_tax_provision_uses_default :
  get (only_period untaxed_income) "Pretax Income" = Some (Fin 100)
  /\ get (only_period untaxed_income) "Tax Provision" = Some (Fin 0)
  /\ tax_rate_of (only_period untaxed_income) = Fin 0.25
  /\ ~ 0.25 == clamp (Qabs 0 / 100) 0 0.5.
Proof.
  split; [vm_compute; reflexivity|]. split; [vm_compute; reflexivity|].
  split; [vm_compute; reflexivity|]. vm_compute. discriminate.
Qed.

(** A tax figure that the frame knows but this period lacks is NaN, which
    is truthy: the rate, and with it the ROIC, is NaN. *)
Lemma missing_tax_provision_is_nan (fin : Series) (p : Q) :
  get fin "Pretax Income" = Some (Fin p) -> 0 < p ->
  get fin "Tax Provision" = Some NaN ->
  tax_rate_of fin = NaN.
Proof.
  intros Hp Hpos Ht. unfold tax_rate_of. rewrite Hp, Ht.
  change (or_ (Some NaN) (get fin "Income Tax Expense")) with (Some NaN).
  rewrite (proj2 (ftruthy_Fin p)) by lra.
  cbn [ftruthy andb fltb]. by rewrite (proj2 (ltb_lt 0 p)).
Qed.

(** C5 fails on a balance sheet without ['Total Debt']: the debt that
    enters invested capital is the long-term debt alone, 100 and not
    100 + 50, so the ROIC is 30 / 200 where the stated formula gives
    30 / 250; [calculate_debt_to_equity] adds both parts on the same
    sheet. *)
Theorem roic_total_debt_drops_current_debt :
  get (only_period split_debt_balance) "Total Debt" = None
  /\ get (only_period split_debt_balance) "Long Term Debt" = Some (Fin 100)
  /\ get (only_period split_debt_balance) "Current Debt" = Some (Fin 50)
  /\ roic_total_debt (only_period split_debt_balance) = Fin (0 + 100)
  /\ (exists roic,
        calculate_roic (one_year taxed_income split_debt_balance) 0 = Some (Fin roic)
        /\ roic == 40 * (1 - 0.2) / (100 + 100 - 0)
        /\ ~ roic == 40 * (1 - 0.2) / (100 + 50 + 100 - 0))
  /\ (exists ratio,
        calculate_debt_to_equity (one_year taxed_income split_debt_balance)
        = Some (Fin ratio)
        /\ ratio == (100 + 50) / 100).
Proof.
  do 4 (split; [vm_compute; reflexivity|]). split.
  - eexists. split; [vm_compute; reflexivity|]. split; [reflexivity|].
    vm_compute. discriminate.
  - eexists. split; [vm_compute; reflexivity|]. reflexivity.
Qed.

(** Whenever the frame has no ['Total Debt'] row and the long-term debt
    is a number other than zero, the current debt is not read. *)
Lemma roic_total_debt_without_row (bal : Series) (long_term : Q) :
  get bal "Total Debt" = None ->
  get bal "Long Term Debt" = Some (Fin long_term) -> ~ long_term == 0 ->
  roic_total_debt bal = Fin (0 + long_term).
Proof.
  intros Htd Hltd Hnz. unfold roic_total_debt. rewrite Htd, Hltd.
  unfold or0, or_. cbn [truthy]. rewrite (proj2 (ftruthy_Fin long_term) Hnz).
  reflexivity.
Qed.

(** The parts of C5 that do hold: no EBIT, no equity or no positive
    invested capital give [None]. *)
Lemma calculate_roic_unknown (self : MetricsCalculator) (year_offset : nat)
    (fin_df bal_df : DataFrame) (fin bal : Series) :
  _annual_financials self = Some fin_df -> _annual_balance self = Some bal_df ->
  iloc_col fin_df year_offset = Some fin -> iloc_col bal_df year_offset = Some bal ->
  isna (ebit_of fin) = true
  \/ isna (total_equity_of bal) = true
  \/ (exists total_equity capital,
        total_equity_of bal = Some (Fin total_equity)
        /\ invested_capital_of bal (Fin total_equity) = Fin capital /\ capital <= 0) ->
  calculate_roic self year_offset = None.
Proof.
  intros Hf Hb Hfin Hbal Hcases. unfold calculate_roic. rewrite Hf, Hb, Hfin, Hbal.
  destruct (df_ncols fin_df <=? year_offset)%nat; [done|].
  destruct Hcases as [He|[Heq|(eq & capital & Heq & Hic & Hle)]].
  - by destruct (ebit_of fin) as [[|ebit]|].
  - destruct (ebit_of fin) as [[|ebit]|]; [done| |done].
    by destruct (total_equity_of bal) as [[|eq]|].
  - destruct (ebit_of fin) as [[|ebit]|]; [done| |done].
    rewrite Heq, Hic. cbn [fleb]. by rewrite (proj2 (Qle_bool_iff capital 0) Hle).
Qed.

End MetricsFacts.

(** ** The composite score *)

Section ScoreFacts.

Import Screener.

Lemma py_clamp (x lo hi : Q) : Py.max lo (Py.min x hi) == clamp x lo hi.
Proof.
  unfold clamp. rewrite py_max_Qmax.
  destruct (Q.max_spec lo (Py.min x hi)) as [[H1 ->]|[H1 ->]];
    destruct (Q.max_spec lo (Qmin x hi)) as [[H2 ->]|[H2 ->]];
    rewrite py_min_Qmin in *; lra.
Qed.

(** A NaN ROIC makes the score NaN, whatever the other terms are. *)
Lemma score_nan (m : FinancialMetrics) (growth_data : gmap string Z)
    (filter_results : gmap string FilterResult) :
  roic m = Some Metrics.NaN ->
  _calculate_score m growth_data filter_results = Metrics.NaN.
Proof.
  intros Hroic. unfold _calculate_score. rewrite Hroic. cbv zeta.
  destruct (filter_results !! "pe_below_max") as [pe_result|];
    [destruct (Metrics.truthy (value pe_result) && Py.truthy (threshold pe_result));
     [destruct (value pe_result), (threshold pe_result)|]|];
    destruct (cf_yield m), (debt_to_equity m); reflexivity.
Qed.

(** Any other ROIC leaves the score a number, the sum of the five terms. *)
Lemma score_terms (m : FinancialMetrics) (growth_data : gmap string Z)
    (filter_results : gmap string FilterResult) :
  roic m <> Some Metrics.NaN ->
  exists score,
    _calculate_score m growth_data filter_results = Metrics.Fin score
    /\ score == roic_term m + pe_term filter_results + cf_term m + debt_term m
                + growth_term growth_data.
Proof.
  intros Hroic.
  unfold _calculate_score, roic_term, pe_term, cf_term, debt_term, growth_term, clamp.
  cbv zeta.
  destruct (roic m) as [[|r]|]; [done| |];
    destruct (cf_yield m) as [cf|], (debt_to_equity m) as [de|];
    (destruct (filter_results !! "pe_below_max") as [pe_result|];
     [destruct (value pe_result) as [[|v]|], (threshold pe_result) as [t|];
      cbn [Metrics.truthy Metrics.ftruthy Py.truthy andb];
      try destruct (Qeq_bool v 0); try destruct (Qeq_bool t 0)|]);
    cbn [negb andb orb Metrics.fsub Metrics.fdiv Metrics.fmul Metrics.fadd Metrics.lift2];
    rewrite ?fmin_Fin, ?fmax_Fin;
    cbn [Metrics.fmin Metrics.fmax Metrics.fltb Metrics.fadd Metrics.lift2];
    (eexists; split; [reflexivity|]);
    rewrite ?py_clamp, ?py_min_Qmin, ?py_max_Qmax; unfold clamp; lra.
Qed.

Lemma Qmin_le_r (a b : Q) : Qmin a b <= b.
Proof. apply Q.le_min_r. Qed.

Lemma pe_term_bound (filter_results : gmap string FilterResult) :
  pe_term filter_results <= 20.
Proof.
  unfold pe_term. destruct (filter_results !! "pe_below_max") as [r|]; [|lra].
  destruct (value r) as [[|v]|]; [lra| |lra]. destruct (threshold r) as [t|]; [|lra].
  destruct (Qeq_bool v 0 || Qeq_bool t 0); [lra|].
  unfold clamp. generalize ((t - v) / t * 40). intros x.
  pose proof (Qmin_le_r x 20).
  destruct (Q.max_spec 0 (Qmin x 20)) as [[? ->]|[? ->]]; lra.
Qed.

(** C2 (as amended).  A NaN ROIC, which [calculate_roic] can return, makes
    the score NaN.  With any other ROIC the score is a number, the sum of
    the five clamped terms, where the PE-discount term applies when the PE
    filter result has a value and a threshold that are numbers other than
    zero; it is then at most 100 whenever the debt-to-equity ratio is
    unknown or not negative. *)
Theorem calculate_score_sum_of_terms (m : FinancialMetrics)
    (growth_data : gmap string Z) (filter_results : gmap string FilterResult) :
  (roic m = Some Metrics.NaN ->
     _calculate_score m growth_data filter_results = Metrics.NaN)
  /\ (roic m <> Some Metrics.NaN ->
      exists score,
        _calculate_score m growth_data filter_results = Metrics.Fin score
        /\ score == roic_term m + pe_term filter_results + cf_term m + debt_term m
                    + growth_term growth_data
        /\ ((forall de, debt_to_equity m = Some de -> 0 <= de) -> score <= 100)).
Proof.
  split; [apply score_nan|]. intros Hroic.
  destruct (score_terms m growth_data filter_results Hroic) as (score & Hscore & Hsum).
  exists score. split; [exact Hscore|]. split; [exact Hsum|].
  intros Hde. rewrite Hsum.
  pose proof (pe_term_bound filter_results) as Hpe.
  assert (Hr : roic_term m <= 30).
  { unfold roic_term. destruct (roic m) as [[|r]|]; [lra|apply Qmin_le_r|lra]. }
  assert (Hcf : cf_term m <= 20).
  { unfold cf_term. destruct (cf_yield m); [apply Qmin_le_r|lra]. }
  assert (Hgrowth : growth_term growth_data <= 15) by apply Qmin_le_r.
  assert (Hdebt : debt_term m <= 15).
  { unfold debt_term. destruct (debt_to_equity m) as [de|]; [|lra].
    specialize (Hde de eq_refl).
    destruct (Q.max_spec 0 (15 - de * 30)) as [[? ->]|[? ->]]; lra. }
  lra.
Qed.

Lemma calculate_score_sum_of_terms_witness :
  exists score,
    _calculate_score worked_company (growth_of 3 3) worked_pe_result = Metrics.Fin score
    /\ score == 12 + 20 + 6 + 0 + 9
    /\ score <= 100.
Proof.
  destruct (proj2 (calculate_score_sum_of_terms worked_company (growth_of 3 3)
                     worked_pe_result))
    as (score & Hscore & Hsum & Hbound).
  - vm_compute. discriminate.
  - exists score. split; [exact Hscore|]. split.
    + rewrite Hsum. vm_compute. reflexivity.
    + apply Hbound. intros de [= <-]. vm_compute. discriminate.
Defined.

(** C2 as stated fails: "at most 100 for every input" does not hold.  A
    negative debt-to-equity ratio takes the score to 160, and the
    snapshot of a company whose balance sheet lacks the long-term debt of
    the year has a NaN ROIC and so a NaN score, which is no number at
    all. *)
Lemma score_differs_and_exceeds_100 :
  (exists score,
      _calculate_score net_cash_company (growth_of 5 5) worked_pe_result
      = Metrics.Fin score
      /\ score == 160 /\ ~ score <= 100)
  /\ roic (annual_snapshot patchy_calc) = Some Metrics.NaN
  /\ _calculate_score (annual_snapshot patchy_calc) (growth_of 0 0) ∅ = Metrics.NaN.
Proof.
  split; [|split; vm_compute; reflexivity].
  eexists. split; [vm_compute; reflexivity|].
  split; [vm_compute; reflexivity|]. vm_compute. intros H. by apply H.
Qed.

(** The worked company of the specification scores 12 + 20 + 6 + 0 + 9. *)
Example worked_company_score :
  same_float (_calculate_score worked_company (growth_of 3 3) worked_pe_result)
    (Metrics.Fin 47).
Proof. vm_compute. reflexivity. Qed.

(** A PE result whose value is zero earns no discount, as a missing one. *)
Example zero_pe_value_earns_nothing :
  _calculate_score worked_company (growth_of 3 3) zero_pe_result
  = _calculate_score worked_company (growth_of 3 3) ∅.
Proof. vm_compute. reflexivity. Qed.

End ScoreFacts.

(** ** The filters *)

Section FilterFacts.

Import Industry Filters.

Variable thresholds : Config.ScreeningThresholds.
Variable fmt : nat -> Q -> string.
Variable str_float : Q -> string.
Variable str_int : Z -> string.

(** C8 (as amended).  The PE, ROIC, revenue-growth, earnings-growth,
    debt-to-equity, free-cash-flow and cash-flow-yield filters return
    [passed = false] with a "not available" reason when their input is
    unknown.  The positive-earnings filter has no such case: it passes
    exactly when the [has_positive_earnings] flag is set, so it fails on
    unknown TTM earnings when the flag is the one that [calculate_all]
    computes, with the reason of a loss of zero. *)
Theorem filters_fail_closed (industry_avg : IndustryAverages) (m : FinancialMetrics) :
  (pe_ratio m = None ->
     filter_pe_below_industry fmt industry_avg m
     = (not_available "PE ratio", industry_avg))
  /\ (roic_history m = None \/ roic_history m = Some [] ->
     filter_roic_consistent thresholds fmt str_int m = not_available "ROIC history")
  /\ filter_revenue_growth thresholds str_int m None
     = not_available "Revenue growth data"
  /\ filter_earnings_growth thresholds str_int m None
     = not_available "Earnings growth data"
  /\ (debt_to_equity m = None ->
     filter_debt_to_equity thresholds fmt str_float m = not_available "D/E ratio")
  /\ (free_cash_flow m = None -> filter_positive_fcf fmt m = not_available "FCF")
  /\ (cf_yield m = None -> filter_cf_yield thresholds fmt m = not_available "CF yield")
  /\ passed (filter_positive_earnings fmt m) = has_positive_earnings m
  /\ (ttm_earnings m = None ->
      has_positive_earnings m = Metrics.positive_earnings_flag (ttm_earnings m) ->
      filter_positive_earnings fmt m
      = mkResult false ("TTM Earnings: " +:+ fmt 1%nat (0 / 1000000) +:+ "M (loss-maker)")
          None (Some 0)).
Proof.
  repeat split.
  - intros H. unfold filter_pe_below_industry. by rewrite H.
  - intros [H|H]; unfold filter_roic_consistent; by rewrite H.
  - intros H. unfold filter_debt_to_equity. by rewrite H.
  - intros H. unfold filter_positive_fcf. by rewrite H.
  - intros H. unfold filter_cf_yield. by rewrite H.
  - intros Hnone Hflag. unfold filter_positive_earnings.
    rewrite Hflag, Hnone. reflexivity.
Qed.

End FilterFacts.

Lemma filters_fail_closed_witness :
  Filters.filter_debt_to_equity Config.default_thresholds Render.format_fixed
    Render.str_float
    (snapshot (Some 10) (Some 0.12) None (Some 1) (Some 0.06) (Some 1) true)
  = not_available "D/E ratio".
Proof.
  apply (filters_fail_closed Config.default_thresholds Render.format_fixed
           Render.str_float Render.str_int (Industry.__init__ None)
           (snapshot (Some 10) (Some 0.12) None (Some 1) (Some 0.06) (Some 1) true)).
  reflexivity.
Defined.

(** C8 as stated fails for the positive-earnings filter: with TTM earnings
    unknown it passes when the flag is set, and when the flag is off its
    reason is the one of earnings that are known to be zero. *)
Lemma positive_earnings_ignores_unknown :
  ttm_earnings unknown_earnings_flagged = None
  /\ passed (Filters.filter_positive_earnings Render.format_fixed unknown_earnings_flagged)
     = true
  /\ reason (Filters.filter_positive_earnings Render.format_fixed unknown_earnings)
     = "TTM Earnings: 0.0M (loss-maker)"
  /\ reason (Filters.filter_positive_earnings Render.format_fixed unknown_earnings)
     = reason (Filters.filter_positive_earnings Render.format_fixed zero_earnings).
Proof. repeat split; vm_compute; reflexivity. Qed.

(** The worked company of the specification, against the default
    thresholds and a peer average of 20. *)
Example worked_company_passes :
  let pool :=
    Industry.add_company
      (Industry.add_company (Industry.__init__ None) (Some "Banks") None (Some 15))
      (Some "Banks") None (Some 25) in
  let m :=
    mkMetrics "TEST.OL" "Test" "oslo" None (Some "Banks") (Some 10) None
      (Some (Metrics.Fin 0.12))
      (Some [Metrics.Fin 0.12; Metrics.Fin 0.12; Metrics.Fin 0.12])
      None None (Some 0.5) (Some 1000000) (Some 0.06)
      None (Some 1000000) true true in
  fst (Filters.filter_pe_below_industry Render.format_fixed pool m)
    = mkResult true "PE 10.0 < industry avg 20.0" (Some (Metrics.Fin 10))
        (Some ((15 + 25) / 2))
  /\ reason (Filters.filter_roic_consistent Config.default_thresholds
               Render.format_fixed Render.str_int m)
     = "ROIC>10% for 3/3 years"
  /\ reason (Filters.filter_debt_to_equity Config.default_thresholds
               Render.format_fixed Render.str_float m)
     = "D/E 0.50 < 1.0"
  /\ reason (Filters.filter_cf_yield Config.default_thresholds Render.format_fixed m)
     = "CF yield 6.0% >= 5%".
Proof. repeat split; vm_compute; reflexivity. Qed.

(** ** The screening loop *)

Section ScreeningFacts.

Import Industry Filters Screener.

Variable thresholds : Config.ScreeningThresholds.
Variable fmt : nat -> Q -> string.
Variable str_float : Q -> string.
Variable str_int : Z -> string.

(** [StockFilters] has no attribute of the name that [_apply_filters]
    asks for first; the PE filter is defined as
    [filter_pe_below_industry]. *)
Lemma getattr_pe_below_max :
  getattr_filters thresholds fmt str_float str_int "filter_pe_below_max"
  = Raise (AttributeError "StockFilters" "filter_pe_below_max").
Proof. reflexivity. Qed.

Lemma getattr_pe_below_industry :
  getattr_filters thresholds fmt str_float str_int "filter_pe_below_industry"
  = Ok (OnMetrics (filter_pe_below_industry fmt)).
Proof. reflexivity. Qed.

Lemma apply_filters_attribute_error (industry_averages : IndustryAverages)
    (m : FinancialMetrics) (growth_data : gmap string Z) :
  _apply_filters thresholds fmt str_float str_int industry_averages m growth_data
  = Raise (AttributeError "StockFilters" "filter_pe_below_max").
Proof. reflexivity. Qed.

(** The exception leaves [_screen_companies], which has no handler. *)
Lemma screen_companies_aborts (industry_averages : IndustryAverages)
    (company : FinancialMetrics * gmap string Z)
    (data : list (FinancialMetrics * gmap string Z)) :
  _screen_companies thresholds fmt str_float str_int industry_averages (company :: data)
  = Raise (AttributeError "StockFilters" "filter_pe_below_max").
Proof.
  destruct company as [m growth_data].
  cbn [_screen_companies]. by rewrite apply_filters_attribute_error.
Qed.

(** C1 fails on the code: for every company, whatever its data,
    [_apply_filters] raises AttributeError at its first filter, and a
    batch with at least one company yields no result at all. *)
Theorem screening_raises_on_every_company (industry_averages : IndustryAverages)
    (m : FinancialMetrics) (growth_data : gmap string Z)
    (data : list (FinancialMetrics * gmap string Z)) :
  _apply_filters thresholds fmt str_float str_int industry_averages m growth_data
    = Raise (AttributeError "StockFilters" "filter_pe_below_max")
  /\ _screen_companies thresholds fmt str_float str_int industry_averages
       ((m, growth_data) :: data)
    = Raise (AttributeError "StockFilters" "filter_pe_below_max").
Proof.
  split; [apply apply_filters_attribute_error | apply screen_companies_aborts].
Qed.

End ScreeningFacts.

(** * Further properties *)

(** ** The TTM aggregator, continued *)

Section TTMMore.

Import TTM.

(** X1.  [get_ttm_fcf] returns the reported free cash flow when all four
    quarters report it, a sum of zero included; otherwise operating cash
    flow less the magnitude of capital expenditure, whatever the sign the
    capex is reported with; operating cash flow alone when capex is
    unknown; and [None] when operating cash flow is unknown too. *)
Theorem ttm_fcf_direct_or_components (self : TTMCalculator) :
  let direct := _sum_quarters (_quarterly_cashflow self) "Free Cash Flow" 4 in
  let ocf := get_ttm_operating_cashflow self in
  let capex := get_ttm_capex self in
  (forall d, direct = Some d -> get_ttm_fcf self = Some d)
  /\ (direct = None -> ocf = None -> get_ttm_fcf self = None)
  /\ (forall o, direct = None -> ocf = Some o -> capex = None ->
        get_ttm_fcf self = Some o)
  /\ (forall o c, direct = None -> ocf = Some o -> capex = Some c ->
        exists fcf, get_ttm_fcf self = Some fcf /\ fcf == o - Qabs c).
Proof.
  intros direct ocf capex. unfold get_ttm_fcf. fold direct ocf capex.
  repeat split.
  - by intros d ->.
  - by intros -> ->.
  - by intros o -> -> ->.
  - intros o c -> -> ->. destruct (Py.ltb c 0) eqn:Hc; eexists; (split; [reflexivity|]).
    + apply ltb_lt in Hc. rewrite Qabs_neg by lra. lra.
    + apply ltb_ge in Hc. rewrite Qabs_pos by lra. lra.
Qed.

Lemma ttm_fcf_direct_or_components_witness :
  exists fcf,
    get_ttm_fcf (mkTTM None (parse_frame (Some outflow_quarters)) None) = Some fcf
    /\ fcf == 400 - Qabs (-120).
Proof.
  apply (proj2 (proj2 (proj2 (ttm_fcf_direct_or_components
           (mkTTM None (parse_frame (Some outflow_quarters)) None)))) 400 (-120)).
  - vm_compute. reflexivity.
  - vm_compute. reflexivity.
  - vm_compute. reflexivity.
Defined.

Lemma latest_is_head (data : list (gmap string Q)) (field : string) :
  get_latest_balance_sheet_item (mkTTM None None (parse_frame (Some data))) field
  = head (omap (fun col : gmap string Q => col !! field) data).
Proof.
  unfold get_latest_balance_sheet_item. destruct data as [|col data]; [done|].
  cbn [parse_frame _quarterly_balance]. unfold df_empty.
  cbn [df_columns pd_DataFrame].
  destruct (bool_decide (field ∈ df_index (pd_DataFrame (col :: data)))) eqn:Hidx.
  - apply bool_decide_eq_true in Hidx.
    rewrite bool_decide_eq_false_2 by (intros Hemp; rewrite Hemp in Hidx; set_solver).
    cbn [negb]. unfold loc_dropna. cbn [df_columns pd_DataFrame].
    by destruct (omap _ (col :: data)).
  - apply bool_decide_eq_false in Hidx. rewrite observed_off_index by done.
    by destruct (bool_decide _).
Qed.

Lemma head_omap_Some {A B} (f : A -> option B) (l : list A) (v : B) :
  head (omap f l) = Some v <->
  exists i x, l !! i = Some x /\ f x = Some v
              /\ forall j y, (j < i)%nat -> l !! j = Some y -> f y = None.
Proof.
  induction l as [|x l IH]; cbn.
  - split; [done|]. by intros (i & y & Hi & _).
  - destruct (f x) as [w|] eqn:Hx; cbn.
    + split.
      * intros [= ->]. exists 0%nat, x. repeat split; [done|]. intros; lia.
      * intros ([|i] & y & Hi & Hy & Hbefore).
        -- cbn in Hi. injection Hi as <-. congruence.
        -- specialize (Hbefore 0%nat x). cbn in Hbefore.
           rewrite Hbefore in Hx; [done|lia|done].
    + rewrite IH. split.
      * intros (i & y & Hi & Hy & Hbefore). exists (S i), y. repeat split; [done..|].
        intros [|j] z Hj Hz; cbn in Hz; [by injection Hz as <-|].
        apply (Hbefore j); [lia|done].
      * intros ([|i] & y & Hi & Hy & Hbefore); cbn in Hi.
        -- injection Hi as <-. congruence.
        -- exists i, y. repeat split; [done..|].
           intros j z Hj Hz. apply (Hbefore (S j)); [lia|done].
Qed.

Lemma head_omap_None {A B} (f : A -> option B) (l : list A) :
  head (omap f l) = None <-> Forall (fun x => f x = None) l.
Proof.
  induction l as [|x l IH]; cbn; [by split|].
  destruct (f x) eqn:Hx; cbn.
  - split; [done|]. intros H. apply Forall_cons in H as [H _]. congruence.
  - rewrite IH. split; [by constructor|]. intros H. by apply Forall_cons in H as [_ H].
Qed.

(** X2.  [get_latest_balance_sheet_item] returns the value of the most
    recent quarter that reports the field, passing over the quarters that
    do not; it returns [None] exactly when no quarter reports it. *)
Theorem latest_balance_item_skips_gaps (data : list (gmap string Q)) (field : string) :
  let self := mkTTM None None (parse_frame (Some data)) in
  (forall v,
      get_latest_balance_sheet_item self field = Some v <->
      exists i col,
        data !! i = Some col /\ col !! field = Some v
        /\ forall j earlier, (j < i)%nat -> data !! j = Some earlier ->
                             earlier !! field = None)
  /\ (get_latest_balance_sheet_item self field = None <->
      Forall (fun col : gmap string Q => col !! field = None) data).
Proof.
  cbv zeta. rewrite latest_is_head. split.
  - intros v. apply head_omap_Some.
  - apply head_omap_None.
Qed.

(** X3.  The TTM sum reads the window only: quarters older than the [n]
    most recent ones do not change it. *)
Theorem sum_quarters_ignores_older (recent older : list (gmap string Q))
    (field : string) (n : nat) :
  (0 < n <= length recent)%nat ->
  _sum_quarters (parse_frame (Some (recent ++ older))) field n
  = _sum_quarters (parse_frame (Some recent)) field n.
Proof.
  intros Hn. rewrite !sum_quarters_frame by (rewrite ?length_app; lia).
  rewrite take_app_le by lia.
  destruct (bool_decide (field ∈ df_index (pd_DataFrame recent))) eqn:Hrecent.
  - apply bool_decide_eq_true in Hrecent. rewrite bool_decide_eq_true_2; [done|].
    apply elem_of_pd_index, Exists_app. left. by apply elem_of_pd_index.
  - apply bool_decide_eq_false in Hrecent.
    assert (Hnone : omap (fun col : gmap string Q => col !! field) (take n recent) = []).
    { apply observed_off_index. rewrite elem_of_pd_index. intros Hex.
      apply Hrecent, elem_of_pd_index.
      rewrite <- (take_drop n recent). apply Exists_app. by left. }
    cbv zeta. rewrite Hnone. cbn [length].
    replace (0 <? n)%nat with true by (symmetry; apply Nat.ltb_lt; lia).
    by destruct (bool_decide _).
Qed.

Lemma sum_quarters_ignores_older_witness :
  _sum_quarters (parse_frame (Some (outflow_quarters ++ [quarter "Free Cash Flow" 7])))
    "Operating Cash Flow" 4
  = _sum_quarters (parse_frame (Some outflow_quarters)) "Operating Cash Flow" 4.
Proof.
  apply (sum_quarters_ignores_older outflow_quarters [quarter "Free Cash Flow" 7]
           "Operating Cash Flow" 4).
  simpl. lia.
Defined.

End TTMMore.

(** ** The growth analyzer, continued *)

Section GrowthMore.

Import Growth.

Variable power : Q -> Q -> Q.

Lemma metric_series_observed (data : option (list (gmap string Q))) (field : string) :
  _get_metric_series (mkGrowth (parse_frame data)) field
  = match observed data field with
    | [] => None
    | series => Some series
    end.
Proof.
  unfold _get_metric_series, observed.
  destruct data as [[|col cols]|]; [done| |done].
  cbn [parse_frame _annual_financials].
  destruct (bool_decide (field ∈ df_index (pd_DataFrame (col :: cols)))) eqn:Hidx;
    cbn [negb].
  - reflexivity.
  - apply bool_decide_eq_false in Hidx. by rewrite observed_off_index.
Qed.

Lemma Qle_bool_gt (a b : Q) : b < a -> Qle_bool a b = false.
Proof.
  intros Hlt. apply not_true_iff_false. rewrite Qle_bool_iff. by apply Qlt_not_le.
Qed.

Lemma rev_is_reverse {A} (l : list A) : rev l = reverse l.
Proof. unfold reverse. apply rev_alt. Qed.

(** A streak of [years] steps orders the values at its two ends. *)
Lemma growth_loop_ends (values : list Q) (consecutive years : nat) :
  (1 <= years)%nat ->
  (consecutive + years <= growth_loop values consecutive)%nat ->
  exists end_value start_value,
    values !! 0%nat = Some end_value /\ values !! years = Some start_value
    /\ 0 < start_value /\ start_value < end_value.
Proof.
  revert consecutive years.
  induction values as [|current [|previous rest] IH]; intros consecutive years Hy Hk.
  - simpl in Hk. lia.
  - simpl in Hk. lia.
  - rewrite growth_loop_cons in Hk. destruct (grew current previous) eqn:Hg; [|lia].
    apply grew_growing in Hg. destruct Hg as [Hpos Hlt].
    destruct years as [|[|years]]; [lia| |].
    + exists current, previous. by repeat split.
    + destruct (IH (S consecutive) (S years)) as (e & s & He & Hs & Hs0 & Hse); [lia..|].
      cbn in He. injection He as <-.
      exists current, s. repeat split; [done|done|]. lra.
Qed.

(** A streak of [years] steps gives [calculate_cagr] both its end values. *)
Lemma streak_cagr (data : option (list (gmap string Q)))
    (field : string) (years : nat) :
  (1 <= years)%nat ->
  (years <= count_consecutive_growth_years (mkGrowth (parse_frame data)) field)%nat ->
  exists start_value end_value,
    rev (observed data field) !! years = Some start_value
    /\ rev (observed data field) !! 0%nat = Some end_value
    /\ 0 < start_value /\ start_value < end_value
    /\ calculate_cagr power (mkGrowth (parse_frame data)) field years
       = Returned (Some (power (end_value / start_value)
                               (1 / inject_Z (Z.of_nat years)) - 1)).
Proof.
  intros Hy Hk. rewrite count_is_growth_loop in Hk.
  destruct (growth_loop_ends (rev (observed data field)) 0 years Hy)
    as (e & s & He & Hs & Hs0 & Hse); [lia|].
  exists s, e. repeat split; [done..|].
  unfold calculate_cagr. rewrite metric_series_observed.
  rewrite rev_is_reverse in He, Hs.
  apply reverse_lookup_Some in He as [He _].
  apply reverse_lookup_Some in Hs as [Hs Hlen].
  destruct (observed data field) as [|x series] eqn:Hobs; [cbn in Hlen; lia|].
  rewrite <- Hobs in *. clear Hobs.
  replace (length (observed data field) <? years + 1)%nat with false
    by (symmetry; apply Nat.ltb_ge; lia).
  rewrite last_lookup.
  replace (Init.Nat.pred (length (observed data field)))
    with (length (observed data field) - 1)%nat by lia.
  replace (length (observed data field) - (years + 1))%nat
    with (length (observed data field) - S years)%nat by lia.
  rewrite He, Hs.
  rewrite (Qle_bool_gt s 0), (Qle_bool_gt e 0) by lra.
  cbn [orb]. by destruct years; [lia|].
Qed.

(** X4.  A growth streak of at least [years >= 1] steps makes the CAGR
    over [years] known: the start value is positive, the most recent value
    is larger, and [calculate_cagr] returns
    [(end / start) ** (1 / years) - 1]. *)
Theorem growth_streak_gives_cagr (data : option (list (gmap string Q)))
    (field : string) (years : nat) :
  (1 <= years)%nat ->
  (years <= count_consecutive_growth_years (mkGrowth (parse_frame data)) field)%nat ->
  exists start_value end_value,
    rev (observed data field) !! years = Some start_value
    /\ rev (observed data field) !! 0%nat = Some end_value
    /\ 0 < start_value /\ start_value < end_value
    /\ calculate_cagr power (mkGrowth (parse_frame data)) field years
       = Returned (Some (power (end_value / start_value)
                               (1 / inject_Z (Z.of_nat years)) - 1)).
Proof. apply streak_cagr. Qed.

(** X5.  For [years >= 1] [calculate_cagr] never raises, and it returns
    [None] exactly when fewer than [years + 1] values are observed or one
    of the two end values is not positive.  For [years = 0] it raises
    ZeroDivisionError exactly when the most recent observed value is
    positive. *)
Theorem calculate_cagr_unknown_or_raises (data : option (list (gmap string Q)))
    (field : string) (years : nat) :
  let series := observed data field in
  let self := mkGrowth (parse_frame data) in
  ((1 <= years)%nat ->
     calculate_cagr power self field years <> ZeroDivisionError
     /\ (calculate_cagr power self field years = Returned None <->
         (length series < years + 1)%nat
         \/ exists start_value end_value,
              series !! (length series - (years + 1))%nat = Some start_value
              /\ last series = Some end_value
              /\ (start_value <= 0 \/ end_value <= 0)))
  /\ (calculate_cagr power self field 0 = ZeroDivisionError <->
      exists end_value, last series = Some end_value /\ 0 < end_value).
Proof.
  intros series self. subst self. unfold calculate_cagr.
  rewrite metric_series_observed. fold series. split.
  - intros Hy. destruct series as [|x rest] eqn:Hs.
    { split; [done|]. split; [intros _; left; simpl; lia|done]. }
    rewrite <- Hs. assert (Hne : (0 < length series)%nat) by (rewrite Hs; simpl; lia).
    clear Hs x rest.
    destruct (length series <? years + 1)%nat eqn:Hlen.
    { apply Nat.ltb_lt in Hlen. split; [done|]. split; [by left|done]. }
    apply Nat.ltb_ge in Hlen.
    destruct (lookup_lt_is_Some_2 series (length series - (years + 1))) as [s Hstart];
      [lia|].
    destruct (lookup_lt_is_Some_2 series (Init.Nat.pred (length series))) as [e Hend];
      [lia|].
    rewrite last_lookup, Hend, Hstart.
    destruct (Qle_bool s 0 || Qle_bool e 0) eqn:Hguard.
    + split; [done|]. split; [|done]. intros _. right. exists s, e.
      repeat split; [done..|].
      apply orb_true_iff in Hguard. by rewrite <- !Qle_bool_iff.
    + destruct years as [|years]; [lia|]. split; [done|]. split; [done|].
      intros [Hshort|(s' & e' & Hs' & He' & Hle)]; [lia|].
      injection Hs' as <-. injection He' as <-.
      apply orb_false_iff in Hguard as [Hs0 He0].
      rewrite <- !Qle_bool_iff in Hle. destruct Hle; congruence.
  - destruct series as [|x rest] eqn:Hs.
    { split; [done|]. by intros (e & He & _). }
    rewrite <- Hs. assert (Hne : (0 < length series)%nat) by (rewrite Hs; simpl; lia).
    clear Hs x rest.
    replace (length series <? 0 + 1)%nat with false
      by (symmetry; apply Nat.ltb_ge; lia).
    rewrite last_lookup.
    replace (length series - (0 + 1))%nat with (Init.Nat.pred (length series)) by lia.
    destruct (lookup_lt_is_Some_2 series (Init.Nat.pred (length series))) as [e Hend];
      [lia|].
    rewrite Hend. rewrite orb_diag.
    destruct (Qle_bool e 0) eqn:He.
    + split; [done|]. intros (e' & [= <-] & Hpos).
      apply Qle_bool_iff in He. lra.
    + split; [|done]. intros _. exists e. split; [done|].
      apply Qnot_le_lt. rewrite <- Qle_bool_iff. congruence.
Qed.

Lemma cagr_returns (self : GrowthAnalyzer) (field : string) (years : nat) :
  (1 <= years)%nat -> exists r, calculate_cagr power self field years = Returned r.
Proof.
  intros Hy. unfold calculate_cagr.
  destruct (_get_metric_series self field) as [series|]; [|eauto].
  destruct (length series <? years + 1)%nat; [eauto|].
  destruct (last series) as [e|]; [|eauto].
  destruct (series !! _) as [s|]; [|eauto].
  destruct (Qle_bool s 0 || Qle_bool e 0); [eauto|].
  destruct years; [lia|eauto].
Qed.

(** X20.  For [min_years >= 1] [has_consistent_growth] returns its report
    without raising; the report carries the two streak counts, flags a
    metric as consistent exactly when its streak has at least [min_years]
    steps, and a metric that it flags as consistent always comes with a
    CAGR.  [both_consistent] is the conjunction of the two flags. *)
Theorem consistent_growth_has_cagr (data : option (list (gmap string Q)))
    (min_years : nat) :
  (1 <= min_years)%nat ->
  let self := mkGrowth (parse_frame data) in
  exists report,
    has_consistent_growth power self min_years = Returned report
    /\ revenue_growth_years report = count_consecutive_growth_years self "Total Revenue"
    /\ earnings_growth_years report = count_consecutive_growth_years self "Net Income"
    /\ (revenue_consistent report = true <->
        (min_years <= revenue_growth_years report)%nat)
    /\ (earnings_consistent report = true <->
        (min_years <= earnings_growth_years report)%nat)
    /\ (revenue_consistent report = true -> is_Some (revenue_cagr report))
    /\ (earnings_consistent report = true -> is_Some (earnings_cagr report))
    /\ both_consistent report
       = revenue_consistent report && earnings_consistent report.
Proof.
  intros Hy self. unfold has_consistent_growth, get_revenue_cagr, get_earnings_cagr.
  destruct (cagr_returns self "Total Revenue" min_years Hy) as [rc Hrc].
  destruct (cagr_returns self "Net Income" min_years Hy) as [ec Hec].
  rewrite Hrc, Hec. eexists. split; [reflexivity|].
  cbn [revenue_growth_years earnings_growth_years revenue_consistent
       earnings_consistent both_consistent revenue_cagr earnings_cagr].
  unfold get_revenue_growth_years, get_earnings_growth_years.
  repeat split; try (by apply Nat.leb_le).
  - intros Hflag. apply Nat.leb_le in Hflag.
    destruct (streak_cagr data "Total Revenue" min_years Hy Hflag)
      as (s & e & _ & _ & _ & _ & Hc).
    fold self in Hc. rewrite Hrc in Hc. injection Hc as ->. eauto.
  - intros Hflag. apply Nat.leb_le in Hflag.
    destruct (streak_cagr data "Net Income" min_years Hy Hflag)
      as (s & e & _ & _ & _ & _ & Hc).
    fold self in Hc. rewrite Hec in Hc. injection Hc as ->. eauto.
Qed.

End GrowthMore.

Lemma growth_streak_gives_cagr_witness :
  exists start_value end_value,
    rev (observed (Some five_years) "Net Income") !! 2%nat = Some start_value
    /\ rev (observed (Some five_years) "Net Income") !! 0%nat = Some end_value
    /\ 0 < start_value /\ start_value < end_value
    /\ Growth.calculate_cagr tangent_power (Growth.mkGrowth (parse_frame (Some five_years))) "Net Income" 2
       = Growth.Returned (Some (tangent_power (end_value / start_value)
                               (1 / inject_Z (Z.of_nat 2)) - 1)).
Proof.
  apply (growth_streak_gives_cagr tangent_power (Some five_years) "Net Income" 2).
  - lia.
  - vm_compute. lia.
Defined.

Lemma calculate_cagr_unknown_or_raises_witness :
  Growth.calculate_cagr tangent_power (Growth.mkGrowth (parse_frame (Some five_years))) "Net Income" 5
  = Growth.Returned None.
Proof.
  apply (proj1 (calculate_cagr_unknown_or_raises tangent_power (Some five_years) "Net Income" 5));
    [lia|].
  left. vm_compute. lia.
Defined.


Lemma consistent_growth_has_cagr_witness :
  exists report,
    Growth.has_consistent_growth tangent_power
      (Growth.mkGrowth (parse_frame (Some five_years))) 2
    = Growth.Returned report
    /\ Growth.earnings_consistent report = true
    /\ is_Some (Growth.earnings_cagr report).
Proof.
  destruct (consistent_growth_has_cagr tangent_power (Some five_years) 2 ltac:(lia))
    as (report & Hreport & _ & Hcount & _ & Hflag & _ & Hcagr & _).
  exists report. split; [exact Hreport|].
  assert (Hyes : Growth.earnings_consistent report = true).
  { apply Hflag. rewrite Hcount. vm_compute. lia. }
  split; [exact Hyes|by apply Hcagr].
Defined.

(** ** The annual ratios, continued *)

Section MetricsMore.

Import Metrics.

Lemma Qdiv_nonzero (a b : Q) : ~ a == 0 -> 0 < b -> ~ a / b == 0.
Proof.
  intros Ha Hb Hdiv. apply Ha.
  rewrite <- (Qmult_div_r a b) by lra. rewrite Hdiv. lra.
Qed.

Lemma Qdiv_pos (a b : Q) : 0 < b -> (0 < a / b <-> 0 < a).
Proof.
  intros Hb. split; intros Ha.
  - rewrite <- (Qmult_div_r a b) by lra. by apply Qmult_lt_0_compat.
  - apply Qlt_shift_div_l; [done|]. lra.
Qed.


Lemma roic_history_from_spec (self : MetricsCalculator) (years i : nat) :
  let history := roic_history_from self i years in
  (length history <= years)%nat
  /\ (forall j roic, history !! j = Some roic ->
        calculate_roic self (i + j) = Some roic)
  /\ ((length history < years)%nat ->
        calculate_roic self (i + length history) = None).
Proof.
  revert i. induction years as [|years IH]; intros i; cbn [roic_history_from].
  - cbn. repeat split; [lia|done|lia].
  - destruct (calculate_roic self i) as [roic|] eqn:Hroic.
    + destruct (IH (S i)) as (Hlen & Hall & Hstop). cbn [length]. repeat split.
      * lia.
      * intros [|j] r Hj; cbn in Hj.
        -- injection Hj as <-. by rewrite Nat.add_0_r.
        -- rewrite <- Nat.add_succ_comm. by apply Hall.
      * intros Hshort. rewrite <- Nat.add_succ_comm. apply Hstop. lia.
    + cbn. repeat split; [lia|done|]. intros _. by rewrite Nat.add_0_r.
Qed.

(** X6.  [calculate_roic_history] returns a prefix of the yearly ROICs: at
    most [years] entries, entry [i] is [calculate_roic(i)], and when it
    holds fewer than [years] entries the next year's ROIC is [None]; years
    after the first unknown one are not looked at. *)
Theorem roic_history_is_prefix (self : MetricsCalculator) (years : nat) :
  let history := calculate_roic_history self years in
  (length history <= years)%nat
  /\ (forall i roic, history !! i = Some roic -> calculate_roic self i = Some roic)
  /\ ((length history < years)%nat ->
        calculate_roic self (length history) = None).
Proof. apply (roic_history_from_spec self years 0). Qed.

Lemma isna_Fin (x : float) : isna (Some x) = false -> exists q, x = Fin q.
Proof. destruct x; [done|eauto]. Qed.

Lemma not_nan_or_zero (x : float) :
  exists q, (if isna (Some x) then Fin 0 else x) = Fin q.
Proof. destruct x; eauto. Qed.

(** X7.  [calculate_debt_to_equity] never returns NaN.  It returns a
    number exactly when the most recent balance sheet has an equity figure
    (['Total Equity'], or ['Stockholders Equity'] when that one is absent
    or zero) that is strictly positive; the number is the debt over that
    equity, where the debt is ['Total Debt'] when it is a number, else
    long-term plus current debt with absent parts as zero, and zero as a
    whole when one of the two parts is NaN. *)
Theorem debt_to_equity_cases (self : MetricsCalculator) (bal_df : DataFrame)
    (bal : Series) :
  _annual_balance self = Some bal_df ->
  df_empty bal_df = false ->
  iloc_col bal_df 0 = Some bal ->
  let equity := or_ (get bal "Total Equity") (get bal "Stockholders Equity") in
  let long_term := get bal "Long Term Debt" in
  let current := get bal "Current Debt" in
  calculate_debt_to_equity self <> Some NaN
  /\ (is_Some (calculate_debt_to_equity self) <->
      exists e, equity = Some (Fin e) /\ 0 < e)
  /\ (forall e d, equity = Some (Fin e) -> 0 < e ->
        get bal "Total Debt" = Some (Fin d) ->
        calculate_debt_to_equity self = Some (Fin (d / e)))
  /\ (forall e l c, equity = Some (Fin e) -> 0 < e ->
        isna (get bal "Total Debt") = true ->
        number_or_zero (or_ long_term (Some (Fin 0))) = Some l ->
        number_or_zero (or_ current (Some (Fin 0))) = Some c ->
        calculate_debt_to_equity self = Some (Fin ((l + c) / e)))
  /\ (forall e, equity = Some (Fin e) -> 0 < e ->
        isna (get bal "Total Debt") = true ->
        long_term = Some NaN \/ current = Some NaN ->
        calculate_debt_to_equity self = Some (Fin (0 / e))).
Proof.
  intros Hbal Hempty Hcol equity long_term current.
  unfold calculate_debt_to_equity. rewrite Hbal, Hempty, Hcol. cbv zeta.
  fold equity long_term current.
  set (debt := match get bal "Total Debt" with
               | Some (Fin d) => Fin d
               | _ => fadd (or0 long_term) (or0 current)
               end).
  assert (Hpos : forall e, 0 < e -> Qle_bool e 0 = false)
    by (intros e He; by apply Qle_bool_gt).
  repeat split.
  - destruct equity as [[|e]|]; [done| |done].
    destruct (Qle_bool e 0); [done|].
    by destruct (not_nan_or_zero debt) as [q ->].
  - intros [r Hr]. destruct equity as [[|e]|]; [done| |done].
    exists e. split; [done|]. destruct (Qle_bool e 0) eqn:He; [done|].
    apply Qnot_le_lt. rewrite <- Qle_bool_iff. congruence.
  - intros (e & -> & He). rewrite (Hpos e He). eauto.
  - intros e d -> He Htd. rewrite (Hpos e He). subst debt. by rewrite Htd.
  - intros e l c -> He Htd Hl Hc. rewrite (Hpos e He).
    assert (Hsum : debt = Fin (l + c)).
    { subst debt. destruct (get bal "Total Debt") as [[|d]|]; [|done|];
        (unfold or0; destruct (or_ long_term _) as [[|l']|];
         destruct (or_ current _) as [[|c']|]; cbn in Hl, Hc |- *; try done; congruence). }
    by rewrite Hsum.
  - intros e -> He Htd Hnan. rewrite (Hpos e He).
    assert (Hsum : debt = NaN).
    { subst debt. destruct (get bal "Total Debt") as [[|d]|]; [|done|];
        (destruct Hnan as [-> | ->]; [done|]; unfold fadd, lift2;
         by destruct (or0 long_term)). }
    by rewrite Hsum.
Qed.

Lemma debt_to_equity_cases_witness :
  calculate_debt_to_equity (one_year taxed_income split_debt_balance)
  = Some (Fin ((100 + 50) / 100)).
Proof.
  refine (proj1 (proj2 (proj2 (proj2
            (debt_to_equity_cases (one_year taxed_income split_debt_balance)
               (pd_DataFrame [split_debt_balance]) (only_period split_debt_balance)
               _ _ _)))) 100 100 50 _ _ _ _ _);
    vm_compute; reflexivity.
Defined.

(** X8.  When the balance frame has a ['Long Term Debt'] row that is empty
    for the year, and no ['Total Debt'] number for it, [calculate_roic]
    returns NaN and not [None] (for a known EBIT and equity); the NaN is a
    value for [calculate_roic_history], which keeps it. *)
Theorem roic_nan_on_missing_debt_cell (self : MetricsCalculator) (year_offset : nat)
    (fin_df bal_df : DataFrame) (fin bal : Series) (ebit total_equity : Q) :
  _annual_financials self = Some fin_df -> _annual_balance self = Some bal_df ->
  iloc_col fin_df year_offset = Some fin -> iloc_col bal_df year_offset = Some bal ->
  ebit_of fin = Some (Fin ebit) ->
  total_equity_of bal = Some (Fin total_equity) ->
  isna (get bal "Total Debt") = true ->
  get bal "Long Term Debt" = Some NaN ->
  calculate_roic self year_offset = Some NaN
  /\ (year_offset = 0%nat -> forall years,
        head (calculate_roic_history self (S years)) = Some NaN).
Proof.
  intros Hf Hb Hfin Hbal Hebit Hequity Htd Hltd.
  assert (Hroic : calculate_roic self year_offset = Some NaN).
  { unfold calculate_roic. rewrite Hf, Hb.
    assert (Hcols : (df_ncols fin_df <=? year_offset)%nat = false).
    { apply Nat.leb_gt. unfold iloc_col in Hfin.
      destruct (df_columns fin_df !! year_offset) eqn:Hc; [|done].
      by apply lookup_lt_Some in Hc. }
    rewrite Hcols, Hfin, Hbal, Hebit, Hequity.
    assert (Hdebt : roic_total_debt bal = NaN).
    { unfold roic_total_debt. rewrite Hltd.
      by destruct (get bal "Total Debt") as [[|d]|]. }
    unfold invested_capital_of. rewrite Hdebt.
    change (or0 (Some NaN)) with NaN. cbn [fadd fsub lift2 fleb].
    unfold fdiv, lift2. by destruct (fmul _ _). }
  split; [exact Hroic|]. intros -> years.
  unfold calculate_roic_history. cbn [roic_history_from]. by rewrite Hroic.
Qed.

Lemma roic_nan_on_missing_debt_cell_witness :
  calculate_roic patchy_calc 0 = Some NaN.
Proof.
  refine (proj1 (roic_nan_on_missing_debt_cell patchy_calc 0
                   (pd_DataFrame two_years_income) (pd_DataFrame patchy_balance)
                   (mkSeries (df_index (pd_DataFrame two_years_income)) {[ "EBIT" := 40 ]})
                   (mkSeries (df_index (pd_DataFrame patchy_balance))
                      {[ "Total Equity" := 100 ]})
                   40 100 _ _ _ _ _ _ _ _));
    vm_compute; reflexivity.
Defined.

Lemma tax_rate_range (fin : Series) (rate : Q) :
  tax_rate_of fin = Fin rate -> 0 <= rate /\ rate <= 0.5.
Proof.
  unfold tax_rate_of.
  destruct (get fin "Pretax Income") as [p|]; [|intros [= <-]; lra].
  destruct (or_ _ _) as [t|]; [|intros [= <-]; lra].
  destruct (ftruthy p && ftruthy t && fltb (Fin 0) p); [|intros [= <-]; lra].
  destruct (fdiv (fabs t) p) as [|x]; [done|].
  rewrite fmax_Fin, fmin_Fin. intros [= <-].
  rewrite py_min_Qmin, py_max_Qmax.
  destruct (Q.max_spec x 0) as [[? H1]|[? H1]];
    destruct (Q.min_spec (Qmax x 0) 0.5) as [[? H2]|[? H2]]; rewrite H2, ?H1; lra.
Qed.

Lemma fleb_false_pos (c : Q) : fleb (Fin c) (Fin 0) = false -> 0 < c.
Proof.
  cbn. intros Hle. apply Qnot_le_lt. rewrite <- Qle_bool_iff. congruence.
Qed.

(** X21.  A ROIC is computed only for a year that both annual statements
    cover: [calculate_roic] returns [None] for a year offset beyond the
    income statement or beyond the balance sheet, so the ROIC history is
    never longer than the shorter of the two. *)
Theorem roic_needs_both_statements (self : MetricsCalculator)
    (fin_df bal_df : DataFrame) :
  _annual_financials self = Some fin_df -> _annual_balance self = Some bal_df ->
  (forall year_offset,
      (df_ncols fin_df <= year_offset \/ df_ncols bal_df <= year_offset)%nat ->
      calculate_roic self year_offset = None)
  /\ (forall years,
      (length (calculate_roic_history self years)
       <= df_ncols fin_df `min` df_ncols bal_df)%nat).
Proof.
  intros Hf Hb.
  assert (Hout : forall year_offset,
      (df_ncols fin_df <= year_offset \/ df_ncols bal_df <= year_offset)%nat ->
      calculate_roic self year_offset = None).
  { intros i Hi. unfold calculate_roic. rewrite Hf, Hb.
    destruct (df_ncols fin_df <=? i)%nat eqn:Hfin; [done|].
    apply Nat.leb_gt in Hfin. destruct Hi as [Hi|Hi]; [lia|].
    unfold iloc_col. rewrite (lookup_ge_None_2 (df_columns bal_df) i) by exact Hi.
    by destruct (df_columns fin_df !! i). }
  split; [exact Hout|]. intros years.
  destruct (roic_history_from_spec self years 0) as (_ & Hall & _).
  fold (calculate_roic_history self years) in Hall.
  destruct (decide (length (calculate_roic_history self years)
                    <= df_ncols fin_df `min` df_ncols bal_df)%nat) as [|Hlong]; [done|].
  destruct (lookup_lt_is_Some_2 (calculate_roic_history self years)
              (df_ncols fin_df `min` df_ncols bal_df)) as [r Hr]; [lia|].
  apply Hall in Hr. cbn in Hr. rewrite Hout in Hr by lia. done.
Qed.

Lemma roic_needs_both_statements_witness :
  calculate_roic patchy_calc 2 = None.
Proof.
  apply (proj1 (roic_needs_both_statements patchy_calc
                  (pd_DataFrame two_years_income) (pd_DataFrame patchy_balance)
                  eq_refl eq_refl) 2%nat).
  left. vm_compute. lia.
Defined.

(** X22.  A ROIC that is a number has the sign of the year's EBIT: the
    invested capital it divides by is strictly positive and the tax rate
    it applies is at most a half. *)
Theorem roic_has_sign_of_ebit (self : MetricsCalculator) (year_offset : nat)
    (roic : Q) :
  calculate_roic self year_offset = Some (Fin roic) ->
  exists fin_df fin ebit,
    _annual_financials self = Some fin_df
    /\ iloc_col fin_df year_offset = Some fin
    /\ ebit_of fin = Some (Fin ebit)
    /\ (0 < roic <-> 0 < ebit) /\ (roic < 0 <-> ebit < 0).
Proof.
  intros Hroic. apply calculate_roic_formula in Hroic
    as (fin_df & bal_df & fin & bal & ebit & eq & Hf & _ & Hfin & _ & Hebit & _ & Hic & Hr).
  exists fin_df, fin, ebit. repeat split; try done.
  all: destruct (tax_rate_of fin) as [|rate] eqn:Hrate; [done|];
    destruct (invested_capital_of bal (Fin eq)) as [|capital]; [done|];
    apply tax_rate_range in Hrate; apply fleb_false_pos in Hic;
    cbn in Hr; injection Hr as ->.
  - intros Hpos. apply Qdiv_pos in Hpos; [|done]. nra.
  - intros Hpos. apply Qdiv_pos; [done|]. nra.
  - intros Hneg.
    assert (Heq : (- ebit) * (1 - rate) / capital == - (ebit * (1 - rate) / capital))
      by (field; lra).
    assert (H : 0 < (- ebit) * (1 - rate) / capital) by (rewrite Heq; lra).
    apply Qdiv_pos in H; [|done]. nra.
  - intros Hneg.
    assert (Heq : (- ebit) * (1 - rate) / capital == - (ebit * (1 - rate) / capital))
      by (field; lra).
    assert (H : 0 < (- ebit) * (1 - rate) / capital) by (apply Qdiv_pos; [done|nra]).
    rewrite Heq in H. lra.
Qed.

Lemma roic_has_sign_of_ebit_witness :
  exists fin_df fin ebit,
    _annual_financials (one_year taxed_income split_debt_balance) = Some fin_df
    /\ iloc_col fin_df 0 = Some fin
    /\ ebit_of fin = Some (Fin ebit)
    /\ (0 < 3200 # 20000 <-> 0 < ebit) /\ (3200 # 20000 < 0 <-> ebit < 0).
Proof.
  apply (roic_has_sign_of_ebit (one_year taxed_income split_debt_balance) 0
           (3200 # 20000)).
  vm_compute. reflexivity.
Defined.

End MetricsMore.

(** ** Valuation and cash-flow yield *)

Section ValuationFacts.

Import Metrics.

Lemma truthy_nonzero (q : Q) : Py.truthy (Some q) = true <-> ~ q == 0.
Proof.
  cbn. rewrite negb_true_iff, <- not_true_iff_false. by rewrite Qeq_bool_iff.
Qed.

(** X9.  [calculate_pe_ratio] returns a reported trailing PE that is
    positive as it is.  Without one it returns market cap over TTM net
    income when the market cap is known and not zero and the net income is
    strictly positive, and [None] in every other case.  A PE that it
    returns is never zero, and it is positive unless the market cap is
    negative. *)
Theorem pe_ratio_sources (self : MetricsCalculator) (info : Info) :
  let earnings := TTM.get_ttm_net_income (ttm self) in
  let no_trailing_pe := forall pe, trailingPE info = Some pe -> pe <= 0 in
  let computable :=
    exists cap e, marketCap info = Some cap /\ earnings = Some e
                  /\ ~ cap == 0 /\ 0 < e in
  (forall pe, trailingPE info = Some pe -> 0 < pe ->
      calculate_pe_ratio self info = Some pe)
  /\ (forall cap e, no_trailing_pe ->
        marketCap info = Some cap -> earnings = Some e -> ~ cap == 0 -> 0 < e ->
        calculate_pe_ratio self info = Some (cap / e))
  /\ (calculate_pe_ratio self info = None <-> no_trailing_pe /\ ~ computable)
  /\ (forall pe, calculate_pe_ratio self info = Some pe ->
        ~ pe == 0
        /\ ((forall cap, marketCap info = Some cap -> 0 <= cap) -> 0 < pe)).
Proof.
  intros earnings no_trailing_pe computable.
  assert (Hdec : computable \/ ~ computable).
  { subst computable. destruct (marketCap info) as [cap|]; [|right; by intros (? & ? & ? & _)].
    destruct earnings as [e|]; [|right; by intros (? & ? & _ & ? & _)].
    destruct (Qeq_dec cap 0) as [Hz|Hnz].
    { right. intros (? & ? & [= <-] & _ & Hnz & _). by apply Hnz. }
    destruct (Qlt_le_dec 0 e) as [Hpos|Hneg]; [left; by exists cap, e|].
    right. intros (? & ? & _ & [= <-] & _ & Hpos). lra. }
  assert (Hdirect : forall pe, trailingPE info = Some pe -> 0 < pe ->
            calculate_pe_ratio self info = Some pe).
  { intros pe Ht Hpos. unfold calculate_pe_ratio. cbv zeta. rewrite Ht.
    cbn [from_option]. rewrite (proj2 (truthy_nonzero pe)) by lra.
    by rewrite (proj2 (ltb_lt 0 pe)). }
  assert (Hfallback : no_trailing_pe ->
            calculate_pe_ratio self info =
              match marketCap info, earnings with
              | Some cap, Some e =>
                  if Py.truthy (Some cap) && Py.truthy (Some e) && Py.ltb 0 e
                  then Some (cap / e) else None
              | _, _ => None
              end).
  { intros Hno. unfold calculate_pe_ratio. cbv zeta. fold earnings.
    assert (Hguard : Py.truthy (trailingPE info)
                     && from_option (Py.ltb 0) false (trailingPE info) = false).
    { destruct (trailingPE info) as [t|]; [|reflexivity].
      cbn [from_option]. by rewrite (proj2 (ltb_ge 0 t) (Hno t eq_refl)), andb_false_r. }
    rewrite Hguard. by destruct (marketCap info), earnings. }
  assert (Hcomputed : forall cap e, no_trailing_pe ->
            marketCap info = Some cap -> earnings = Some e -> ~ cap == 0 -> 0 < e ->
            calculate_pe_ratio self info = Some (cap / e)).
  { intros cap e Hno Hcap He Hnz Hpos. rewrite (Hfallback Hno), Hcap, He.
    rewrite (proj2 (truthy_nonzero cap) Hnz), (proj2 (truthy_nonzero e)) by lra.
    by rewrite (proj2 (ltb_lt 0 e)). }
  assert (Hcases : (exists pe, trailingPE info = Some pe /\ 0 < pe) \/ no_trailing_pe).
  { destruct (trailingPE info) as [t|]; [|right; by intros ? [=]].
    destruct (Qlt_le_dec 0 t) as [Hpos|Hneg]; [left; eauto|].
    right. by intros ? [= <-]. }
  assert (Hnone : calculate_pe_ratio self info = None <-> no_trailing_pe /\ ~ computable).
  { split.
    - intros Hres. destruct Hcases as [(pe & Ht & Hpos)|Hno].
      + rewrite (Hdirect pe Ht Hpos) in Hres. done.
      + split; [exact Hno|]. intros (cap & e & Hcap & He & Hnz & Hpos).
        rewrite (Hcomputed cap e Hno Hcap He Hnz Hpos) in Hres. done.
    - intros [Hno Hnot]. rewrite (Hfallback Hno).
      destruct (marketCap info) as [cap|] eqn:Hcap; [|done].
      destruct earnings as [e|] eqn:He; [|done].
      destruct (Py.truthy (Some cap) && Py.truthy (Some e) && Py.ltb 0 e) eqn:Hg;
        [|done].
      exfalso. apply Hnot. exists cap, e.
      apply andb_true_iff in Hg as [Hg Hpos]. apply andb_true_iff in Hg as [Hnz _].
      repeat split; [by apply truthy_nonzero|by apply ltb_lt]. }
  split; [exact Hdirect|]. split; [exact Hcomputed|]. split; [exact Hnone|].
  intros pe Hpe. destruct Hcases as [(t & Ht & Hpos)|Hno].
  - rewrite (Hdirect t Ht Hpos) in Hpe. injection Hpe as <-. split; [lra|done].
  - destruct Hdec as [(cap & e & Hcap & He & Hnz & Hpos)|Hnot].
    + rewrite (Hcomputed cap e Hno Hcap He Hnz Hpos) in Hpe. injection Hpe as <-.
      split; [by apply Qdiv_nonzero|]. intros Hnonneg.
      apply Qdiv_pos; [done|]. specialize (Hnonneg cap Hcap). lra.
    + rewrite (proj2 Hnone (conj Hno Hnot)) in Hpe. done.
Qed.

Lemma pe_ratio_sources_witness :
  calculate_pe_ratio (quarterly_calc profitable_quarters outflow_quarters)
    (mkInfo (Some 0) (Some 3000))
  = Some (3000 / 100).
Proof.
  apply (proj1 (proj2 (pe_ratio_sources
                         (quarterly_calc profitable_quarters outflow_quarters)
                         (mkInfo (Some 0) (Some 3000))))).
  - intros pe [= <-]. vm_compute. discriminate.
  - reflexivity.
  - vm_compute. reflexivity.
  - vm_compute. discriminate.
  - reflexivity.
Defined.



End ValuationFacts.

(** ** The peer averages, continued *)

Section IndustryMore.

Import Industry.

(** *** The median lies within its pool *)

Lemma median_within (pes : list Q) (m : Q) :
  median pes = Some m ->
  exists lo hi, lo ∈ pes /\ hi ∈ pes /\ lo <= m /\ m <= hi.
Proof.
  unfold median. cbv zeta.
  assert (Hin : forall i x, sorted pes !! i = Some x -> x ∈ pes).
  { intros i x Hx. rewrite <- (sorted_perm pes). by eapply list_elem_of_lookup_2. }
  destruct (length (sorted pes) mod 2 =? 0)%nat.
  - destruct (sorted pes !! (length (sorted pes) / 2 - 1)%nat) as [a|] eqn:Ha; [|done].
    destruct (sorted pes !! (length (sorted pes) / 2)%nat) as [b|] eqn:Hb; [|done].
    cbn [mbind option_bind]. intros [= <-].
    apply Hin in Ha, Hb. destruct (Qlt_le_dec a b) as [Hab|Hba].
    + exists a, b. repeat split; [done..| |];
        [apply Qle_shift_div_l | apply Qle_shift_div_r]; lra.
    + exists b, a. repeat split; [done..| |];
        [apply Qle_shift_div_l | apply Qle_shift_div_r]; lra.
  - intros Hm. apply Hin in Hm. exists m, m. repeat split; [done..| |]; lra.
Qed.

Lemma pooled_accepted (label : string) (entries : list (option string * option Q)) :
  Forall (fun p => 0 < p /\ p <= 200) (pooled label entries).
Proof.
  induction entries as [|[l [p|]] entries IH]; [constructor| |exact IH].
  rewrite pooled_cons. apply Forall_app. split; [|exact IH].
  unfold pooled. cbn. destruct (bool_decide _) eqn:Hd; [|constructor].
  apply bool_decide_eq_true in Hd as [_ Hacc]. constructor; [|constructor].
  cbn in Hacc. split.
  - apply Qnot_le_lt. tauto.
  - apply Qnot_lt_le. tauto.
Qed.

(** What a read serves after a run on a new object. *)
Lemma read_after (cache : option (gmap string Q * gmap string Q))
    (ops : list operation) (label : string) :
  label <> EmptyString ->
  fst (get_industry_average (after (__init__ cache) ops) (Some label))
    = median (pooled label (industry_entries (calls_of ops)))
  /\ fst (get_sector_average (after (__init__ cache) ops) (Some label))
    = median (pooled label (sector_entries (calls_of ops))).
Proof.
  intros Hne. pose proof (new_object_consistent cache) as Hnew.
  destruct (read_serves_median (after (__init__ cache) ops) label) as [-> ->];
    [by apply after_consistent|done|].
  by destruct (buckets_after (__init__ cache) ops label Hnew Hne) as [-> ->].
Qed.

(** X11.  Whatever was added to a new object, an average that it serves
    for an industry or a sector lies between two PEs pooled under that
    label, and so in the range [(0, 200]] that [add_company] lets in. *)
Theorem served_average_within_pool (cache : option (gmap string Q * gmap string Q))
    (ops : list operation) (label : string) :
  label <> EmptyString ->
  let self := after (__init__ cache) ops in
  (forall avg, fst (get_industry_average self (Some label)) = Some avg ->
     (exists lo hi, lo ∈ pooled label (industry_entries (calls_of ops))
                    /\ hi ∈ pooled label (industry_entries (calls_of ops))
                    /\ lo <= avg /\ avg <= hi)
     /\ 0 < avg /\ avg <= 200)
  /\ (forall avg, fst (get_sector_average self (Some label)) = Some avg ->
     (exists lo hi, lo ∈ pooled label (sector_entries (calls_of ops))
                    /\ hi ∈ pooled label (sector_entries (calls_of ops))
                    /\ lo <= avg /\ avg <= hi)
     /\ 0 < avg /\ avg <= 200).
Proof.
  intros Hne self. subst self. destruct (read_after cache ops label Hne) as [-> ->].
  assert (Hgen : forall entries avg,
             median (pooled label entries) = Some avg ->
             (exists lo hi, lo ∈ pooled label entries /\ hi ∈ pooled label entries
                            /\ lo <= avg /\ avg <= hi)
             /\ 0 < avg /\ avg <= 200).
  { intros entries avg Hm.
    destruct (median_within _ _ Hm) as (lo & hi & Hlo & Hhi & Hle1 & Hle2).
    pose proof (pooled_accepted label entries) as Hacc.
    rewrite Forall_forall in Hacc.
    destruct (Hacc lo Hlo) as [? _]. destruct (Hacc hi Hhi) as [_ ?].
    split; [by exists lo, hi|]. split; lra. }
  split; intros avg; apply Hgen.
Qed.

Lemma served_average_within_pool_witness :
  (exists lo hi, lo ∈ pooled "Banks" (industry_entries (calls_of bank_run))
                 /\ hi ∈ pooled "Banks" (industry_entries (calls_of bank_run))
                 /\ lo <= 12 /\ 12 <= hi)
  /\ 0 < 12 /\ 12 <= 200.
Proof.
  apply (proj1 (served_average_within_pool None bank_run "Banks" ltac:(discriminate)) 12).
  vm_compute. reflexivity.
Defined.

(** X12.  [get_peer_average] serves the median of the industry when a PE
    is pooled under it, else the median of the sector, else [None]; the
    sector is not consulted while the industry has a pool. *)
Theorem peer_average_prefers_industry (cache : option (gmap string Q * gmap string Q))
    (ops : list operation) (industry sector : string) :
  industry <> EmptyString -> sector <> EmptyString ->
  let self := after (__init__ cache) ops in
  let industry_pool := pooled industry (industry_entries (calls_of ops)) in
  let sector_pool := pooled sector (sector_entries (calls_of ops)) in
  (industry_pool <> [] ->
     fst (get_peer_average self (Some industry) (Some sector)) = median industry_pool
     /\ is_Some (median industry_pool))
  /\ (industry_pool = [] ->
     fst (get_peer_average self (Some industry) (Some sector)) = median sector_pool)
  /\ (industry_pool = [] ->
     fst (get_peer_average self (Some industry) None) = None
     /\ fst (get_peer_average self None (Some sector)) = median sector_pool).
Proof.
  intros Hi Hs self industry_pool sector_pool.
  destruct (read_after cache ops industry Hi) as [Hind _].
  destruct (read_after cache ops sector Hs) as [_ Hsec].
  rewrite get_industry_average_eq in Hind. rewrite get_sector_average_eq in Hsec.
  cbn [fst] in Hind, Hsec. fold self industry_pool in Hind. fold self sector_pool in Hsec.
  rewrite !get_peer_average_eq. cbn [fst]. rewrite Hind, Hsec.
  split; [|split].
  - intros Hne. destruct (median_total industry_pool Hne) as [m Hm].
    rewrite Hm. eauto.
  - by intros ->.
  - by intros ->.
Qed.

Lemma peer_average_prefers_industry_witness :
  fst (get_peer_average (after (__init__ None) bank_run)
         (Some "Banks") (Some "Financial Services"))
  = median (pooled "Banks" (industry_entries (calls_of bank_run))).
Proof.
  apply (proj1 (peer_average_prefers_industry None bank_run "Banks" "Financial Services"
                  ltac:(discriminate) ltac:(discriminate))).
  vm_compute. discriminate.
Defined.

(** *** The cache *)

Lemma pools_after (self : IndustryAverages) (ops : list operation) (label : string) :
  label <> EmptyString ->
  bucket (_pe_by_industry (after self ops)) label
    = bucket (_pe_by_industry self) label
      ++ pooled label (industry_entries (calls_of ops))
  /\ bucket (_pe_by_sector (after self ops)) label
    = bucket (_pe_by_sector self) label
      ++ pooled label (sector_entries (calls_of ops)).
Proof.
  intros Hne. revert self.
  induction ops as [|[[industry sector pe]|industry sector] ops IH]; intros self.
  - simpl. by rewrite !app_nil_r.
  - cbn [after fold_left perform call_industry call_sector call_pe].
    fold (after (add_company self industry sector pe) ops).
    destruct (IH (add_company self industry sector pe)) as [-> ->].
    unfold industry_entries, sector_entries. cbn [calls_of omap list_omap].
    fold (calls_of ops). rewrite !fmap_cons.
    cbn [call_industry call_sector call_pe].
    rewrite (pooled_cons label (industry, pe)), (pooled_cons label (sector, pe)), !app_assoc.
    destruct (decide (rejected pe)) as [Hrej|Hacc].
    + rewrite add_company_rejected by done.
      assert (Hnil : forall l, pooled label [(l, pe)] = []).
      { intros l. unfold pooled. cbn. destruct pe as [p|]; [|done].
        rewrite bool_decide_eq_false_2; [done|tauto]. }
      by rewrite !Hnil, !app_nil_r.
    + destruct pe as [p|]; [|by destruct Hacc].
      unfold add_company.
      destruct (Qle_bool p 0 || Py.ltb 200 p) eqn:Hguard;
        [by apply guard_rejects in Hguard|].
      cbn [_pe_by_industry _pe_by_sector].
      by rewrite !bucket_after_call.
  - cbn [after fold_left perform]. rewrite get_peer_average_eq. cbn [snd].
    fold (after (ensure_calculated self) ops).
    destruct (IH (ensure_calculated self)) as [-> ->].
    cbn [calls_of omap list_omap]. fold (calls_of ops).
    unfold ensure_calculated. by destruct (_averages_calculated self).
Qed.

Lemma add_company_loaded (cached : gmap string Q * gmap string Q)
    (self : IndustryAverages) (industry sector : option string) (pe : option Q) :
  loaded cached self -> loaded cached (add_company self industry sector pe).
Proof.
  intros Hl. unfold add_company. destruct pe as [p|]; [|done].
  destruct (Qle_bool p 0 || Py.ltb 200 p); [done|].
  destruct Hl as [Ht Hf]. split; cbn; [done|]. intros _.
  destruct (_averages_calculated self); [by destruct Ht as (? & ? & _)|by apply Hf].
Qed.

Lemma add_companies_loaded (cached : gmap string Q * gmap string Q)
    (self : IndustryAverages) (calls : list call) :
  loaded cached self -> loaded cached (after self (AddCompany <$> calls)).
Proof.
  revert self. induction calls as [|c calls IH]; intros self Hl; [done|].
  cbn. apply IH. by apply add_company_loaded.
Qed.

Lemma calls_of_adds (calls : list call) : calls_of (AddCompany <$> calls) = calls.
Proof.
  unfold calls_of. induction calls as [|c calls IH]; [done|]. cbn. by f_equal.
Qed.

(** X13.  [load_from_cache] returns [False] and changes nothing when the
    cache is empty.  Otherwise a new object serves what the cache holds:
    the averages that an earlier object served after its last read, for
    every industry and sector.  Companies added afterwards replace the
    cached average of a label by the median of the PEs now pooled under
    it, and leave the cached averages of the other labels in place. *)
Theorem load_from_cache_round_trip :
  (forall self, cache_industry_averages self = None ->
     load_from_cache self = (false, self))
  /\ (forall earlier industry sector,
     let written := snd (get_peer_average earlier industry sector) in
     _averages_calculated earlier = false ->
     exists loaded_object,
       load_from_cache (__init__ (cache_industry_averages written))
       = (true, loaded_object)
       /\ forall i s, fst (get_peer_average loaded_object i s)
                     = fst (get_peer_average written i s))
  /\ (forall cached calls label,
     label <> EmptyString ->
     let self :=
       after (snd (load_from_cache (__init__ (Some cached)))) (AddCompany <$> calls) in
     fst (get_industry_average self (Some label))
     = match median (pooled label (industry_entries calls)) with
       | Some m => Some m
       | None => cached.1 !! label
       end).
Proof.
  split; [|split].
  - intros self Hnone. unfold load_from_cache. by rewrite Hnone.
  - intros earlier industry sector written Hdirty. subst written.
    rewrite get_peer_average_eq. cbn [snd]. unfold ensure_calculated at 1.
    rewrite Hdirty. cbn [_calculate_averages cache_industry_averages load_from_cache __init__].
    eexists. split; [reflexivity|]. intros i s.
    rewrite !get_peer_average_eq. cbn [fst]. unfold ensure_calculated.
    cbn [_averages_calculated _industry_avg _sector_avg]. by rewrite Hdirty.
  - intros [ind sec] calls label Hne self.
    assert (Hl : loaded (ind, sec) self).
    { apply add_companies_loaded. split; cbn; [done|done]. }
    destruct (pools_after (snd (load_from_cache (__init__ (Some (ind, sec)))))
                (AddCompany <$> calls) label Hne) as [Hpool _].
    fold self in Hpool. rewrite calls_of_adds in Hpool.
    cbn in Hpool. change (bucket ∅ label) with (@nil Q) in Hpool. cbn [app] in Hpool.
    rewrite get_industry_average_eq. cbn [fst]. unfold served.
    rewrite (proj2 (truthy_str_label (Some label) label Hne) eq_refl).
    unfold ensure_calculated. destruct Hl as [Ht Hf].
    destruct (_averages_calculated self) eqn:Hflag.
    + destruct (Ht eq_refl) as (-> & _ & Hempty & _).
      rewrite Hempty in Hpool. change (bucket ∅ label) with (@nil Q) in Hpool.
      by rewrite <- Hpool.
    + destruct (Hf eq_refl) as (Hind & _). cbn [_calculate_averages _industry_avg].
      by rewrite calculated_lookup, Hpool, Hind.
Qed.

Lemma load_from_cache_round_trip_witness :
  fst (get_industry_average
         (after (snd (load_from_cache (__init__ (Some earlier_averages))))
            (AddCompany <$> [mkCall (Some "Banks") None (Some 14)]))
         (Some "Shipping"))
  = match median (pooled "Shipping"
                    (industry_entries [mkCall (Some "Banks") None (Some 14)])) with
    | Some m => Some m
    | None => earlier_averages.1 !! "Shipping"
    end.
Proof.
  apply (proj2 (proj2 load_from_cache_round_trip) earlier_averages
           [mkCall (Some "Banks") None (Some 14)] "Shipping").
  discriminate.
Defined.

(** The stale average of the witness: 7 for shipping, beside the fresh 14
    for banks. *)
Example cached_and_fresh_averages :
  let self :=
    after (snd (load_from_cache (__init__ (Some earlier_averages))))
      (AddCompany <$> [mkCall (Some "Banks") None (Some 14)]) in
  fst (get_industry_average self (Some "Shipping")) = Some 7
  /\ fst (get_industry_average self (Some "Banks")) = Some 14.
Proof. split; vm_compute; reflexivity. Qed.

End IndustryMore.

(** ** The filters, continued *)

Section FiltersMore.

Import Industry Filters Screener.

Variable thresholds : Config.ScreeningThresholds.
Variable fmt : nat -> Q -> string.
Variable str_float : Q -> string.
Variable str_int : Z -> string.


Lemma filter_pe_result (self : IndustryAverages) (m : FinancialMetrics) (pe : Q) :
  pe_ratio m = Some pe ->
  let peer_avg :=
    default 20.0 (fst (get_peer_average self (industry m) (sector m))) in
  let result := fst (filter_pe_below_industry fmt self m) in
  passed result = Py.ltb pe peer_avg
  /\ value result = Some (Metrics.Fin pe) /\ threshold result = Some peer_avg.
Proof.
  intros Hpe. unfold filter_pe_below_industry. rewrite Hpe.
  by destruct (get_peer_average self (industry m) (sector m)) as [avg self'].
Qed.


(** X15.  Where [is_below_average] gives a verdict, the PE filter passes
    exactly on [True].  Where it gives none for want of a peer average,
    the filter compares a positive PE with the default 20.0. *)
Theorem pe_filter_follows_is_below_average (self : IndustryAverages)
    (m : FinancialMetrics) (pe : Q) :
  pe_ratio m = Some pe ->
  let verdict := fst (is_below_average self (Some pe) (industry m) (sector m)) in
  let result := fst (filter_pe_below_industry fmt self m) in
  (forall below, verdict = Some below -> passed result = below)
  /\ (verdict = None -> 0 < pe ->
      passed result = Py.ltb pe 20.0 /\ threshold result = Some 20.0).
Proof.
  intros Hpe verdict result. subst verdict result.
  destruct (filter_pe_result self m pe Hpe) as (-> & _ & ->).
  unfold is_below_average.
  destruct (get_peer_average self (industry m) (sector m)) as [[avg|] self'];
    cbn [fst default from_option id].
  - destruct (Qle_bool pe 0) eqn:Hle; cbn [fst].
    + split; [done|]. intros _ Hpos. apply Qle_bool_iff in Hle. lra.
    + split; [by intros below [= <-]|done].
  - destruct (Qle_bool pe 0); cbn [fst]; (split; [done|]); by intros _ _.
Qed.

Lemma count_at_most_length (min_roic : Q) (history : list Metrics.float) :
  (length (filter (fun r => Metrics.fleb (Metrics.Fin min_roic) r = true) history)
   <= length history)%nat.
Proof. apply length_filter. Qed.

Lemma fleb_reaches (bound : Q) (r : Metrics.float) :
  Metrics.fleb (Metrics.Fin bound) r = true <-> reaches bound r.
Proof. destruct r as [|q]; cbn; [split; [discriminate|intros []]|apply Qle_bool_iff]. Qed.

(** X16.  The ROIC filter cannot pass on a history shorter than the
    required number of years, nor on an empty one whatever that number;
    when it passes, at least [roic_years] entries of the history are
    numbers at or above [min_roic], a NaN entry counting for none; and the
    verdict does not depend on the order of the history. *)
Theorem roic_filter_needs_history (m : FinancialMetrics)
    (history : list Metrics.float) :
  roic_history m = Some history ->
  let result := filter_roic_consistent thresholds fmt str_int m in
  let above := filter (reaches (Config.min_roic thresholds)) history in
  ((Z.of_nat (length history) < Config.roic_years thresholds)%Z \/ history = [] ->
     passed result = false)
  /\ (passed result = true ->
      (Config.roic_years thresholds <= Z.of_nat (length above))%Z /\ history <> [])
  /\ (forall m' history', roic_history m' = Some history' ->
      Permutation history history' ->
      passed (filter_roic_consistent thresholds fmt str_int m') = passed result).
Proof.
  intros Hh result above. subst result. unfold filter_roic_consistent.
  rewrite Hh. cbv zeta.
  assert (Habove : forall l : list Metrics.float,
             length (filter (fun r => Metrics.fleb (Metrics.Fin (Config.min_roic thresholds)) r
                                      = true) l)
             = length (filter (reaches (Config.min_roic thresholds)) l)).
  { intros l. f_equal. apply list_filter_iff. intros r. apply fleb_reaches. }
  split; [|split].
  - intros [Hshort| ->]; [|done]. destruct history as [|r history]; [done|].
    cbn [passed]. apply Z.leb_gt.
    pose proof (count_at_most_length (Config.min_roic thresholds) (r :: history)). lia.
  - destruct history as [|r history]; [done|]. cbn [passed]. intros Hpass.
    apply Z.leb_le in Hpass. rewrite Habove in Hpass. by split.
  - intros m' history' Hh' Hperm. rewrite Hh'.
    destruct history as [|r history], history' as [|r' history'];
      [done|by apply Permutation_nil_cons in Hperm
       |by symmetry in Hperm; apply Permutation_nil_cons in Hperm|].
    cbn [passed]. by rewrite Hperm.
Qed.

End FiltersMore.


Lemma pe_filter_follows_is_below_average_witness :
  passed (fst (Filters.filter_pe_below_industry Render.format_fixed
                 (Screener._build_industry_averages (Industry.__init__ None)
                    [listed "Banks" 8; listed "Banks" 15])
                 (listed "Banks" 8).1)) = true.
Proof.
  apply (proj1 (pe_filter_follows_is_below_average Render.format_fixed
                  (Screener._build_industry_averages (Industry.__init__ None)
                     [listed "Banks" 8; listed "Banks" 15])
                  (listed "Banks" 8).1 8 eq_refl) true).
  vm_compute. reflexivity.
Defined.

Lemma roic_filter_needs_history_witness :
  passed (Filters.filter_roic_consistent Config.default_thresholds Render.format_fixed
            Render.str_int worked_company) = false.
Proof.
  apply (proj1 (roic_filter_needs_history Config.default_thresholds Render.format_fixed
                  Render.str_int worked_company [Metrics.Fin 0.12] eq_refl)).
  left. vm_compute. reflexivity.
Defined.

(** ** Ranking *)

Section RankingFacts.

Import Screener.

Variable sort_unordered : list ScreeningResult -> list ScreeningResult.

Implicit Types (r : ScreeningResult) (l results : list ScreeningResult).

Lemma sorted_by_score_numbers results :
  Forall (fun r => score r <> Metrics.NaN) results ->
  sorted_by_score sort_unordered results = foldr insert_by_score [] results.
Proof.
  intros Hnum. unfold sorted_by_score.
  replace (forallb _ results) with true; [done|].
  symmetry. induction Hnum as [|r results Hr _ IH]; [done|].
  cbn [forallb]. rewrite IH. by destruct (score r).
Qed.

Lemma insert_by_score_perm r l : Permutation (insert_by_score r l) (r :: l).
Proof.
  induction l as [|r' l IH]; cbn; [done|].
  destruct (Metrics.fltb (score r) (score r')); [|done].
  rewrite IH. apply perm_swap.
Qed.

Lemma insertion_perm results : Permutation (foldr insert_by_score [] results) results.
Proof.
  induction results as [|r results IH]; cbn; [done|].
  rewrite insert_by_score_perm. by constructor.
Qed.

Lemma insert_by_score_sorted r l :
  score r <> Metrics.NaN -> Forall (fun x => score x <> Metrics.NaN) l ->
  StronglySorted not_better l -> StronglySorted not_better (insert_by_score r l).
Proof.
  intros Hr Hnum. induction 1 as [|r' l Hl IH Hall]; cbn; [by repeat constructor|].
  apply Forall_cons in Hnum as [Hr' Hnum].
  destruct (Metrics.fltb (score r) (score r')) eqn:Hlt.
  - apply SSorted_cons; [by apply IH|]. rewrite insert_by_score_perm.
    constructor; [|exact Hall]. unfold not_better.
    destruct (score r) as [|x], (score r') as [|y]; try done.
    cbn in Hlt. apply ltb_lt in Hlt. lra.
  - assert (Hhead : not_better r r').
    { unfold not_better. destruct (score r) as [|x], (score r') as [|y]; try done.
      cbn in Hlt. by apply ltb_ge in Hlt. }
    apply SSorted_cons; [by apply SSorted_cons|].
    constructor; [exact Hhead|]. eapply Forall_impl; [exact Hall|].
    unfold not_better in *. intros x Hx.
    destruct (score r), (score r'), (score x); try done. lra.
Qed.

Lemma insertion_sorted results :
  Forall (fun r => score r <> Metrics.NaN) results ->
  StronglySorted not_better (foldr insert_by_score [] results).
Proof.
  induction 1 as [|r results Hr Hnum IH]; cbn; [constructor|].
  apply insert_by_score_sorted; [exact Hr| |exact IH].
  by rewrite insertion_perm.
Qed.

(** The results of one score are passed over by the insertion of a result
    of that score only when they come after it. *)
Lemma insert_by_score_stable (q : Q) r l :
  scoring q (insert_by_score r l) = scoring q (r :: l).
Proof.
  unfold scoring.
  induction l as [|r' l IH]; cbn [insert_by_score]; [done|].
  destruct (Metrics.fltb (score r) (score r')) eqn:Hlt; [|done].
  rewrite filter_cons, IH, !filter_cons.
  destruct (decide (same_float (score r') (Metrics.Fin q))) as [Hr'|Hr'],
    (decide (same_float (score r) (Metrics.Fin q))) as [Hr|Hr]; try done.
  destruct (score r) as [|x], (score r') as [|y]; try done.
  cbn in Hlt, Hr, Hr'. apply ltb_lt in Hlt. lra.
Qed.

Lemma insertion_stable (q : Q) results :
  scoring q (foldr insert_by_score [] results) = scoring q results.
Proof.
  induction results as [|r results IH]; cbn [foldr]; [done|].
  rewrite insert_by_score_stable. unfold scoring in *. by rewrite !filter_cons, IH.
Qed.

Lemma sorted_app_cross {A} (R : A -> A -> Prop) (front back : list A) :
  StronglySorted R (front ++ back) ->
  forall x y, x ∈ front -> y ∈ back -> R x y.
Proof.
  induction front as [|a front IH]; cbn; intros Hs x y Hx Hy.
  - by apply elem_of_nil in Hx.
  - apply StronglySorted_inv in Hs as [Hs Hall].
    apply elem_of_cons in Hx as [->|Hx]; [|by apply IH].
    rewrite Forall_forall in Hall. apply Hall, elem_of_app. by right.
Qed.

Lemma sorted_app_front {A} (R : A -> A -> Prop) (front back : list A) :
  StronglySorted R (front ++ back) -> StronglySorted R front.
Proof.
  induction front as [|a front IH]; cbn; intros Hs; [constructor|].
  apply StronglySorted_inv in Hs as [Hs Hall]. constructor; [by apply IH|].
  by apply Forall_app in Hall as [Hall _].
Qed.

(** [l[:n]] is a prefix of [l]: of [min(n, len(l))] items for [n >= 0],
    and all but the last [-n] for a negative [n]. *)
Lemma slice_to_take {A} (l : list A) (n : Z) :
  exists k, slice_to l n = take k l
    /\ Z.of_nat (length (slice_to l n))
       = if (n <? 0)%Z then Z.max 0 (Z.of_nat (length l) + n)
         else Z.min n (Z.of_nat (length l)).
Proof.
  unfold slice_to. destruct (n <? 0)%Z eqn:Hn.
  - apply Z.ltb_lt in Hn. eexists. split; [reflexivity|]. rewrite length_take. lia.
  - apply Z.ltb_ge in Hn. eexists. split; [reflexivity|]. rewrite length_take. lia.
Qed.

(** X17.  On results whose scores are all numbers, [get_top_n] returns
    the first [min(n, len(results))] of the results in descending order of
    score, and for a negative [n] all but the last [-n] of them: none of
    the results that it leaves out has a higher score than one that it
    returns, and together the two parts are the input. *)
Theorem get_top_n_takes_the_best results (n : Z) :
  Forall (fun r => score r <> Metrics.NaN) results ->
  let top := get_top_n sort_unordered results n in
  let size := Z.of_nat (length results) in
  Z.of_nat (length top) = (if (n <? 0)%Z then Z.max 0 (size + n) else Z.min n size)
  /\ StronglySorted not_better top
  /\ exists rest,
       Permutation (top ++ rest) results
       /\ forall kept left_out, kept ∈ top -> left_out ∈ rest ->
                                not_better kept left_out.
Proof.
  intros Hnum top size. subst top size. unfold get_top_n.
  rewrite (sorted_by_score_numbers results Hnum).
  destruct (slice_to_take (foldr insert_by_score [] results) n) as (k & -> & Hlen).
  rewrite (Permutation_length (insertion_perm results)) in Hlen.
  pose proof (insertion_sorted results Hnum) as Hsorted.
  rewrite <- (take_drop k (foldr insert_by_score [] results)) in Hsorted.
  split; [exact Hlen|]. split.
  - by apply sorted_app_front in Hsorted.
  - exists (drop k (foldr insert_by_score [] results)). split.
    + rewrite take_drop. apply insertion_perm.
    + intros kept left_out Hk Hl. by apply (sorted_app_cross _ _ _ Hsorted).
Qed.

(** X18.  The count of passed filters never exceeds the number of filters
    evaluated, so a [min_filters] above that number leaves no result.
    When the scores of the results with at least [min_filters] passed
    filters are all numbers, [run] ranks exactly these results, best score
    first, and results of equal score stay in the order in which they
    were screened. *)
Theorem rank_passed_selects_and_orders results (min_filters : Z) :
  let ranked := rank_passed sort_unordered results min_filters in
  let selected :=
    filter (fun r => (min_filters <= Z.of_nat (passed_count r))%Z) results in
  (Forall (fun r => score r <> Metrics.NaN) selected ->
     (forall r, r ∈ ranked <->
                r ∈ results /\ (min_filters <= Z.of_nat (passed_count r))%Z)
     /\ StronglySorted not_better ranked
     /\ (forall q, scoring q ranked = scoring q selected))
  /\ (forall r, (passed_count r <= total_filters r)%nat)
  /\ ((forall r, r ∈ results -> (Z.of_nat (total_filters r) < min_filters)%Z) ->
      ranked = []).
Proof.
  intros ranked selected. subst ranked. unfold rank_passed. fold selected.
  assert (Hcount : forall r, (passed_count r <= total_filters r)%nat)
    by (intros r; apply map_size_filter).
  split; [|split].
  - intros Hnum. rewrite (sorted_by_score_numbers selected Hnum).
    split; [|split].
    + intros r. rewrite insertion_perm. subst selected.
      rewrite list_elem_of_filter. tauto.
    + by apply insertion_sorted.
    + intros q. apply insertion_stable.
  - exact Hcount.
  - intros Hhigh.
    assert (Hnone : selected = []).
    { subst selected. induction results as [|r results IH]; [done|].
      rewrite filter_cons. destruct (decide _) as [Hq|_].
      - specialize (Hhigh r ltac:(left)). specialize (Hcount r). lia.
      - apply IH. intros x Hx. apply Hhigh. by right. }
    by rewrite Hnone.
Qed.

(** The two results of score 40 keep their order behind the one of
    score 55, and the top two are B and A; a negative count leaves out
    the last ones. *)
Example ranking_is_stable :
  ticker ∘ metrics <$> rank_passed sort_unordered three_results 1
  = ["B.OL"; "A.OL"; "C.OL"]
  /\ ticker ∘ metrics <$> get_top_n sort_unordered three_results 2 = ["B.OL"; "A.OL"]
  /\ ticker ∘ metrics <$> get_top_n sort_unordered three_results (-2) = ["B.OL"]
  /\ ticker ∘ metrics <$> rank_passed sort_unordered three_results 2 = ["A.OL"; "C.OL"].
Proof. repeat split; vm_compute; reflexivity. Qed.

End RankingFacts.

Lemma get_top_n_takes_the_best_witness :
  Z.of_nat (length (Screener.get_top_n (fun l => l) three_results 2)) = 2%Z
  /\ StronglySorted not_better (Screener.get_top_n (fun l => l) three_results 2).
Proof.
  destruct (get_top_n_takes_the_best (fun l => l) three_results 2)
    as (Hlen & Hsorted & _).
  - repeat constructor; discriminate.
  - split; [exact Hlen|exact Hsorted].
Defined.

Lemma rank_passed_selects_and_orders_witness :
  StronglySorted not_better (Screener.rank_passed (fun l => l) three_results 1).
Proof.
  apply (proj1 (rank_passed_selects_and_orders (fun l => l) three_results 1)).
  vm_compute. repeat constructor; discriminate.
Defined.

(** ** Cache keys *)

Section CacheFacts.

Import Cache.

Lemma append_cons (c : Ascii.ascii) (s t : string) :
  String c s +:+ t = String c (s +:+ t).
Proof. reflexivity. Qed.

Lemma append_nil (t : string) : EmptyString +:+ t = t.
Proof. reflexivity. Qed.

Lemma append_colon_inj (p p' i i' : string) :
  has_colon p = false -> has_colon p' = false ->
  p +:+ ":" +:+ i = p' +:+ ":" +:+ i' -> p = p' /\ i = i'.
Proof.
  revert p'. induction p as [|c p IH]; intros [|c' p'] Hp Hp' Heq;
    rewrite ?append_cons, ?append_nil in Heq; cbn in Hp, Hp'.
  - by injection Heq as ->.
  - injection Heq as <- _. cbn in Hp'. discriminate.
  - injection Heq as -> _. cbn in Hp. discriminate.
  - injection Heq as -> Heq.
    apply orb_false_iff in Hp as [_ Hp]. apply orb_false_iff in Hp' as [_ Hp'].
    destruct (IH p' Hp Hp' Heq) as [-> ->]. done.
Qed.

(** X19.  Two cache keys are equal only when both the prefix and the
    identifier are, for prefixes without a colon; so the company lists,
    the financial statements and the industry averages never share a key,
    whatever the exchange or ticker is called. *)
Theorem cache_keys_do_not_collide :
  (forall p p' i i',
      has_colon p = false -> has_colon p' = false ->
      _make_key p i = _make_key p' i' -> p = p' /\ i = i')
  /\ (forall exchange ticker, company_list_key exchange <> financials_key ticker)
  /\ (forall exchange, company_list_key exchange <> industry_averages_key)
  /\ (forall ticker, financials_key ticker <> industry_averages_key)
  /\ (forall ticker ticker', financials_key ticker = financials_key ticker' ->
                             ticker = ticker').
Proof.
  split; [exact append_colon_inj|].
  repeat split.
  - intros exchange ticker H. by apply append_colon_inj in H as [H _].
  - intros exchange H. by apply append_colon_inj in H as [H _].
  - intros ticker H. by apply append_colon_inj in H as [H _].
  - intros ticker ticker' H. by apply append_colon_inj in H as [_ H].
Qed.

End CacheFacts.

(** ** The score and the PE filter *)

Section ScoreMore.

Import Industry Filters Screener.

Variable fmt : nat -> Q -> string.

Lemma pe_term_without_entry (filter_results : gmap string FilterResult) :
  pe_term (delete "pe_below_max" filter_results) = 0.
Proof. unfold pe_term. by rewrite lookup_delete_eq. Qed.

Lemma Qeq_bool_false (a b : Q) : ~ a == b -> Qeq_bool a b = false.
Proof. intros Hne. apply not_true_iff_false. by rewrite Qeq_bool_iff. Qed.

Lemma pe_term_of_entry (filter_results : gmap string FilterResult) (r : FilterResult)
    (pe t : Q) :
  filter_results !! "pe_below_max" = Some r ->
  value r = Some (Metrics.Fin pe) -> threshold r = Some t -> 0 < t -> ~ pe == 0 ->
  pe_term filter_results == clamp ((t - pe) / t * 40) 0 20.
Proof.
  intros Hr Hv Ht Hpos Hnz. unfold pe_term. rewrite Hr, Hv, Ht.
  rewrite (Qeq_bool_false pe 0), (Qeq_bool_false t 0); [reflexivity|lra|done].
Qed.

(** The PE entry adds the PE-discount term to the score. *)
Lemma score_with_pe_entry (m : FinancialMetrics) (growth_data : gmap string Z)
    (filter_results : gmap string FilterResult) :
  same_float (_calculate_score m growth_data filter_results)
    (Metrics.fadd
       (_calculate_score m growth_data (delete "pe_below_max" filter_results))
       (Metrics.Fin (pe_term filter_results))).
Proof.
  assert (Hcases : roic m = Some Metrics.NaN \/ roic m <> Some Metrics.NaN).
  { destruct (roic m) as [[|r]|]; [by left|by right|by right]. }
  destruct Hcases as [Hnan|Hnum].
  - by rewrite !score_nan.
  - destruct (score_terms m growth_data filter_results Hnum) as (s & -> & Hs).
    destruct (score_terms m growth_data (delete "pe_below_max" filter_results) Hnum)
      as (s' & -> & Hs').
    rewrite pe_term_without_entry in Hs'. cbn. lra.
Qed.

(** X23.  The PE entry of the filter results adds nothing to the score of
    a company that fails the PE filter against a positive threshold, and
    between 0 and 20 points, more than 0, to one that passes with a PE
    other than zero; the full 20 points go to a positive PE at or below
    half the threshold. *)
Theorem pe_points_follow_pe_filter (self : IndustryAverages) (m : FinancialMetrics)
    (growth_data : gmap string Z) (filter_results : gmap string FilterResult)
    (pe t : Q) :
  pe_ratio m = Some pe ->
  let result := fst (filter_pe_below_industry fmt self m) in
  filter_results !! "pe_below_max" = Some result ->
  threshold result = Some t -> 0 < t ->
  exists points,
    same_float (_calculate_score m growth_data filter_results)
      (Metrics.fadd
         (_calculate_score m growth_data (delete "pe_below_max" filter_results))
         (Metrics.Fin points))
    /\ (passed result = false -> points == 0)
    /\ (passed result = true -> ~ pe == 0 -> 0 < points /\ points <= 20)
    /\ (0 < pe -> pe * 2 <= t -> points == 20).
Proof.
  intros Hpe result Hentry Ht Hpos.
  exists (pe_term filter_results). split; [apply score_with_pe_entry|].
  set (points := pe_term filter_results).
  assert (Hpoints : points == pe_term filter_results) by reflexivity.
  clearbody points.
  destruct (filter_pe_result fmt self m pe Hpe) as (Hpassed & Hvalue & Hthreshold).
  fold result in Hpassed, Hvalue, Hthreshold.
  rewrite Ht in Hthreshold. injection Hthreshold as Hthreshold.
  assert (Hdiscount : forall d, d == (t - pe) / t -> (0 < d <-> pe < t)).
  { intros d ->. rewrite Qdiv_pos by done. split; lra. }
  rewrite Hpassed, <- Hthreshold.
  split; [|split].
  - intros Hfail. apply ltb_ge in Hfail. rewrite Hpoints.
    destruct (Qeq_dec pe 0) as [Hz|Hnz].
    + unfold pe_term. rewrite Hentry, Hvalue.
      rewrite (proj2 (Qeq_bool_iff pe 0) Hz). by destruct (threshold result).
    + rewrite (pe_term_of_entry _ _ _ _ Hentry Hvalue Ht Hpos Hnz). unfold clamp.
      specialize (Hdiscount _ (Qeq_refl _)).
      assert (Hd : (t - pe) / t <= 0) by (apply Qnot_lt_le; rewrite Hdiscount; lra).
      revert Hd. generalize ((t - pe) / t). intros d Hd.
      destruct (Q.min_spec (d * 40) 20) as [[? H1]|[? H1]];
        destruct (Q.max_spec 0 (Qmin (d * 40) 20)) as [[? H2]|[? H2]]; lra.
  - intros Hpass Hnz. apply ltb_lt in Hpass. rewrite Hpoints.
    rewrite (pe_term_of_entry _ _ _ _ Hentry Hvalue Ht Hpos Hnz). unfold clamp.
    specialize (Hdiscount _ (Qeq_refl _)).
    assert (Hd : 0 < (t - pe) / t) by (rewrite Hdiscount; lra).
    revert Hd. generalize ((t - pe) / t). intros d Hd.
    destruct (Q.min_spec (d * 40) 20) as [[? H1]|[? H1]];
      destruct (Q.max_spec 0 (Qmin (d * 40) 20)) as [[? H2]|[? H2]]; lra.
  - intros Hpe0 Hhalf. rewrite Hpoints.
    rewrite (pe_term_of_entry _ _ _ _ Hentry Hvalue Ht Hpos) by lra. unfold clamp.
    assert (Hd : (1 # 2) <= (t - pe) / t).
    { apply Qle_shift_div_l; [done|]. lra. }
    revert Hd. generalize ((t - pe) / t). intros d Hd.
    destruct (Q.min_spec (d * 40) 20) as [[? H1]|[? H1]];
      destruct (Q.max_spec 0 (Qmin (d * 40) 20)) as [[? H2]|[? H2]]; lra.
Qed.

End ScoreMore.

Lemma pe_points_follow_pe_filter_witness :
  exists points,
    same_float (Screener._calculate_score (listed "Banks" 15).1 ∅ highest_pe_results)
      (Metrics.fadd
         (Screener._calculate_score (listed "Banks" 15).1 ∅
            (delete "pe_below_max" highest_pe_results))
         (Metrics.Fin points))
    /\ points == 0.
Proof.
  destruct (pe_points_follow_pe_filter Render.format_fixed
              (Screener._build_industry_averages (Industry.__init__ None)
                 [listed "Banks" 8; listed "Banks" 15])
              (listed "Banks" 15).1 ∅ highest_pe_results 15 ((8 + 15) / 2))
    as (points & Hsame & Hfail & _).
  - reflexivity.
  - vm_compute. reflexivity.
  - vm_compute. reflexivity.
  - vm_compute. reflexivity.
  - exists points. split; [exact Hsame|]. apply Hfail. vm_compute. reflexivity.
Defined.
